(** * MyWorkView: board-data viewer for a work-management platform

    A shallow embedding of the client-side core of the application:
    - [useMondayAPI.queryMonday] and [App.retry], the two retrying request
      executors;
    - [App.fetchBoardData], the aggregation fetcher, and the polling timer;
    - [App.loadSettings] / [App.saveSettingsAutomatically], the settings store;
    - [App.allAvailableColumnsForSelectedBoards], the unified column list;
    - [TaskTable.filteredAndSortedBoardItems], the view reconciler;
    - [App]'s selection handlers, its lazily loaded board list and the
      columns it hands to [TaskTable];
    - [TaskTable.fetchAndCacheUser], [handleSaveEdit] and
      [handleStatusChange], with the documents of mondayQueries.js.

    Conventions.  An [async] function is a state-passing function over the
    world it talks to, returning a settled promise ([Resolved] / [Rejected]).
    React state is a record; a [setX(v)] call is a record update.  JavaScript
    strings are modelled as Rocq strings of 8-bit code units.  Built-ins that
    the repository only calls ([JSON.parse], [JSON.stringify], the [Date]
    constructor, the host SDK) are parameters of the sections that use them. *)

From Stdlib Require Import ZArith List Bool String Ascii Lia Permutation.
From stdpp Require Import base option list gmap strings fin_maps pretty.
Import ListNotations.
Local Open Scope string_scope.
Local Open Scope Z_scope.

(* ===================================================================== *)
(** * Part I.  The embedding                                              *)
(* ===================================================================== *)

(** ** JavaScript string primitives used by the sources *)

Module Js.

(** [hay.includes(needle)]. *)
Fixpoint includes (hay needle : string) : bool :=
  String.prefix needle hay
  || match hay with
     | EmptyString => false
     | String _ rest => includes rest needle
     end.

(** White space removed by [String.prototype.trim], restricted to the code
    units below 256: TAB, LF, VT, FF, CR, SPACE and NBSP. *)
Definition isWhiteSpace (c : ascii) : bool :=
  let n := nat_of_ascii c in
  existsb (Nat.eqb n) [9; 10; 11; 12; 13; 32; 160]%nat.

Fixpoint trimStart (s : string) : string :=
  match s with
  | EmptyString => EmptyString
  | String c rest => if isWhiteSpace c then trimStart rest else s
  end.

Fixpoint trimEnd (s : string) : string :=
  match s with
  | EmptyString => EmptyString
  | String c rest =>
      match trimEnd rest with
      | EmptyString => if isWhiteSpace c then EmptyString else String c EmptyString
      | rest' => String c rest'
      end
  end.

(** [s.trim()]. *)
Definition trim (s : string) : string := trimEnd (trimStart s).

(** [arr.join(sep)] on an array of strings. *)
Definition join (sep : string) (l : list string) : string := String.concat sep l.

(** [arr.includes(x)] on an array of strings. *)
Definition arr_includes (l : list string) (x : string) : bool :=
  existsb (String.eqb x) l.

(** [arr.find(p)]: first element satisfying [p], [None] for [undefined]. *)
Definition find {A} (p : A -> bool) (l : list A) : option A := List.find p l.

(** [obj[key]?.name] for a key that [obj], a plain object, does not hold
    itself: the read reaches [Object.prototype].  Its [constructor] is the
    function [Object]; its other function properties are named after
    their keys; [__proto__] reads the prototype itself, which has no
    [name]; every other key is [undefined]. *)
Definition inheritedName (key : string) : option string :=
  if String.eqb key "constructor" then Some "Object"
  else if existsb (String.eqb key)
            ["__defineGetter__"; "__defineSetter__"; "hasOwnProperty";
             "__lookupGetter__"; "__lookupSetter__"; "isPrototypeOf";
             "propertyIsEnumerable"; "toString"; "valueOf"; "toLocaleString"]
       then Some key
       else None.

End Js.

(** ** Errors and settled promises *)

(** One entry of a GraphQL [errors] array. *)
Record GqlExtensions := { ext_code : option string }.
Record GqlError := { gql_message : string; gql_extensions : option GqlExtensions }.

(** [error.response] of an error thrown by the transport. *)
Record ErrResponse := { resp_status : option Z; resp_errors : option (list GqlError) }.

(** A thrown JavaScript [Error]: its [name] (the only kind tag an [Error]
    carries), its [message] and the optional [response] attached by the
    transport. *)
Record JsError := {
  err_name : string;
  err_message : string;
  err_response : option ErrResponse
}.

(** [new Error(msg)]. *)
Definition new_Error (msg : string) : JsError :=
  {| err_name := "Error"; err_message := msg; err_response := None |}.

Inductive Settled (A : Type) : Type :=
| Resolved (a : A)
| Rejected (e : JsError).
Arguments Resolved {A} a.
Arguments Rejected {A} e.

(** What [monday.api] resolves with: [{ data, errors? }]. *)
Record ApiResponse (Data : Type) := {
  api_errors : option (list GqlError);
  api_data : Data
}.
Arguments api_errors {Data} _.
Arguments api_data {Data} _.

(** Ghost trace of an executor run, oldest event first: [Call] is one
    invocation of the wrapped operation, [Sleep ms] one awaited
    [setTimeout(_, ms)]. *)
Inductive Event := Call | Sleep (ms : Z).

(** ** useMondayAPI.queryMonday and App.retry *)

Module Executor.
Section Executor.
Context {World Data : Type}.

(** [monday.api(query, { variables })]; every caller leaves [variables]
    at its default. *)
Variable monday_api : string -> World -> Settled (ApiResponse Data) * World.

(** [response.errors.some(err => err.message.includes('Rate limit passed')
      || err.message.includes('Rate limit exceeded'))]. *)
Definition rateLimitError (errs : list GqlError) : bool :=
  existsb (fun err => Js.includes (gql_message err) "Rate limit passed"
                      || Js.includes (gql_message err) "Rate limit exceeded") errs.

(** [new Error(response.errors.map(e => e.message).join('; '))]. *)
Definition errors_to_Error (errs : list GqlError) : JsError :=
  new_Error (Js.join "; " (map gql_message errs)).

(** [queryMonday(query, variables = {}, retries = 3, delay = 500)].
    [retries] is a natural number, so [retries > 0] with [retries - 1] in
    the recursive call is the match on [S r].  A [throw] inside the [try]
    block lands in the [catch] block, [catch_] below; the recursive calls
    are returned without [await], so their rejections do not. *)
Fixpoint queryMonday (query : string) (retries : nat) (delay : Z) (w : World)
  : Settled Data * World * list Event :=
  let catch_ (error : JsError) (w1 : World) :=
    match retries with
    | S r =>
        if Js.includes (err_message error) "Rate limit passed"
        then let '(o, w2, tr) := queryMonday query r (delay * 2) w1 in
             (o, w2, Call :: Sleep delay :: tr)
        else (Rejected error, w1, [Call])
    | O => (Rejected error, w1, [Call])
    end in
  match monday_api query w with
  | (Resolved response, w1) =>
      match api_errors response with
      | Some errs =>
          match retries with
          | S r =>
              if rateLimitError errs
              then let '(o, w2, tr) := queryMonday query r (delay * 2) w1 in
                   (o, w2, Call :: Sleep delay :: tr)
              else catch_ (errors_to_Error errs) w1
          | O => catch_ (errors_to_Error errs) w1
          end
      | None => (Resolved (api_data response), w1, [Call])
      end
  | (Rejected error, w1) => catch_ error w1
  end.

(** The classifier inside [retry]'s [catch] block. *)
Definition retry_classifier (error : JsError) : bool :=
  let isConcurrencyError := Js.includes (err_message error) "Concurrency limit exceeded" in
  let isGraphqlError := Js.includes (err_message error) "Graphql validation errors" in
  let isRateLimitStatusCode :=
    match err_response error with
    | Some r => match resp_status r with Some s => s =? 429 | None => false end
    | None => false
    end in
  let errorExtensions :=
    match err_response error with
    | Some r =>
        match resp_errors r with
        | Some (e0 :: _) => gql_extensions e0
        | _ => None
        end
    | None => None
    end in
  let isFieldLimitExceededCode :=
    match errorExtensions with
    | Some x => match ext_code x with
                | Some c => String.eqb c "FIELD_LIMIT_EXCEEDED"
                | None => false
                end
    | None => false
    end in
  isConcurrencyError || isGraphqlError || isRateLimitStatusCode || isFieldLimitExceededCode.

(** [retry(fn, retries = 5, delay = 2000, factor = 2)]. *)
Fixpoint retry {A} (fn : World -> Settled A * World)
         (retries : nat) (delay factor : Z) (w : World)
  : Settled A * World * list Event :=
  match fn w with
  | (Resolved a, w1) => (Resolved a, w1, [Call])
  | (Rejected error, w1) =>
      match retries with
      | S r =>
          if retry_classifier error
          then let '(o, w2, tr) := retry fn r (delay * factor) factor w1 in
               (o, w2, Call :: Sleep delay :: tr)
          else (Rejected error, w1, [Call])
      | O => (Rejected error, w1, [Call])
      end
  end.

(** The call sites of App.jsx: [retry(() => queryMonday(query))]. *)
Definition execute (query : string) (w : World) : Settled Data * World :=
  let '(o, w', _) :=
    retry (fun w0 => let '(o, w1, _) := queryMonday query 3 500 w0 in (o, w1))
          5 2000 2 w in
  (o, w').

End Executor.
End Executor.

(** ** Data model (mondayQueries.js, App.jsx) *)

(** A column as returned by [GET_BOARD_COLUMNS_QUERY]. *)
Record Column := {
  col_id : string;
  col_title : string;
  col_type : string;
  settings_str : option string
}.

(** A column value of an item; [None] is [null] / [undefined]. *)
Record ColumnValue := {
  cv_id : string;
  cv_text : option string;
  cv_value : option string;
  cv_display_value : option string
}.

(** An item as returned by [GET_BOARD_ITEMS_WITH_COLUMNS_QUERY] (its [board]
    and [group] sub-objects are carried along by the spread but never read). *)
Record RawItem := {
  raw_id : string;
  raw_name : string;
  raw_column_values : list ColumnValue
}.

(** An item of [boardItems]: [{ ...item, boardId, boardName }]. *)
Record Item := {
  item_id : string;
  item_name : string;
  column_values : list ColumnValue;
  boardId : string;
  boardName : string
}.

Record ItemsPage := { items : option (list RawItem) }.

Record BoardData := {
  board_id : string;
  board_name : string;
  board_columns : option (list Column);
  items_page : option ItemsPage
}.

(** [response.data] of the board queries. *)
Record QueryData := { boards : option (list BoardData) }.

(** An entry of [allBoardsData]. *)
Record BoardInfo := {
  info_id : string;
  info_name : string;
  info_columns : list Column
}.

(** ** mondayQueries.js: the two documents the fetcher sends *)

Module Queries.

Definition dquote : string := String (ascii_of_nat 34) EmptyString.

(** White space and the comment line of the templates are not reproduced. *)
Definition GET_BOARD_COLUMNS_QUERY : string :=
  "query { boards { id name columns { id title type settings_str } } }".

Definition GET_BOARD_ITEMS_WITH_COLUMNS_QUERY (boardId : string) (columnIds : list string)
  : string :=
  "query { boards(ids: [" ++ boardId ++ "]) { id name items_page(limit: 500) { items { "
  ++ "id name board { id name } group { id title } column_values(ids: ["
  ++ Js.join "," (map (fun id => dquote ++ id ++ dquote) columnIds)
  ++ "]) { id text value } } } } }".

End Queries.

(** ** App.jsx: component state *)

Record AppState := {
  isSidebarOpen : bool;
  selectedBoardIds : list string;
  selectedColumnIds : list string;
  allBoardsData : gmap string BoardInfo;
  boardItems : list Item;
  isAppLoading : bool;
  isLoadingColumns : bool;
  isLoadingItems : bool;
  isPolling : bool;
  appError : option string;
  columnsError : option string;
  itemsError : option string
}.

(** The [useState] setters. *)
Definition setIsSidebarOpen (v : bool) (s : AppState) : AppState :=
  {| isSidebarOpen := v; selectedBoardIds := selectedBoardIds s;
     selectedColumnIds := selectedColumnIds s; allBoardsData := allBoardsData s;
     boardItems := boardItems s; isAppLoading := isAppLoading s;
     isLoadingColumns := isLoadingColumns s; isLoadingItems := isLoadingItems s;
     isPolling := isPolling s; appError := appError s;
     columnsError := columnsError s; itemsError := itemsError s |}.
Definition setSelectedBoardIds (v : list string) (s : AppState) : AppState :=
  {| isSidebarOpen := isSidebarOpen s; selectedBoardIds := v;
     selectedColumnIds := selectedColumnIds s; allBoardsData := allBoardsData s;
     boardItems := boardItems s; isAppLoading := isAppLoading s;
     isLoadingColumns := isLoadingColumns s; isLoadingItems := isLoadingItems s;
     isPolling := isPolling s; appError := appError s;
     columnsError := columnsError s; itemsError := itemsError s |}.
Definition setSelectedColumnIds (v : list string) (s : AppState) : AppState :=
  {| isSidebarOpen := isSidebarOpen s; selectedBoardIds := selectedBoardIds s;
     selectedColumnIds := v; allBoardsData := allBoardsData s;
     boardItems := boardItems s; isAppLoading := isAppLoading s;
     isLoadingColumns := isLoadingColumns s; isLoadingItems := isLoadingItems s;
     isPolling := isPolling s; appError := appError s;
     columnsError := columnsError s; itemsError := itemsError s |}.
Definition setAllBoardsData (v : gmap string BoardInfo) (s : AppState) : AppState :=
  {| isSidebarOpen := isSidebarOpen s; selectedBoardIds := selectedBoardIds s;
     selectedColumnIds := selectedColumnIds s; allBoardsData := v;
     boardItems := boardItems s; isAppLoading := isAppLoading s;
     isLoadingColumns := isLoadingColumns s; isLoadingItems := isLoadingItems s;
     isPolling := isPolling s; appError := appError s;
     columnsError := columnsError s; itemsError := itemsError s |}.
Definition setBoardItems (v : list Item) (s : AppState) : AppState :=
  {| isSidebarOpen := isSidebarOpen s; selectedBoardIds := selectedBoardIds s;
     selectedColumnIds := selectedColumnIds s; allBoardsData := allBoardsData s;
     boardItems := v; isAppLoading := isAppLoading s;
     isLoadingColumns := isLoadingColumns s; isLoadingItems := isLoadingItems s;
     isPolling := isPolling s; appError := appError s;
     columnsError := columnsError s; itemsError := itemsError s |}.
Definition setIsAppLoading (v : bool) (s : AppState) : AppState :=
  {| isSidebarOpen := isSidebarOpen s; selectedBoardIds := selectedBoardIds s;
     selectedColumnIds := selectedColumnIds s; allBoardsData := allBoardsData s;
     boardItems := boardItems s; isAppLoading := v;
     isLoadingColumns := isLoadingColumns s; isLoadingItems := isLoadingItems s;
     isPolling := isPolling s; appError := appError s;
     columnsError := columnsError s; itemsError := itemsError s |}.
Definition setIsLoadingColumns (v : bool) (s : AppState) : AppState :=
  {| isSidebarOpen := isSidebarOpen s; selectedBoardIds := selectedBoardIds s;
     selectedColumnIds := selectedColumnIds s; allBoardsData := allBoardsData s;
     boardItems := boardItems s; isAppLoading := isAppLoading s;
     isLoadingColumns := v; isLoadingItems := isLoadingItems s;
     isPolling := isPolling s; appError := appError s;
     columnsError := columnsError s; itemsError := itemsError s |}.
Definition setIsLoadingItems (v : bool) (s : AppState) : AppState :=
  {| isSidebarOpen := isSidebarOpen s; selectedBoardIds := selectedBoardIds s;
     selectedColumnIds := selectedColumnIds s; allBoardsData := allBoardsData s;
     boardItems := boardItems s; isAppLoading := isAppLoading s;
     isLoadingColumns := isLoadingColumns s; isLoadingItems := v;
     isPolling := isPolling s; appError := appError s;
     columnsError := columnsError s; itemsError := itemsError s |}.
Definition setIsPolling (v : bool) (s : AppState) : AppState :=
  {| isSidebarOpen := isSidebarOpen s; selectedBoardIds := selectedBoardIds s;
     selectedColumnIds := selectedColumnIds s; allBoardsData := allBoardsData s;
     boardItems := boardItems s; isAppLoading := isAppLoading s;
     isLoadingColumns := isLoadingColumns s; isLoadingItems := isLoadingItems s;
     isPolling := v; appError := appError s;
     columnsError := columnsError s; itemsError := itemsError s |}.
Definition setAppError (v : option string) (s : AppState) : AppState :=
  {| isSidebarOpen := isSidebarOpen s; selectedBoardIds := selectedBoardIds s;
     selectedColumnIds := selectedColumnIds s; allBoardsData := allBoardsData s;
     boardItems := boardItems s; isAppLoading := isAppLoading s;
     isLoadingColumns := isLoadingColumns s; isLoadingItems := isLoadingItems s;
     isPolling := isPolling s; appError := v;
     columnsError := columnsError s; itemsError := itemsError s |}.
Definition setColumnsError (v : option string) (s : AppState) : AppState :=
  {| isSidebarOpen := isSidebarOpen s; selectedBoardIds := selectedBoardIds s;
     selectedColumnIds := selectedColumnIds s; allBoardsData := allBoardsData s;
     boardItems := boardItems s; isAppLoading := isAppLoading s;
     isLoadingColumns := isLoadingColumns s; isLoadingItems := isLoadingItems s;
     isPolling := isPolling s; appError := appError s;
     columnsError := v; itemsError := itemsError s |}.
Definition setItemsError (v : option string) (s : AppState) : AppState :=
  {| isSidebarOpen := isSidebarOpen s; selectedBoardIds := selectedBoardIds s;
     selectedColumnIds := selectedColumnIds s; allBoardsData := allBoardsData s;
     boardItems := boardItems s; isAppLoading := isAppLoading s;
     isLoadingColumns := isLoadingColumns s; isLoadingItems := isLoadingItems s;
     isPolling := isPolling s; appError := appError s;
     columnsError := columnsError s; itemsError := v |}.

(** The state of a freshly mounted [App]: the [useState] initial values. *)
Definition initialAppState : AppState :=
  {| isSidebarOpen := false; selectedBoardIds := []; selectedColumnIds := [];
     allBoardsData := ∅; boardItems := []; isAppLoading := true;
     isLoadingColumns := false; isLoadingItems := false; isPolling := false;
     appError := None; columnsError := None; itemsError := None |}.

(** ** App.jsx: fetchBoardData, the aggregation fetcher *)

Module Fetcher.
Section Fetcher.
Context {World : Type}.
Variable monday_api : string -> World -> Settled (ApiResponse (option QueryData)) * World.

(** [retry(() => queryMonday(query))]. *)
Definition run_query : string -> World -> Settled (option QueryData) * World :=
  Executor.execute monday_api.

(** The [forEach] that fills [newAllBoardsData]: a later board with the
    same id overwrites the property. *)
Definition collectBoards (selected : list string) (columnsData : option QueryData)
  : gmap string BoardInfo :=
  match columnsData with
  | Some data =>
      match boards data with
      | Some bs =>
          fold_left
            (fun (newAllBoardsData : gmap string BoardInfo) board =>
               if Js.arr_includes selected (board_id board)
               then <[ board_id board :=
                         {| info_id := board_id board;
                            info_name := board_name board;
                            info_columns := default [] (board_columns board) |} ]>
                      newAllBoardsData
               else newAllBoardsData)
            bs ∅
      | None => ∅
      end
  | None => ∅
  end.

(** [{ ...item, boardId, boardName: newAllBoardsData[boardId]?.name || `Board ${boardId}` }].
    [newAllBoardsData] is a plain object: for an id that was not filed the
    read falls through to [Object.prototype]. *)
Definition tagItem (newAllBoardsData : gmap string BoardInfo) (bid : string)
           (item : RawItem) : Item :=
  {| item_id := raw_id item;
     item_name := raw_name item;
     column_values := raw_column_values item;
     boardId := bid;
     boardName :=
       match newAllBoardsData !! bid with
       | Some info => if String.eqb (info_name info) "" then "Board " ++ bid else info_name info
       | None =>
           match Js.inheritedName bid with
           | Some name => name
           | None => "Board " ++ bid
           end
       end |}.

(** [itemsData.boards[0].items_page.items] behind its chain of [&&]. *)
Definition itemsOf (itemsData : option QueryData) : option (list RawItem) :=
  match itemsData with
  | Some data =>
      match boards data with
      | Some (b0 :: _) =>
          match items_page b0 with
          | Some page => items page
          | None => None
          end
      | _ => None
      end
  | None => None
  end.

(** The [for (const boardId of selectedBoardIds)] loop; [inl] is the error
    thrown by the first rejected [await]. *)
Fixpoint fetchItems (selectedColumnIds : list string)
         (newAllBoardsData : gmap string BoardInfo)
         (todo : list string) (fetchedItems : list Item) (w : World)
  : (JsError + list Item) * World :=
  match todo with
  | [] => (inr fetchedItems, w)
  | bid :: rest =>
      if (length selectedColumnIds =? 0)%nat
      then fetchItems selectedColumnIds newAllBoardsData rest fetchedItems w
      else
        let query := Queries.GET_BOARD_ITEMS_WITH_COLUMNS_QUERY bid selectedColumnIds in
        match run_query query w with
        | (Rejected error, w1) => (inl error, w1)
        | (Resolved itemsData, w1) =>
            match itemsOf itemsData with
            | Some its =>
                let itemsWithBoardInfo := map (tagItem newAllBoardsData bid) its in
                fetchItems selectedColumnIds newAllBoardsData rest
                           (fetchedItems ++ itemsWithBoardInfo) w1
            | None =>
                fetchItems selectedColumnIds newAllBoardsData rest fetchedItems w1
            end
        end
  end.

(** How the [try] block of one refresh ends. *)
Inductive FetchOutcome :=
| ColumnsRejected (error : JsError)
| ItemsRejected (newAllBoardsData : gmap string BoardInfo) (error : JsError)
| Fetched (newAllBoardsData : gmap string BoardInfo) (fetchedItems : list Item).

(** The network part of the [try] block, for the selection captured by the
    [useCallback] closure. *)
Definition fetchBoardData_await (selBoards selCols : list string) (w : World)
  : FetchOutcome * World :=
  match run_query Queries.GET_BOARD_COLUMNS_QUERY w with
  | (Rejected error, w1) => (ColumnsRejected error, w1)
  | (Resolved columnsData, w1) =>
      let newAllBoardsData := collectBoards selBoards columnsData in
      match fetchItems selCols newAllBoardsData selBoards [] w1 with
      | (inl error, w2) => (ItemsRejected newAllBoardsData error, w2)
      | (inr fetchedItems, w2) => (Fetched newAllBoardsData fetchedItems, w2)
      end
  end.

(** The early return taken when no board is selected. *)
Definition fetchBoardData_empty (st : AppState) : AppState :=
  setItemsError None (setColumnsError None (setBoardItems [] (setAllBoardsData ∅ st))).

(** The synchronous prefix, up to the first [await]. *)
Definition fetchBoardData_begin (st : AppState) : AppState :=
  setItemsError None (setColumnsError None (setIsPolling true st)).

(** The [catch] block. *)
Definition fetchBoardData_catch (error : JsError) (st : AppState) : AppState :=
  if Js.includes (err_message error) "columns"
  then setColumnsError
         (Some ("Error loading columns: " ++ err_message error
                ++ ". Please check selected boards.")) st
  else setItemsError (Some ("Error loading items: " ++ err_message error ++ ".")) st.

(** The state updates of the [try] / [catch] / [finally] blocks for a given
    outcome of the awaits. *)
Definition fetchBoardData_settle (o : FetchOutcome) (st : AppState) : AppState :=
  setIsPolling false
    match o with
    | ColumnsRejected error => fetchBoardData_catch error st
    | ItemsRejected newAllBoardsData error =>
        fetchBoardData_catch error (setAllBoardsData newAllBoardsData st)
    | Fetched newAllBoardsData fetchedItems =>
        setBoardItems fetchedItems (setAllBoardsData newAllBoardsData st)
    end.

(** [fetchBoardData()], run to completion. *)
Definition fetchBoardData (st : AppState) (w : World) : AppState * World :=
  if (length (selectedBoardIds st) =? 0)%nat
  then (fetchBoardData_empty st, w)
  else
    let '(o, w') :=
      fetchBoardData_await (selectedBoardIds st) (selectedColumnIds st) w in
    (fetchBoardData_settle o (fetchBoardData_begin st), w').

(** *** The polling effect and the content-loading effect

    Between its first [await] and its completion a refresh is in flight;
    other handlers run in between.  [Sys] keeps, next to the component
    state, who is waiting for each refresh in flight. *)

Inductive Origin :=
| Foreground   (* loadContentData: selection changed or settings loaded *)
| Background.  (* the setInterval callback *)

Record Sys := { app : AppState; inflight : list Origin }.

(** The condition of the [setInterval] callback. *)
Definition pollingGuard (st : AppState) : bool :=
  negb (isAppLoading st) && negb (isLoadingColumns st) && negb (isLoadingItems st)
  && (0 <? length (selectedBoardIds st))%nat
  && (0 <? length (selectedColumnIds st))%nat.

(** A call of [fetchBoardData()] up to its first suspension. *)
Definition startFetch (who : Origin) (s : Sys) : Sys :=
  if (length (selectedBoardIds (app s)) =? 0)%nat
  then {| app := fetchBoardData_empty (app s); inflight := inflight s |}
  else {| app := fetchBoardData_begin (app s); inflight := inflight s ++ [who] |}.

Definition loadingFlags (v : bool) (st : AppState) : AppState :=
  setIsLoadingItems v (setIsLoadingColumns v st).

Fixpoint removeFirst (who : Origin) (l : list Origin) : option (list Origin) :=
  match l with
  | [] => None
  | x :: rest =>
      match who, x with
      | Foreground, Foreground | Background, Background => Some rest
      | _, _ => option_map (cons x) (removeFirst who rest)
      end
  end.

Inductive SysEvent :=
| EvTick                                        (* the interval fires *)
| EvLoadContent                                 (* loadContentData() *)
| EvSettle (who : Origin) (o : FetchOutcome).   (* a refresh in flight completes *)

Definition sysStep (ev : SysEvent) (s : Sys) : Sys :=
  match ev with
  | EvTick =>
      if pollingGuard (app s) then startFetch Background s else s
  | EvLoadContent =>
      if isAppLoading (app s) then s
      else
        let s1 := startFetch Foreground
                    {| app := loadingFlags true (app s); inflight := inflight s |} in
        if (length (selectedBoardIds (app s)) =? 0)%nat
        then {| app := loadingFlags false (app s1); inflight := inflight s1 |}
        else s1
  | EvSettle who o =>
      match removeFirst who (inflight s) with
      | None => s
      | Some rest =>
          let st := fetchBoardData_settle o (app s) in
          {| app := match who with
                    | Foreground => loadingFlags false st
                    | Background => st
                    end;
             inflight := rest |}
      end
  end.

Definition sysRun (evs : list SysEvent) (s : Sys) : Sys :=
  fold_left (fun s ev => sysStep ev s) evs s.

End Fetcher.
End Fetcher.

(** ** App.jsx: allAvailableColumnsForSelectedBoards *)

(** A JavaScript [Map] keyed by strings: entries in insertion order. *)
Module JsMap.
Definition t (V : Type) := list (string * V).
Definition empty {V} : t V := [].
Definition has {V} (m : t V) (k : string) : bool :=
  existsb (fun kv => String.eqb (fst kv) k) m.
(** [m.set(k, v)]: an existing key keeps its position. *)
Fixpoint set {V} (m : t V) (k : string) (v : V) : t V :=
  match m with
  | [] => [(k, v)]
  | (k', v') :: rest =>
      if String.eqb k' k then (k, v) :: rest else (k', v') :: set rest k v
  end.
Definition values {V} (m : t V) : list V := map snd m.
End JsMap.

Module Columns.

Definition allAvailableColumnsForSelectedBoards
           (selectedBoardIds : list string) (allBoardsData : gmap string BoardInfo)
  : list Column :=
  let columnsMap :=
    fold_left
      (fun columnsMap bid =>
         match allBoardsData !! bid with
         | Some info =>
             fold_left
               (fun columnsMap col =>
                  if negb (JsMap.has columnsMap (col_id col))
                  then JsMap.set columnsMap (col_id col) col
                  else columnsMap)
               (info_columns info) columnsMap
         | None => columnsMap
         end)
      selectedBoardIds (JsMap.empty : JsMap.t Column) in
  JsMap.values columnsMap.

(** The columns of the selected boards in iteration order, duplicates
    included. *)
Definition columnsInOrder (selectedBoardIds : list string)
           (allBoardsData : gmap string BoardInfo) : list Column :=
  concat (map (fun bid => match allBoardsData !! bid with
                          | Some info => info_columns info
                          | None => []
                          end) selectedBoardIds).

End Columns.

(** ** JSON values, as produced by [JSON.parse] *)

(** Numbers are restricted to the integers that a double holds exactly and
    prints in full, those below 2^53 in absolute value (the ids found in
    column values); an object lists its distinct keys in order. *)
#[local] Set Warnings "-register-all".
Inductive Json :=
| JNull
| JBool (b : bool)
| JNum (n : Z)
| JStr (s : string)
| JArr (elems : list Json)
| JObj (fields : list (string * Json)).

Module JsonOps.

(** JavaScript truthiness. *)
Definition truthy (v : Json) : bool :=
  match v with
  | JNull => false
  | JBool b => b
  | JNum n => negb (n =? 0)
  | JStr s => negb (String.eqb s "")
  | JArr _ | JObj _ => true
  end.

(** [v.k] for a key that is not a built-in property: the outer [None] is
    the [TypeError] of reading a property of [null], [Some None] is
    [undefined]. *)
Definition get (v : Json) (k : string) : option (option Json) :=
  match v with
  | JNull => None
  | JObj fields => Some (option_map snd (Js.find (fun kv => String.eqb (fst kv) k) fields))
  | _ => Some None
  end.

Definition isArray (v : Json) : bool :=
  match v with JArr _ => true | _ => false end.

(** [String(v)]; for a number, its decimal digits, which is what
    [String] prints for the integers described at [Json]. *)
Fixpoint toString (v : Json) : string :=
  match v with
  | JNull => "null"
  | JBool b => if b then "true" else "false"
  | JNum n => pretty n
  | JStr s => s
  | JArr elems =>
      Js.join "," (map (fun x => match x with JNull => "" | _ => toString x end) elems)
  | JObj _ => "[object Object]"
  end.

(** An array of strings, as the typed component state expects it. *)
Definition asStringList (v : Json) : option (list string) :=
  match v with
  | JArr elems =>
      fold_right (fun x acc =>
                    match x, acc with
                    | JStr s, Some l => Some (s :: l)
                    | _, _ => None
                    end) (Some []) elems
  | _ => None
  end.

Definition asBool (v : Json) : option bool :=
  match v with JBool b => Some b | _ => None end.

End JsonOps.

(** ** App.jsx: the settings store *)

Module Settings.

(** The value held by the host storage under a key: a string, or anything
    else a foreign writer may have left there. *)
Inductive StoredValue :=
| SVString (s : string)
| SVOther (truthy : bool).

(** The host side of [monday.storage.instance] and [monday.toast]: the
    stored entries, whether each call currently rejects, and whether the
    optional functions exist. *)
Record Host := {
  store : gmap string StoredValue;
  getItem_fault : option JsError;
  setItem_fault : option JsError;
  removeItem_available : bool;
  removeItem_fault : option JsError;
  toast_error_available : bool;
  toasts : list string
}.

Definition with_store (m : gmap string StoredValue) (h : Host) : Host :=
  {| store := m; getItem_fault := getItem_fault h; setItem_fault := setItem_fault h;
     removeItem_available := removeItem_available h;
     removeItem_fault := removeItem_fault h;
     toast_error_available := toast_error_available h; toasts := toasts h |}.

Definition with_toast (msg : string) (h : Host) : Host :=
  {| store := store h; getItem_fault := getItem_fault h; setItem_fault := setItem_fault h;
     removeItem_available := removeItem_available h;
     removeItem_fault := removeItem_fault h;
     toast_error_available := toast_error_available h; toasts := toasts h ++ [msg] |}.

(** *** A monad for the asynchronous handlers

    State: the component state and the host.  A computation resolves,
    rejects (throws), or leaves the typed model ([None]: a stored document
    of a shape the typed component state cannot hold). *)
Definition St : Type := AppState * Host.
Definition M (A : Type) : Type := St -> option (Settled A * St).

Definition ret {A} (a : A) : M A := fun s => Some (Resolved a, s).
Definition throw {A} (e : JsError) : M A := fun s => Some (Rejected e, s).
Definition untyped {A} : M A := fun _ => None.
Definition bind {A B} (m : M A) (k : A -> M B) : M B :=
  fun s => match m s with
           | Some (Resolved a, s') => k a s'
           | Some (Rejected e, s') => Some (Rejected e, s')
           | None => None
           end.
(** [try { m } catch (e) { handler e }]. *)
Definition try_catch {A} (m : M A) (handler : JsError -> M A) : M A :=
  fun s => match m s with
           | Some (Rejected e, s') => handler e s'
           | r => r
           end.
(** [try { m } finally { fin }]. *)
Definition try_finally {A} (m : M A) (fin : M unit) : M A :=
  fun s => match m s with
           | Some (r, s') =>
               match fin s' with
               | Some (Resolved _, s'') => Some (r, s'')
               | Some (Rejected e, s'') => Some (Rejected e, s'')
               | None => None
               end
           | None => None
           end.
Definition getState : M AppState := fun s => Some (Resolved (fst s), s).
Definition getHost : M Host := fun s => Some (Resolved (snd s), s).
Definition setState (f : AppState -> AppState) : M unit :=
  fun s => Some (Resolved tt, (f (fst s), snd s)).
Definition setHost (f : Host -> Host) : M unit :=
  fun s => Some (Resolved tt, (fst s, f (snd s))).

Declare Scope js_scope.
Delimit Scope js_scope with js.
Notation "'let*' x ':=' m 'in' k" := (bind m (fun x => k))
  (at level 10, x name, m at level 100, k at level 200) : js_scope.
Notation "m ';;;' k" := (bind m (fun _ => k))
  (at level 100, k at level 200, right associativity) : js_scope.
Local Open Scope js_scope.

(** *** The host calls *)

(** [await monday.storage.instance.getItem(key)], followed by
    [response && response.data ? response.data.value : null]. *)
Definition getItem (key : string) : M (option StoredValue) :=
  let* h := getHost in
  match getItem_fault h with
  | Some e => throw e
  | None => ret (store h !! key)
  end.

(** [await monday.storage.instance.setItem(key, value)]. *)
Definition setItem (key value : string) : M unit :=
  let* h := getHost in
  match setItem_fault h with
  | Some e => throw e
  | None => setHost (with_store (<[key := SVString value]> (store h)))
  end.

(** [await monday.storage.instance.removeItem(key)]. *)
Definition removeItem (key : string) : M unit :=
  let* h := getHost in
  match removeItem_fault h with
  | Some e => throw e
  | None => setHost (with_store (delete key (store h)))
  end.

(** [if (monday.toast && typeof monday.toast.error === 'function')
      monday.toast.error(msg)]. *)
Definition toast_error (msg : string) : M unit :=
  let* h := getHost in
  if toast_error_available h then setHost (with_toast msg) else ret tt.

Definition SyntaxError : JsError :=
  {| err_name := "SyntaxError"; err_message := "Unexpected token";
     err_response := None |}.
Definition TypeError : JsError :=
  {| err_name := "TypeError"; err_message := "Cannot read properties of null";
     err_response := None |}.

Section WithJSON.
Variable JSON_parse : string -> option Json.
Variable JSON_stringify : Json -> string.

(** [JSON.parse(s)], throwing on a malformed document. *)
Definition parse (s : string) : M Json :=
  match JSON_parse s with
  | Some v => ret v
  | None => throw SyntaxError
  end.

(** [obj.k], throwing on [null]. *)
Definition prop (obj : Json) (k : string) : M (option Json) :=
  match JsonOps.get obj k with
  | Some v => ret v
  | None => throw TypeError
  end.

(** The two identical blocks that clear the entry, guarded by
    [removeItem && typeof removeItem === 'function']. *)
Definition clearFaultyData : M unit :=
  let* h := getHost in
  if removeItem_available h then removeItem "appSettings" else ret tt.

(** [setSelectedBoardIds(v)] and its siblings, for a parsed value. *)
Definition setIds (setter : list string -> AppState -> AppState) (v : Json) : M unit :=
  match JsonOps.asStringList v with
  | Some ids => setState (setter ids)
  | None => untyped
  end.
Definition setOpen (v : Json) : M unit :=
  match JsonOps.asBool v with
  | Some b => setState (setIsSidebarOpen b)
  | None => untyped
  end.

(** The body of the inner [try]. *)
Definition applyParsedSettings (settingsString : string) : M unit :=
  let* parsedSettings := parse settingsString in
  let* boardIds := prop parsedSettings "selectedBoardIds" in
  (match boardIds with
   | Some v => if JsonOps.truthy v then setIds setSelectedBoardIds v else ret tt
   | None => ret tt
   end) ;;;
  let* columnIds := prop parsedSettings "selectedColumnIds" in
  (match columnIds with
   | Some v => if JsonOps.truthy v then setIds setSelectedColumnIds v else ret tt
   | None => ret tt
   end) ;;;
  let* isDialogOpen := prop parsedSettings "isDialogOpen" in
  match isDialogOpen with
  | Some v => setOpen v
  | None =>
      let* isPopoverOpen := prop parsedSettings "isPopoverOpen" in
      match isPopoverOpen with
      | Some v => setOpen v
      | None =>
          let* isSidebarOpen := prop parsedSettings "isSidebarOpen" in
          match isSidebarOpen with
          | Some v => setOpen v
          | None => ret tt
          end
      end
  end.

(** [loadSettings()]. *)
Definition loadSettings : M unit :=
  try_finally
    (try_catch
       (setState (setIsAppLoading true) ;;;
        setState (setAppError None) ;;;
        let* settingsString := getItem "appSettings" in
        match settingsString with
        | Some (SVString s) =>
            if String.eqb s "" then ret tt
            else try_catch (applyParsedSettings s) (fun jsonParseError => clearFaultyData)
        | Some (SVOther true) => clearFaultyData
        | Some (SVOther false) | None => ret tt
        end)
       (fun err =>
          setState (setAppError (Some ("Error loading settings: " ++ err_message err))) ;;;
          let* h := getHost in
          if removeItem_available h
          then try_catch (removeItem "appSettings") (fun clearError => ret tt)
          else ret tt))
    (setState (setIsAppLoading false)).

(** [{ selectedBoardIds, selectedColumnIds, isSidebarOpen }]. *)
Definition settingsToSave (st : AppState) : Json :=
  JObj [ ("selectedBoardIds", JArr (map JStr (selectedBoardIds st)));
         ("selectedColumnIds", JArr (map JStr (selectedColumnIds st)));
         ("isSidebarOpen", JBool (isSidebarOpen st)) ].

(** The auto-save effect: [if (!isAppLoading) saveSettingsAutomatically()]. *)
Definition saveSettingsAutomatically : M unit :=
  let* st := getState in
  if isAppLoading st then ret tt
  else
    try_catch
      (setItem "appSettings" (JSON_stringify (settingsToSave st)))
      (fun error => toast_error ("Auto-save error: " ++ err_message error)).

End WithJSON.

End Settings.

(** ** TaskTable.jsx: filters, sorting and the derived view *)

Module View.

(** An entry of [columnsForTable]; [statusOptions], used for rendering
    only, is left out. *)
Record ColumnMeta := {
  meta_id : string;
  meta_title : string;
  meta_type : string
}.

Definition virtualColumns : list ColumnMeta :=
  [ {| meta_id := "item_name_column"; meta_title := "Task Name"; meta_type := "item_name" |};
    {| meta_id := "board_name_column"; meta_title := "Board"; meta_type := "board_link" |} ].

Definition columnsForTable (columnIds : list string) (allBoardColumns : list Column)
  : list ColumnMeta :=
  let orderedColumnMetas :=
    omap (fun colId =>
            match Js.find (fun vc => String.eqb (meta_id vc) colId) virtualColumns with
            | Some virtualCol => Some virtualCol
            | None =>
                option_map
                  (fun col => {| meta_id := col_id col; meta_title := col_title col;
                                 meta_type := col_type col |})
                  (Js.find (fun col => String.eqb (col_id col) colId) allBoardColumns)
            end) columnIds in
  orderedColumnMetas.

(** [String(x)] for a [text] that may be [null]. *)
Definition stringOfText (t : option string) : string := default "null" t.

(** [a || b || ''] on strings that may be [null] or [undefined]. *)
Definition firstTruthy (a b : option string) : string :=
  match a with
  | Some s => if String.eqb s "" then
                match b with Some s' => s' | None => "" end
              else s
  | None => match b with Some s' => s' | None => "" end
  end.

(** The normalisation of the status filter (and of [handleStatusChange]). *)
Definition normalizedStatusText (itemColumnValue : option ColumnValue) : string :=
  let currentStatusText :=
    Js.trim (match itemColumnValue with
             | Some cv => stringOfText (cv_text cv)
             | None => ""
             end) in
  if String.eqb currentStatusText "-" || String.eqb currentStatusText "undefined"
     || String.eqb currentStatusText "null" || String.eqb currentStatusText ""
  then "No status" else currentStatusText.

(** [arr.filter(p => p.kind === 'person')]; [None] is the [TypeError]
    raised by a [null] element. *)
Fixpoint filterPersons (arr : list Json) : option (list Json) :=
  match arr with
  | [] => Some []
  | p :: rest =>
      match JsonOps.get p "kind" with
      | None => None
      | Some kind =>
          match filterPersons rest with
          | None => None
          | Some rest' =>
              Some (match kind with
                    | Some (JStr k) => if String.eqb k "person" then p :: rest' else rest'
                    | _ => rest'
                    end)
          end
      end
  end.

(** The shape sniffing shared by the person filters. *)
Definition personsOf (parsedValue : Json) : option (list Json) :=
  let personsAndTeams :=
    if JsonOps.truthy parsedValue
    then match JsonOps.get parsedValue "personsAndTeams" with
         | Some (Some v) => if JsonOps.truthy v && JsonOps.isArray v then Some v else None
         | _ => None
         end
    else None in
  match personsAndTeams with
  | Some (JArr arr) => filterPersons arr
  | _ =>
      match parsedValue with
      | JArr arr => filterPersons arr
      | _ => Some []
      end
  end.

(** [p.id && test(String(p.id))]. *)
Definition idSatisfies (test : string -> bool) (p : Json) : bool :=
  match JsonOps.get p "id" with
  | Some (Some id) => JsonOps.truthy id && test (JsonOps.toString id)
  | _ => false
  end.

(** [cv.value && String(cv.value).trim() !== '']. *)
Definition hasValue (cv : ColumnValue) : option string :=
  match cv_value cv with
  | Some v => if String.eqb v "" || String.eqb (Js.trim v) "" then None else Some v
  | None => None
  end.

Definition isPersonType (t : string) : bool :=
  String.eqb t "person" || String.eqb t "people".

Section WithBuiltins.
Variable JSON_parse : string -> option Json.
(** [new Date(text).getTime()]; [None] is [NaN]. *)
Variable Date_getTime : string -> option Z.
(** [[...xs].sort(cmp)], with the comparator's [NaN] already read as +0. *)
Variable Array_sort : (Item -> Item -> Z) -> list Item -> list Item.
(** The comparison of the comparator's other branches (names, numbers,
    links, persons, text: locale-aware and floating-point), before the
    direction is applied. *)
Variable compareOther : string -> ColumnMeta -> Item -> Item -> option Z.

(** The predicate of the "current user only" filter. *)
Definition isUserMentioned (allBoardColumns : list Column) (currentUserId : string)
           (item : Item) : bool :=
  existsb
    (fun cv =>
       match Js.find (fun col => String.eqb (col_id col) (cv_id cv)) allBoardColumns with
       | Some columnMeta =>
           if isPersonType (col_type columnMeta)
           then match hasValue cv with
                | Some v =>
                    match JSON_parse v with
                    | Some parsedValue =>
                        match personsOf parsedValue with
                        | Some persons =>
                            existsb (idSatisfies (String.eqb currentUserId)) persons
                        | None => false
                        end
                    | None => false
                    end
                | None => false
                end
           else false
       | None => false
       end)
    (column_values item).

(** The callback of [Object.entries(activeFilters).every(...)]. *)
Definition passesFilter (columnsForTable : list ColumnMeta) (item : Item)
           (entry : string * list string) : bool :=
  let '(columnId, selectedValues) := entry in
  if String.eqb columnId "current_user_filter" then true
  else if (length selectedValues =? 0)%nat then true
  else
    match Js.find (fun col => String.eqb (meta_id col) columnId) columnsForTable with
    | None => true
    | Some columnMeta =>
        let itemColumnValue :=
          Js.find (fun cv => String.eqb (cv_id cv) columnId) (column_values item) in
        if String.eqb (meta_type columnMeta) "status" then
          Js.arr_includes selectedValues (normalizedStatusText itemColumnValue)
        else if isPersonType (meta_type columnMeta) then
          match itemColumnValue with
          | None => Js.arr_includes selectedValues "No user"
          | Some cv =>
              match hasValue cv with
              | None => Js.arr_includes selectedValues "No user"
              | Some v =>
                  match JSON_parse v with
                  | Some parsedValue =>
                      match personsOf parsedValue with
                      | Some persons =>
                          existsb (idSatisfies (Js.arr_includes selectedValues)) persons
                      | None => false
                      end
                  | None => false
                  end
              end
          end
        else
          let itemValueText :=
            Js.trim (match itemColumnValue with
                     | Some cv => firstTruthy (cv_display_value cv) (cv_text cv)
                     | None => ""
                     end) in
          existsb (fun val => Js.includes itemValueText val) selectedValues
    end.

Definition passesAllFilters (columnsForTable : list ColumnMeta)
           (activeFilters : gmap string (list string)) (item : Item) : bool :=
  forallb (passesFilter columnsForTable item) (map_to_list activeFilters).

(** [finalFilteredItems]. *)
Definition finalFilteredItems (boardItems : list Item)
           (activeFilters : gmap string (list string))
           (columnsForTable : list ColumnMeta) (allBoardColumns : list Column)
           (currentUserId : option string) : list Item :=
  let isFilterByCurrentUserActive :=
    match activeFilters !! "current_user_filter" with
    | Some vs => Js.arr_includes vs "true"
    | None => false
    end in
  let filteredByCurrentUser :=
    match currentUserId with
    | Some uid =>
        if isFilterByCurrentUserActive && negb (String.eqb uid "")
        then List.filter (isUserMentioned allBoardColumns uid) boardItems
        else boardItems
    | None => boardItems
    end in
  List.filter (passesAllFilters columnsForTable activeFilters) filteredByCurrentUser.

(** The value a date column is sorted by:
    [cv && cv.text ? new Date(cv.text) : new Date(0)], then [getTime()]. *)
Definition dateSortValue (columnValue : option ColumnValue) : option Z :=
  match columnValue with
  | Some cv =>
      match cv_text cv with
      | Some t => if String.eqb t "" then Some 0 else Date_getTime t
      | None => Some 0
      end
  | None => Some 0
  end.

(** [a - b] on numbers that may be [NaN]. *)
Definition numSub (a b : option Z) : option Z :=
  match a, b with
  | Some x, Some y => Some (x - y)
  | _, _ => None
  end.

(** The sort comparator; [None] is a [NaN] result.  The two virtual
    columns never have type [date]. *)
Definition compareItems (sortColumnId sortOrder : string) (columnMeta : ColumnMeta)
           (a b : Item) : option Z :=
  let comparison :=
    if String.eqb (meta_type columnMeta) "date"
       && negb (String.eqb sortColumnId "item_name_column")
       && negb (String.eqb sortColumnId "board_name_column")
    then
      let columnValueA :=
        Js.find (fun cv => String.eqb (cv_id cv) sortColumnId) (column_values a) in
      let columnValueB :=
        Js.find (fun cv => String.eqb (cv_id cv) sortColumnId) (column_values b) in
      numSub (dateSortValue columnValueA) (dateSortValue columnValueB)
    else compareOther sortColumnId columnMeta a b in
  if String.eqb sortOrder "asc" then comparison else option_map Z.opp comparison.

(** [filteredAndSortedBoardItems]; [sorting] holds at most one key. *)
Definition filteredAndSortedBoardItems (boardItems : list Item)
           (sorting : option (string * string))
           (activeFilters : gmap string (list string))
           (columnsForTable : list ColumnMeta) (allBoardColumns : list Column)
           (currentUserId : option string) : list Item :=
  if (length boardItems =? 0)%nat then []
  else
    let final := finalFilteredItems boardItems activeFilters columnsForTable
                                    allBoardColumns currentUserId in
    match sorting with
    | None => final
    | Some (sortColumnId, sortOrder) =>
        if String.eqb sortColumnId "" || String.eqb sortOrder "" then final
        else
          match Js.find (fun col => String.eqb (meta_id col) sortColumnId) columnsForTable with
          | None => final
          | Some columnMeta =>
              Array_sort
                (fun a b => default 0 (compareItems sortColumnId sortOrder columnMeta a b))
                final
          end
    end.

End WithBuiltins.

(** [handleFilterChange(columnId, value, isChecked)]. *)
Definition handleFilterChange (columnId value : string) (isChecked : bool)
           (prevFilters : gmap string (list string)) : gmap string (list string) :=
  let currentColumnFilters := default [] (prevFilters !! columnId) in
  if isChecked
  then <[columnId := (currentColumnFilters ++ [value])%list]> prevFilters
  else <[columnId := List.filter (fun v => negb (String.eqb v value)) currentColumnFilters]>
         prevFilters.

(** [handleClearFilter(columnId)]. *)
Definition handleClearFilter (columnId : string)
           (prevFilters : gmap string (list string)) : gmap string (list string) :=
  delete columnId prevFilters.

End View.

(** ** Reference instances of the built-ins

    The sections above are parametric in [JSON.parse], [JSON.stringify] and
    [Date].  The instances below implement a fragment of each and serve to
    run the embedding on concrete inputs. *)

Module MiniJSON.

Definition dq : ascii := ascii_of_nat 34.
Definition bs : ascii := ascii_of_nat 92.

Fixpoint escape (s : string) : string :=
  match s with
  | EmptyString => EmptyString
  | String c rest =>
      if Ascii.eqb c dq || Ascii.eqb c bs
      then String bs (String c (escape rest))
      else String c (escape rest)
  end.

Definition quote (s : string) : string :=
  String dq (escape s ++ String dq EmptyString).

(** [JSON.stringify(v)] for documents without control characters. *)
Fixpoint stringify (v : Json) : string :=
  match v with
  | JNull => "null"
  | JBool b => if b then "true" else "false"
  | JNum n => pretty n
  | JStr s => quote s
  | JArr elems => "[" ++ Js.join "," (map stringify elems) ++ "]"
  | JObj fields =>
      "{" ++ Js.join "," (map (fun kv => quote (fst kv) ++ ":" ++ stringify (snd kv)) fields)
          ++ "}"
  end.

(** The characters after an opening quote, up to the closing one. *)
Fixpoint parseString (s : string) : option (string * string) :=
  match s with
  | EmptyString => None
  | String c rest =>
      if Ascii.eqb c dq then Some (EmptyString, rest)
      else if Ascii.eqb c bs then
        match rest with
        | String c' rest' =>
            if Ascii.eqb c' dq || Ascii.eqb c' bs
            then option_map (fun r => (String c' (fst r), snd r)) (parseString rest')
            else None
        | EmptyString => None
        end
      else option_map (fun r => (String c (fst r), snd r)) (parseString rest)
  end.

Definition digit (c : ascii) : option Z :=
  let n := nat_of_ascii c in
  if ((48 <=? n) && (n <=? 57))%nat then Some (Z.of_nat (n - 48)) else None.

Fixpoint parseDigits (acc : Z) (s : string) : Z * string :=
  match s with
  | String c rest =>
      match digit c with
      | Some d => parseDigits (acc * 10 + d) rest
      | None => (acc, s)
      end
  | EmptyString => (acc, s)
  end.

Definition stripPrefix (p s : string) : option string :=
  if String.prefix p s
  then Some (String.substring (String.length p) (String.length s - String.length p) s)
  else None.

(** Compact documents, as [stringify] prints them; [fuel] bounds the
    nesting and the number of elements. *)
Fixpoint parseValue (fuel : nat) (s : string) : option (Json * string) :=
  match fuel with
  | O => None
  | S fuel' =>
      match s with
      | EmptyString => None
      | String c rest =>
          if Ascii.eqb c dq then
            option_map (fun r => (JStr (fst r), snd r)) (parseString rest)
          else if Ascii.eqb c "[" then
            match rest with
            | String "]" rest' => Some (JArr [], rest')
            | _ => option_map (fun r => (JArr (fst r), snd r)) (parseElems fuel' rest)
            end
          else if Ascii.eqb c "{" then
            match rest with
            | String "}" rest' => Some (JObj [], rest')
            | _ => option_map (fun r => (JObj (fst r), snd r)) (parseFields fuel' rest)
            end
          else if Ascii.eqb c "-" then
            match rest with
            | String d _ =>
                match digit d with
                | Some _ => let '(n, rest') := parseDigits 0 rest in Some (JNum (- n), rest')
                | None => None
                end
            | EmptyString => None
            end
          else
            match digit c with
            | Some _ => let '(n, rest') := parseDigits 0 s in Some (JNum n, rest')
            | None =>
                match stripPrefix "null" s, stripPrefix "true" s, stripPrefix "false" s with
                | Some r, _, _ => Some (JNull, r)
                | _, Some r, _ => Some (JBool true, r)
                | _, _, Some r => Some (JBool false, r)
                | _, _, _ => None
                end
            end
      end
  end
with parseElems (fuel : nat) (s : string) : option (list Json * string) :=
  match fuel with
  | O => None
  | S fuel' =>
      match parseValue fuel' s with
      | Some (v, String "," rest) =>
          option_map (fun r => (v :: fst r, snd r)) (parseElems fuel' rest)
      | Some (v, String "]" rest) => Some ([v], rest)
      | _ => None
      end
  end
with parseFields (fuel : nat) (s : string) : option (list (string * Json) * string) :=
  match fuel with
  | O => None
  | S fuel' =>
      match s with
      | String c rest =>
          if Ascii.eqb c dq then
            match parseString rest with
            | Some (k, String ":" rest') =>
                match parseValue fuel' rest' with
                | Some (v, String "," rest'') =>
                    option_map (fun r => ((k, v) :: fst r, snd r)) (parseFields fuel' rest'')
                | Some (v, String "}" rest'') => Some ([(k, v)], rest'')
                | _ => None
                end
            | _ => None
            end
          else None
      | EmptyString => None
      end
  end.

(** [JSON.parse(s)]; [None] is a [SyntaxError]. *)
Definition parse (s : string) : option Json :=
  match parseValue (2 * String.length s + 2) s with
  | Some (v, EmptyString) => Some v
  | _ => None
  end.

End MiniJSON.

Module RefDate.

(** Days from 1970-01-01 to the civil date [y-m-d]. *)
Definition daysFromCivil (y m d : Z) : Z :=
  let y' := if m <=? 2 then y - 1 else y in
  let era := y' / 400 in
  let yoe := y' - era * 400 in
  let doy := (153 * (if 2 <? m then m - 3 else m + 9) + 2) / 5 + d - 1 in
  let doe := yoe * 365 + yoe / 4 - yoe / 100 + doy in
  era * 146097 + doe - 719468.

Definition isLeap (y : Z) : bool :=
  ((y mod 4 =? 0) && negb (y mod 100 =? 0)) || (y mod 400 =? 0).

Definition daysInMonth (y m : Z) : Z :=
  if m =? 2 then (if isLeap y then 29 else 28)
  else if (m =? 4) || (m =? 6) || (m =? 9) || (m =? 11) then 30 else 31.

Definition digits (s : string) : option Z :=
  match MiniJSON.parseDigits 0 s with
  | (n, EmptyString) => if (0 <? String.length s)%nat then Some n else None
  | _ => None
  end.

(** [new Date(text).getTime()] for the date-only form [YYYY-MM-DD], which
    ECMAScript reads as midnight UTC; every other text is [NaN] here. *)
Definition getTime (text : string) : option Z :=
  if (String.length text =? 10)%nat
     && String.eqb (String.substring 4 1 text) "-"
     && String.eqb (String.substring 7 1 text) "-"
  then
    match digits (String.substring 0 4 text),
          digits (String.substring 5 2 text),
          digits (String.substring 8 2 text) with
    | Some y, Some m, Some d =>
        if (1 <=? m) && (m <=? 12) && (1 <=? d) && (d <=? daysInMonth y m)
        then Some (daysFromCivil y m d * 86400000)
        else None
    | _, _, _ => None
    end
  else None.

End RefDate.

(** ** Vocabulary of the executor statements *)

Module ExecutorSpec.
Section ExecutorSpec.
Context {World Out : Type}.

(** The world left by the first [k] attempts of [op], started in [w]. *)
Fixpoint worldAfter (op : World -> Out * World) (k : nat) (w : World) : World :=
  match k with
  | O => w
  | S k' => worldAfter op k' (snd (op w))
  end.

(** What attempt number [k] (counted from 0) settles with. *)
Definition outcomeAt (op : World -> Out * World) (k : nat) (w : World) : Out :=
  fst (op (worldAfter op k w)).

(** [n + 1] calls separated by [n] sleeps of [delay], [delay * factor], ... *)
Fixpoint backoffTrace (n : nat) (delay factor : Z) : list Event :=
  match n with
  | O => [Call]
  | S n' => Call :: Sleep delay :: backoffTrace n' (delay * factor) factor
  end.

Definition calls (tr : list Event) : nat :=
  length (List.filter (fun ev => match ev with Call => true | Sleep _ => false end) tr).

Definition sleeps (tr : list Event) : list Z :=
  flat_map (fun ev => match ev with Call => [] | Sleep ms => [ms] end) tr.

(** The run of an executor with budget [retries] stops at attempt [j]:
    the attempts before [j] failed with errors it classifies as transient,
    and attempt [j] fails with [e] when the budget is spent or [e] is not
    transient. *)
Definition stopsAt (op : World -> Out * World)
           (transient : Out -> bool) (rejection : Out -> option JsError)
           (retries j : nat) (e : JsError) (w : World) : Prop :=
  (j <= retries)%nat
  /\ (forall i, (i < j)%nat -> transient (outcomeAt op i w) = true)
  /\ (j = retries \/ transient (outcomeAt op j w) = false)
  /\ rejection (outcomeAt op j w) = Some e.

End ExecutorSpec.

(** How [retry] reads the outcome of one call of [fn]. *)
Definition retryTransient {A} (o : Settled A) : bool :=
  match o with
  | Rejected e => Executor.retry_classifier e
  | Resolved _ => false
  end.
Definition retryRejection {A} (o : Settled A) : option JsError :=
  match o with
  | Rejected e => Some e
  | Resolved _ => None
  end.

(** How [queryMonday] reads the outcome of one call of [monday.api]. *)
Definition apiTransient {Data} (o : Settled (ApiResponse Data)) : bool :=
  match o with
  | Resolved response =>
      match api_errors response with
      | Some errs => Executor.rateLimitError errs
      | None => false
      end
  | Rejected e => Js.includes (err_message e) "Rate limit passed"
  end.
Definition apiRejection {Data} (o : Settled (ApiResponse Data)) : option JsError :=
  match o with
  | Resolved response => option_map Executor.errors_to_Error (api_errors response)
  | Rejected e => Some e
  end.

(** The error taxonomy of the specification: a rejection "tagged as
    ExhaustedRetries". *)
Definition taggedExhaustedRetries (e : JsError) : Prop :=
  err_name e = "ExhaustedRetries".

End ExecutorSpec.

(** ** Vocabulary of the other statements *)

Module PollingSpec.

(** While a content load holds the flags up. *)
Definition loading (s : Fetcher.Sys) : Prop :=
  isLoadingColumns (Fetcher.app s) = true
  /\ isLoadingItems (Fetcher.app s) = true
  /\ In Fetcher.Foreground (Fetcher.inflight s).

(** The events that are not the start or the completion of a content
    load. *)
Definition backgroundEvent (ev : Fetcher.SysEvent) : Prop :=
  match ev with
  | Fetcher.EvTick => True
  | Fetcher.EvSettle Fetcher.Background _ => True
  | _ => False
  end.

(** The events that are not the completion of a content load: ticks,
    completions of background refreshes and starts of content loads. *)
Definition notLoadCompletion (ev : Fetcher.SysEvent) : Prop :=
  match ev with
  | Fetcher.EvSettle Fetcher.Foreground _ => False
  | _ => True
  end.

(** A content load holds the flags up on a component whose settings are
    loaded and which has boards selected. *)
Definition contentLoading (s : Fetcher.Sys) : Prop :=
  loading s
  /\ isAppLoading (Fetcher.app s) = false
  /\ selectedBoardIds (Fetcher.app s) <> [].

End PollingSpec.

Module ColumnsSpec.

(** [m.get(k)]. *)
Definition get {V} (m : JsMap.t V) (k : string) : option V :=
  option_map snd (List.find (fun kv => String.eqb (fst kv) k) m).

(** The body of the inner [forEach]. *)
Definition addColumn (columnsMap : JsMap.t Column) (col : Column) : JsMap.t Column :=
  if negb (JsMap.has columnsMap (col_id col))
  then JsMap.set columnsMap (col_id col) col
  else columnsMap.

(** Every entry is filed under the id of its column, and no id is filed
    twice. *)
Definition wellKeyed (m : JsMap.t Column) : Prop :=
  NoDup (map fst m) /\ Forall (fun kv => fst kv = col_id (snd kv)) m.

End ColumnsSpec.

Module SettingsSpec.

(** The three fields [loadSettings] restores. *)
Definition selection (st : AppState) : list string * list string * bool :=
  (selectedBoardIds st, selectedColumnIds st, isSidebarOpen st).

End SettingsSpec.

Module ViewSpec.

(** The date column [sortColumnId] of [item] is absent: there is no column
    value, or its text is [null] or empty. *)
Definition dateAbsent (sortColumnId : string) (item : Item) : Prop :=
  match Js.find (fun cv => String.eqb (cv_id cv) sortColumnId) (column_values item) with
  | None => True
  | Some cv => cv_text cv = None \/ cv_text cv = Some ""
  end.

(** Unchecking, one after the other, the values [vs] of a column filter. *)
Definition uncheckAll (columnId : string) (vs : list string)
           (filters : gmap string (list string)) : gmap string (list string) :=
  fold_left (fun f v => View.handleFilterChange columnId v false f) vs filters.

End ViewSpec.

(** ** Sample inputs *)

Module Samples.

(** Worlds that only count the calls made so far. *)
Definition concurrencyError : JsError :=
  {| err_name := "Error"; err_message := "Concurrency limit exceeded";
     err_response := None |}.

Definition alwaysConcurrencyLimited : nat -> Settled unit * nat :=
  fun calls => (Rejected concurrencyError, S calls).

Definition permissionError : JsError := new_Error "Permission denied".

Definition alwaysDenied : nat -> Settled unit * nat :=
  fun calls => (Rejected permissionError, S calls).

(** [monday.api] answering every call with HTTP success and the given
    structured error list. *)
Definition apiListing (msgs : list string) (query : string) (calls : nat)
  : Settled (ApiResponse (option QueryData)) * nat :=
  (Resolved {| api_errors :=
                 Some (map (fun m => {| gql_message := m; gql_extensions := None |}) msgs);
               api_data := None |},
   S calls).

(** [monday.api] rejecting every call with [new Error(msg)]. *)
Definition apiThrowing (msg : string) (query : string) (calls : nat)
  : Settled (ApiResponse (option QueryData)) * nat :=
  (Rejected (new_Error msg), S calls).

End Samples.

Module FetcherSamples.

Definition statusColumn : Column :=
  {| col_id := "c1"; col_title := "Status"; col_type := "status"; settings_str := None |}.

Definition boardRow (id name : string) : BoardData :=
  {| board_id := id; board_name := name; board_columns := Some [statusColumn];
     items_page := None |}.

Definition taskOfB1 : RawItem :=
  {| raw_id := "11"; raw_name := "Write report";
     raw_column_values :=
       [ {| cv_id := "c1"; cv_text := Some "Done"; cv_value := None;
            cv_display_value := None |} ] |}.

(** A host on which the column query and the items of board [b1] are
    served, and every item query for another board hits the concurrency
    limit. *)
Definition api (query : string) (calls : nat)
  : Settled (ApiResponse (option QueryData)) * nat :=
  if String.eqb query Queries.GET_BOARD_COLUMNS_QUERY then
    (Resolved {| api_errors := None;
                 api_data := Some {| boards := Some [boardRow "b1" "Alpha";
                                                     boardRow "b2" "Beta"] |} |},
     S calls)
  else if String.eqb query (Queries.GET_BOARD_ITEMS_WITH_COLUMNS_QUERY "b1" ["c1"]) then
    (Resolved {| api_errors := None;
                 api_data :=
                   Some {| boards :=
                             Some [ {| board_id := "b1"; board_name := "Alpha";
                                       board_columns := None;
                                       items_page := Some {| items := Some [taskOfB1] |} |} ] |} |},
     S calls)
  else (Rejected Samples.concurrencyError, S calls).

Definition shownItem : Item :=
  {| item_id := "7"; item_name := "Earlier row"; column_values := [];
     boardId := "b1"; boardName := "Alpha" |}.

(** The component after an earlier, successful refresh. *)
Definition loaded : AppState :=
  setBoardItems [shownItem]
    (setSelectedColumnIds ["c1"]
       (setSelectedBoardIds ["b1"; "b2"] (setIsAppLoading false initialAppState))).

End FetcherSamples.

Module PollingSamples.

(** Settings loaded, one board and one column selected, nothing in flight. *)
Definition idle : Fetcher.Sys :=
  {| Fetcher.app :=
       setSelectedColumnIds ["c1"]
         (setSelectedBoardIds ["b1"] (setIsAppLoading false initialAppState));
     Fetcher.inflight := [] |}.

(** The same component after a tick has started a background refresh. *)
Definition polling : Fetcher.Sys := Fetcher.sysStep Fetcher.EvTick idle.

(** Two content loads started one after the other, the first of which
    completes. *)
Definition twoLoads : list Fetcher.SysEvent :=
  [Fetcher.EvLoadContent; Fetcher.EvLoadContent;
   Fetcher.EvSettle Fetcher.Foreground (Fetcher.Fetched ∅ [])].

(** Two ticks and the completion of a background refresh. *)
Definition duringLoad : list Fetcher.SysEvent :=
  [Fetcher.EvTick; Fetcher.EvSettle Fetcher.Background (Fetcher.Fetched ∅ []);
   Fetcher.EvTick].

(** A tick, the completion of a background refresh, the start of a second
    content load and another tick. *)
Definition beforeCompletion : list Fetcher.SysEvent :=
  [Fetcher.EvTick; Fetcher.EvSettle Fetcher.Background (Fetcher.Fetched ∅ []);
   Fetcher.EvLoadContent; Fetcher.EvTick].

End PollingSamples.

Module ColumnsSamples.

Definition stageOfB1 : Column :=
  {| col_id := "status"; col_title := "Stage"; col_type := "status"; settings_str := None |}.
Definition stateOfB2 : Column :=
  {| col_id := "status"; col_title := "State"; col_type := "status"; settings_str := None |}.
Definition ownerOfB2 : Column :=
  {| col_id := "owner"; col_title := "Owner"; col_type := "people"; settings_str := None |}.

Definition twoBoards : gmap string BoardInfo :=
  <["b1" := {| info_id := "b1"; info_name := "Alpha"; info_columns := [stageOfB1] |}]>
    (<["b2" := {| info_id := "b2"; info_name := "Beta";
                  info_columns := [stateOfB2; ownerOfB2] |}]> ∅).

End ColumnsSamples.

Module SettingsSamples.

(** A host whose storage and toast calls all succeed. *)
Definition reliableHost (entries : gmap string Settings.StoredValue) : Settings.Host :=
  {| Settings.store := entries;
     Settings.getItem_fault := None;
     Settings.setItem_fault := None;
     Settings.removeItem_available := true;
     Settings.removeItem_fault := None;
     Settings.toast_error_available := true;
     Settings.toasts := [] |}.

(** The view state to persist. *)
Definition chosen : AppState :=
  setIsSidebarOpen true
    (setSelectedColumnIds ["status"; "owner"]
       (setSelectedBoardIds ["b1"; "b2"] (setIsAppLoading false initialAppState))).

Definition holding (value : string) : Settings.Host :=
  reliableHost (<["appSettings" := Settings.SVString value]> ∅).

(** The same entry on a host without [removeItem], and on a host whose
    [removeItem] rejects. *)
Definition holdingWithoutRemove (value : string) : Settings.Host :=
  {| Settings.store := <["appSettings" := Settings.SVString value]> ∅;
     Settings.getItem_fault := None;
     Settings.setItem_fault := None;
     Settings.removeItem_available := false;
     Settings.removeItem_fault := None;
     Settings.toast_error_available := true;
     Settings.toasts := [] |}.

Definition holdingRemoveRejects (value : string) : Settings.Host :=
  {| Settings.store := <["appSettings" := Settings.SVString value]> ∅;
     Settings.getItem_fault := None;
     Settings.setItem_fault := None;
     Settings.removeItem_available := true;
     Settings.removeItem_fault := Some (new_Error "storage unavailable");
     Settings.toast_error_available := true;
     Settings.toasts := [] |}.

End SettingsSamples.

Module ViewSamples.

Definition statusMeta : View.ColumnMeta :=
  {| View.meta_id := "c1"; View.meta_title := "Status"; View.meta_type := "status" |}.
Definition dueMeta : View.ColumnMeta :=
  {| View.meta_id := "due"; View.meta_title := "Due"; View.meta_type := "date" |}.

Definition row (id name : string) (values : list ColumnValue) : Item :=
  {| item_id := id; item_name := name; column_values := values;
     boardId := "b1"; boardName := "Alpha" |}.

Definition cell (columnId : string) (text : option string) : ColumnValue :=
  {| cv_id := columnId; cv_text := text; cv_value := None; cv_display_value := None |}.

(** An item whose status text is the empty string, and one whose status
    text is the label "Done" between spaces. *)
Definition blankStatus : Item := row "1" "Draft" [cell "c1" (Some "")].
Definition doneStatus : Item := row "7" "Ship it" [cell "c1" (Some " Done ")].

(** Items for a date column [due]: no value at all, a date before 1970, a
    text that is not a date, a recent date. *)
Definition undated : Item := row "2" "Someday" [].
Definition moonLanding : Item := row "3" "Apollo" [cell "due" (Some "1969-07-20")].
Definition vague : Item := row "4" "Later" [cell "due" (Some "soon")].
Definition release : Item := row "5" "Ship" [cell "due" (Some "2024-02-29")].

(** A stand-in for the comparisons of the other column types. *)
Definition noOther : string -> View.ColumnMeta -> Item -> Item -> option Z :=
  fun _ _ _ _ => None.

(** A stand-in for [Array.prototype.sort]: insertion sort, stable. *)
Fixpoint insertSorted (cmp : Item -> Item -> Z) (x : Item) (l : list Item) : list Item :=
  match l with
  | [] => [x]
  | y :: rest => if cmp x y <? 0 then x :: l else y :: insertSorted cmp x rest
  end.
Definition insertionSort (cmp : Item -> Item -> Z) (l : list Item) : list Item :=
  fold_right (insertSorted cmp) [] l.

(** The filters after the label "Done" of column [c1] was checked and then
    unchecked. *)
Definition checkedThenUnchecked : gmap string (list string) :=
  View.handleFilterChange "c1" "Done" false (View.handleFilterChange "c1" "Done" true ∅).

End ViewSamples.

(** ** mondayQueries.js: the remaining documents *)

Module Documents.
Section Documents.
Variable JSON_stringify : Json -> string.

(** White space of the templates is not reproduced. *)
Definition GET_BOARDS_QUERY : string := "query { boards { id name } }".

Definition GET_USER_DETAILS_QUERY (userId : string) : string :=
  "query { users(ids: [" ++ userId ++ "]) { id name photo_original email } }".

(** The value is the JSON text of the JSON text of the name. *)
Definition UPDATE_ITEM_NAME_QUERY (bid itemId newName : string) : string :=
  let valuePayload := JSON_stringify (JStr newName) in
  "mutation { change_column_value( board_id: " ++ bid ++ ", item_id: " ++ itemId
  ++ ", column_id: " ++ Queries.dquote ++ "name" ++ Queries.dquote
  ++ ", value: " ++ JSON_stringify (JStr valuePayload)
  ++ " ) { id name column_values { id text } } }".

Definition UPDATE_COLUMN_VALUE_QUERY (bid itemId columnId valuePayloadString : string)
  : string :=
  "mutation { change_column_value( board_id: " ++ bid ++ ", item_id: " ++ itemId
  ++ ", column_id: " ++ Queries.dquote ++ columnId ++ Queries.dquote
  ++ ", value: " ++ JSON_stringify (JStr valuePayloadString)
  ++ " ) { id name column_values { id text value } } }".

End Documents.
End Documents.

(** ** App.jsx: selection handlers, the table's columns, the sidebar's boards *)

Module Selection.

(** A call of [monday.toast.success], [.info] or [.error]. *)
Inductive ToastKind := ToastSuccess | ToastInfo | ToastError.
Definition Toast : Type := ToastKind * string.

(** The updater of both toggles:
    [prev => prev.includes(id) ? prev.filter(x => x !== id) : [...prev, id]]. *)
Definition toggled (id : string) (prev : list string) : list string :=
  if Js.arr_includes prev id
  then List.filter (fun x => negb (String.eqb x id)) prev
  else (prev ++ [id])%list.

Definition handleBoardToggle (bid : string) (st : AppState) : AppState :=
  setSelectedBoardIds (toggled bid (selectedBoardIds st)) st.

Definition handleColumnToggle (columnId : string) (st : AppState) : AppState :=
  setSelectedColumnIds (toggled columnId (selectedColumnIds st)) st.

Definition boardNameColumn : Column :=
  {| col_id := "board_name_column"; col_title := "Board"; col_type := "board_name";
     settings_str := None |}.

Definition itemNameColumn : Column :=
  {| col_id := "item_name_column"; col_title := "Task Name"; col_type := "item_name";
     settings_str := None |}.

Definition columnsToDisplayInTable (allAvailableColumns : list Column)
           (selectedColumnIds : list string) : list Column :=
  let filteredColumns :=
    List.filter (fun col => Js.arr_includes selectedColumnIds (col_id col))
                allAvailableColumns in
  boardNameColumn :: itemNameColumn :: filteredColumns.

(** The columns of the table as [App] has [TaskTable] compute them:
    [columnIds = columnsToDisplayInTable.map(col => col.id)] and
    [allBoardColumns = columnsToDisplayInTable]. *)
Definition tableColumns (st : AppState) : list View.ColumnMeta :=
  let columnsToDisplay :=
    columnsToDisplayInTable
      (Columns.allAvailableColumnsForSelectedBoards (selectedBoardIds st) (allBoardsData st))
      (selectedColumnIds st) in
  View.columnsForTable (map col_id columnsToDisplay) columnsToDisplay.

(** The three [useState] cells of the lazily loaded board list. *)
Record SidebarBoards := {
  allAvailableBoardsForSidebar : list BoardData;
  isFetchingAllBoardsForSidebar : bool;
  allBoardsForSidebarFetchError : option string
}.

Section WithHost.
Context {World : Type}.
Variable monday_api : string -> World -> Settled (ApiResponse (option QueryData)) * World.
(** [monday.toast && typeof monday.toast.<kind> === 'function']. *)
Variable toast_available : ToastKind -> bool.

Definition toast (kind : ToastKind) (msg : string) : list Toast :=
  if toast_available kind then [(kind, msg)] else [].

Definition handleSelectAllColumns (st : AppState) : AppState * list Toast :=
  let allColumnIds :=
    map col_id (Columns.allAvailableColumnsForSelectedBoards
                  (selectedBoardIds st) (allBoardsData st)) in
  (setSelectedColumnIds allColumnIds st, toast ToastSuccess "All available fields selected!").

Definition handleDeselectAllColumns (st : AppState) : AppState * list Toast :=
  (setSelectedColumnIds [] st, toast ToastInfo "All fields deselected.").

(** [fetchBoardsForSidebarSelection()], run to completion. *)
Definition fetchBoardsForSidebarSelection (sb : SidebarBoards) (w : World)
  : SidebarBoards * World * list Toast :=
  if isFetchingAllBoardsForSidebar sb then (sb, w, [])
  else
    match Fetcher.run_query monday_api Documents.GET_BOARDS_QUERY w with
    | (Resolved data, w1) =>
        ({| allAvailableBoardsForSidebar :=
              match data with
              | Some d => match boards d with
                          | Some bs => bs
                          | None => allAvailableBoardsForSidebar sb
                          end
              | None => allAvailableBoardsForSidebar sb
              end;
            isFetchingAllBoardsForSidebar := false;
            allBoardsForSidebarFetchError := None |}, w1, [])
    | (Rejected error, w1) =>
        ({| allAvailableBoardsForSidebar := allAvailableBoardsForSidebar sb;
            isFetchingAllBoardsForSidebar := false;
            allBoardsForSidebarFetchError :=
              Some ("Error loading all boards: " ++ err_message error) |},
         w1, toast ToastError ("Error loading all boards for menu: " ++ err_message error))
    end.

(** [handleSelectAllBoards()], run to completion. *)
Definition handleSelectAllBoards (st : AppState) (sb : SidebarBoards) (w : World)
  : AppState * SidebarBoards * World * list Toast :=
  if (0 <? length (allAvailableBoardsForSidebar sb))%nat
  then (setSelectedBoardIds (map board_id (allAvailableBoardsForSidebar sb)) st, sb, w,
        toast ToastSuccess "All available boards selected!")
  else
    match Fetcher.run_query monday_api Documents.GET_BOARDS_QUERY w with
    | (Resolved (Some {| boards := Some bs |}), w1) =>
        (setIsLoadingColumns false (setSelectedBoardIds (map board_id bs) st),
         {| allAvailableBoardsForSidebar := bs;
            isFetchingAllBoardsForSidebar := isFetchingAllBoardsForSidebar sb;
            allBoardsForSidebarFetchError := None |},
         w1, toast ToastSuccess "All available boards selected!")
    | (Resolved _, w1) =>
        (setIsLoadingColumns false st,
         {| allAvailableBoardsForSidebar := allAvailableBoardsForSidebar sb;
            isFetchingAllBoardsForSidebar := isFetchingAllBoardsForSidebar sb;
            allBoardsForSidebarFetchError := None |},
         w1, [])
    | (Rejected error, w1) =>
        (setIsLoadingColumns false st,
         {| allAvailableBoardsForSidebar := allAvailableBoardsForSidebar sb;
            isFetchingAllBoardsForSidebar := isFetchingAllBoardsForSidebar sb;
            allBoardsForSidebarFetchError :=
              Some ("Error selecting all boards: " ++ err_message error) |},
         w1, toast ToastError ("Error selecting all boards: " ++ err_message error))
    end.

(** [toggleSidebar()], with the fetch it starts run to completion. *)
Definition toggleSidebar (st : AppState) (sb : SidebarBoards) (w : World)
  : AppState * SidebarBoards * World * list Toast :=
  let newSidebarState := negb (isSidebarOpen st) in
  let '(sb', w', toasts) :=
    if newSidebarState
       && (length (allAvailableBoardsForSidebar sb) =? 0)%nat
       && negb (isFetchingAllBoardsForSidebar sb)
    then fetchBoardsForSidebarSelection sb w
    else (sb, w, []) in
  (setIsSidebarOpen newSidebarState st, sb', w', toasts).

End WithHost.
End Selection.

(** ** TaskTable.jsx: the user cache and the two editing handlers *)

Module Table.

(** A user as returned by [GET_USER_DETAILS_QUERY], or the placeholder
    [{ id, name: 'Unknown', photo_original: null }]. *)
Record User := {
  user_id : Json;
  user_name : string;
  photo_original : option string;
  user_email : option string
}.

Record UsersData := { users : option (list User) }.

Definition unknownUser (id : Json) : User :=
  {| user_id := id; user_name := "Unknown"; photo_original := None; user_email := None |}.

(** [editingItemId] and [editedItemName]. *)
Record EditState := { editingItemId : option string; editedItemName : string }.

(** An entry of [statusOptions], as far as [handleStatusChange] reads it. *)
Record StatusOption := { opt_id : string; opt_label : string }.

(** [cellDialogState]; the DOM node [anchorEl] is left out. *)
Record CellDialogState := {
  dlg_isOpen : bool;
  dlg_item : option Item;
  dlg_column : option View.ColumnMeta;
  dlg_user : option User;
  dlg_isHeader : bool;
  dlg_isHover : bool
}.

Definition closedDialog : CellDialogState :=
  {| dlg_isOpen := false; dlg_item := None; dlg_column := None; dlg_user := None;
     dlg_isHeader := false; dlg_isHover := false |}.

Definition nameUpdateAlert : string :=
  "An error occurred while updating the item name. Please try again.".
Definition statusUpdateAlert : string :=
  "An error occurred while updating the status. Please try again.".

Section WithHost.
Context {World : Type}.
(** [monday.api], as the board queries and the mutations see it (the
    handlers below discard what a mutation resolves with), and as the
    user query sees it. *)
Variable monday_api : string -> World -> Settled (ApiResponse (option QueryData)) * World.
Variable users_api : string -> World -> Settled (ApiResponse (option UsersData)) * World.
Variable JSON_stringify : Json -> string.

(** [fetchAndCacheUser(userId)], run to completion.  [captured] is the
    [cachedUsers] of the render that created the callback, [cachedUsers]
    the state the functional updates apply to.  User ids are not names of
    built-in object properties. *)
Definition fetchAndCacheUser (captured : gmap string User) (userId : Json)
           (cachedUsers : gmap string User) (w : World)
  : User * gmap string User * World :=
  if negb (JsonOps.truthy userId) then (unknownUser JNull, cachedUsers, w)
  else
    let key := JsonOps.toString userId in
    match captured !! key with
    | Some user => (user, cachedUsers, w)
    | None =>
        match Executor.queryMonday users_api (Documents.GET_USER_DETAILS_QUERY key) 3 500 w with
        | (Resolved (Some {| users := Some (user :: _) |}), w1, _) =>
            (user, <[key := user]> cachedUsers, w1)
        | (_, w1, _) =>
            (unknownUser userId, <[key := unknownUser userId]> cachedUsers, w1)
        end
    end.

(** [onItemUpdated(boardId, itemId)]: [App]'s [handleItemUpdated]. *)
Definition handleItemUpdated (st : AppState) (w : World) : AppState * World :=
  Fetcher.fetchBoardData monday_api st w.

(** [handleSaveEdit(itemId, boardId, currentName)], run to completion; the
    last component lists the calls of [alert]. *)
Definition handleSaveEdit (itemId bid currentName : string)
           (es : EditState) (st : AppState) (w : World)
  : EditState * AppState * World * list string :=
  match editingItemId es with
  | Some editing =>
      if String.eqb editing itemId then
        let newName := Js.trim (editedItemName es) in
        let '(st', w', alerts) :=
          if negb (String.eqb newName "") && negb (String.eqb newName currentName) then
            match Executor.queryMonday monday_api
                    (Documents.UPDATE_ITEM_NAME_QUERY JSON_stringify bid itemId newName)
                    3 500 w with
            | (Resolved _, w1, _) =>
                match Js.find (fun item => String.eqb (item_id item) itemId
                                           && String.eqb (boardId item) bid)
                              (boardItems st) with
                | Some updatedItem =>
                    let '(st2, w2) := handleItemUpdated st w1 in (st2, w2, [])
                | None => (st, w1, [])
                end
            | (Rejected err, w1, _) => (st, w1, [nameUpdateAlert])
            end
          else (st, w, []) in
        ({| editingItemId := None; editedItemName := "" |}, st', w', alerts)
      else (es, st, w, [])
  | None => (es, st, w, [])
  end.

(** [handleKeyDown(e, itemId, boardId, currentName)] for the key [e.key]. *)
Definition handleKeyDown (key itemId bid currentName : string)
           (es : EditState) (st : AppState) (w : World)
  : EditState * AppState * World * list string :=
  if String.eqb key "Enter" then handleSaveEdit itemId bid currentName es st w
  else if String.eqb key "Escape"
       then ({| editingItemId := None; editedItemName := "" |}, st, w, [])
       else (es, st, w, []).

(** [handleStatusChange(selectedOption, item, columnMeta)], run to
    completion. *)
Definition handleStatusChange (selectedOption : option StatusOption) (item : Item)
           (columnMeta : View.ColumnMeta) (st : AppState) (w : World)
  : CellDialogState * AppState * World * list string :=
  let selectedStatusText :=
    match selectedOption with Some o => opt_label o | None => "" end in
  let isClear :=
    match selectedOption with Some o => String.eqb (opt_id o) "clear" | None => false end in
  let valueToSend :=
    if isClear then JSON_stringify (JObj [("label", JStr "")])
    else JSON_stringify (JObj [("label", JStr selectedStatusText)]) in
  let currentColumnValue :=
    Js.find (fun cv => String.eqb (cv_id cv) (View.meta_id columnMeta)) (column_values item) in
  let normalizedCurrentStatusText := View.normalizedStatusText currentColumnValue in
  let needsUpdate :=
    if isClear then negb (String.eqb normalizedCurrentStatusText "No status")
    else negb (String.eqb (Js.trim selectedStatusText) normalizedCurrentStatusText) in
  let '(st', w', alerts) :=
    if needsUpdate then
      match Executor.queryMonday monday_api
              (Documents.UPDATE_COLUMN_VALUE_QUERY JSON_stringify (boardId item) (item_id item)
                 (View.meta_id columnMeta) valueToSend)
              3 500 w with
      | (Resolved _, w1, _) =>
          let '(st2, w2) := handleItemUpdated st w1 in (st2, w2, [])
      | (Rejected err, w1, _) => (st, w1, [statusUpdateAlert])
      end
    else (st, w, []) in
  (closedDialog, st', w', alerts).

End WithHost.
End Table.

(** ** Vocabulary of the further statements *)

Module RunsSpec.
Import ExecutorSpec.

Section RunsSpec.
Context {World Out A : Type}.

(** The run of an executor with budget [retries] yields [a] at attempt
    [j]: the attempts before [j] failed with errors it classifies as
    transient, and attempt [j], within the budget, produces [a]. *)
Definition resolvesAt (op : World -> Out * World)
           (transient : Out -> bool) (value : Out -> option A)
           (retries j : nat) (a : A) (w : World) : Prop :=
  (j <= retries)%nat
  /\ (forall i, (i < j)%nat -> transient (outcomeAt op i w) = true)
  /\ value (outcomeAt op j w) = Some a.

End RunsSpec.

(** What [retry] and [queryMonday] resolve with, read off one call. *)
Definition retryValue {A} (o : Settled A) : option A :=
  match o with
  | Resolved a => Some a
  | Rejected _ => None
  end.
Definition apiValue {Data} (o : Settled (ApiResponse Data)) : option Data :=
  match o with
  | Resolved response =>
      match api_errors response with
      | Some _ => None
      | None => Some (api_data response)
      end
  | Rejected _ => None
  end.

(** What [queryMonday] settles with when the call that answered [o] is
    its last. *)
Definition apiSettle {Data} (o : Settled (ApiResponse Data)) : Settled Data :=
  match o with
  | Resolved response =>
      match api_errors response with
      | Some errs => Rejected (Executor.errors_to_Error errs)
      | None => Resolved (api_data response)
      end
  | Rejected e => Rejected e
  end.

(** [monday.api] with a counter of the requests made. *)
Definition counted {World Data}
           (monday_api : string -> World -> Settled (ApiResponse Data) * World)
  : string -> World * nat -> Settled (ApiResponse Data) * (World * nat) :=
  fun query wn =>
    let '(o, w') := monday_api query (fst wn) in (o, (w', S (snd wn))).

End RunsSpec.

Module FetcherSpec.

(** The entry [collectBoards] files for a board of the response. *)
Definition infoOf (board : BoardData) : BoardInfo :=
  {| info_id := board_id board; info_name := board_name board;
     info_columns := default [] (board_columns board) |}.

(** The fields a refresh leaves alone. *)
Definition untouched (st : AppState)
  : bool * list string * list string * bool * bool * bool * option string :=
  (isSidebarOpen st, selectedBoardIds st, selectedColumnIds st,
   isAppLoading st, isLoadingColumns st, isLoadingItems st, appError st).

(** The board name an item of board [bid] is shown under: the name filed
    for the board when there is one and it is not empty; otherwise the
    name of the built-in property of objects that [bid] spells, if any;
    otherwise "Board " followed by the id. *)
Definition boardLabel (filed : gmap string BoardInfo) (bid : string) : string :=
  match filed !! bid with
  | Some info => if String.eqb (info_name info) "" then "Board " ++ bid else info_name info
  | None => default ("Board " ++ bid) (Js.inheritedName bid)
  end.

(** A fetched item as it is shown for board [bid]. *)
Definition shownAs (filed : gmap string BoardInfo) (bid : string) (raw : RawItem) : Item :=
  {| item_id := raw_id raw; item_name := raw_name raw;
     column_values := raw_column_values raw;
     boardId := bid; boardName := boardLabel filed bid |}.

(** The item queries for the boards [todo], sent one after the other from
    the world [w], are served with the responses [ds] and leave the world
    [w']. *)
Fixpoint servedInOrder {World : Type}
         (monday_api : string -> World -> Settled (ApiResponse (option QueryData)) * World)
         (cols : list string) (todo : list string) (w : World)
         (ds : list (option QueryData)) (w' : World) : Prop :=
  match todo, ds with
  | [], [] => w' = w
  | bid :: rest, d :: ds' =>
      exists w1,
        Fetcher.run_query monday_api
          (Queries.GET_BOARD_ITEMS_WITH_COLUMNS_QUERY bid cols) w = (Resolved d, w1)
        /\ servedInOrder monday_api cols rest w1 ds' w'
  | _, _ => False
  end.

End FetcherSpec.

Module SelectionSpec.

(** The first column of each id, in order of appearance; [seen] lists the
    ids already taken. *)
Fixpoint firstById (seen : list string) (cols : list Column) : list Column :=
  match cols with
  | [] => []
  | c :: rest =>
      if Js.arr_includes seen (col_id c) then firstById seen rest
      else c :: firstById (col_id c :: seen) rest
  end.

End SelectionSpec.

Module DocumentSpec.

Definition field (k : string) (v : option Json) : list (string * Json) :=
  match v with
  | Some j => [(k, j)]
  | None => []
  end.

(** A settings document of any generation of the application: each of the
    two id lists and of the three visibility keys is present or not. *)
Definition storedDocument (boardIds columnIds : option (list string))
           (isDialogOpen isPopoverOpen isSidebarOpen : option bool) : Json :=
  JObj (field "selectedBoardIds" (option_map (fun l => JArr (map JStr l)) boardIds)
        ++ field "selectedColumnIds" (option_map (fun l => JArr (map JStr l)) columnIds)
        ++ field "isDialogOpen" (option_map JBool isDialogOpen)
        ++ field "isPopoverOpen" (option_map JBool isPopoverOpen)
        ++ field "isSidebarOpen" (option_map JBool isSidebarOpen))%list.

(** The first of three optional values that is present. *)
Definition firstDefined {A} (a b c : option A) : option A :=
  match a, b with
  | Some x, _ => Some x
  | None, Some y => Some y
  | None, None => c
  end.

(** The field [k] of a parsed document, [None] when it is absent or the
    document cannot have fields. *)
Definition fieldOf (v : Json) (k : string) : option Json :=
  match JsonOps.get v k with
  | Some x => x
  | None => None
  end.

(** A field that [loadSettings] can install as a list of ids: absent,
    falsy (then skipped), or an array of strings; and one that it can
    install as the sidebar flag: absent or a boolean. *)
Definition typedIds (x : option Json) : Prop :=
  match x with
  | Some j => JsonOps.truthy j = false \/ exists ids, JsonOps.asStringList j = Some ids
  | None => True
  end.
Definition typedFlag (x : option Json) : Prop :=
  match x with
  | Some j => exists b, JsonOps.asBool j = Some b
  | None => True
  end.

(** A parsed document whose fields, as far as [loadSettings] installs
    them, have the types of the component state. *)
Definition typedDocument (v : Json) : Prop :=
  typedIds (fieldOf v "selectedBoardIds")
  /\ typedIds (fieldOf v "selectedColumnIds")
  /\ typedFlag (firstDefined (fieldOf v "isDialogOpen") (fieldOf v "isPopoverOpen")
                             (fieldOf v "isSidebarOpen")).

(** A host whose [appSettings] entry, when it is a string that parses,
    parses to such a document. *)
Definition typedStore (JSON_parse : string -> option Json) (h : Settings.Host) : Prop :=
  forall s v,
    Settings.store h !! "appSettings" = Some (Settings.SVString s) ->
    JSON_parse s = Some v ->
    typedDocument v.

End DocumentSpec.

Module PeopleSpec.

(** An entry of [personsAndTeams] that the [filter] drops: reading its
    [kind] does not throw and does not give ['person']. *)
Definition notAPerson (p : Json) : Prop :=
  exists kind, JsonOps.get p "kind" = Some kind /\ kind <> Some (JStr "person").

End PeopleSpec.

Module TableSpec.
Import Table.

(** The status the table shows for the item in the column. *)
Definition statusShown (item : Item) (columnMeta : View.ColumnMeta) : string :=
  View.normalizedStatusText
    (Js.find (fun cv => String.eqb (cv_id cv) (View.meta_id columnMeta)) (column_values item)).

(** The label the chosen entry stands for: none for the entry with id
    ["clear"] and when no entry was chosen. *)
Definition chosenLabel (selectedOption : option StatusOption) : string :=
  match selectedOption with
  | Some o => if String.eqb (opt_id o) "clear" then "" else opt_label o
  | None => ""
  end.

(** The chosen entry asks for the status the item already shows. *)
Definition sameStatus (selectedOption : option StatusOption)
           (item : Item) (columnMeta : View.ColumnMeta) : Prop :=
  match selectedOption with
  | Some o =>
      if String.eqb (opt_id o) "clear" then statusShown item columnMeta = "No status"
      else Js.trim (opt_label o) = statusShown item columnMeta
  | None => Js.trim "" = statusShown item columnMeta
  end.

(** The mutation that sets the column of the item to the chosen label. *)
Definition statusMutation (JSON_stringify : Json -> string)
           (selectedOption : option StatusOption)
           (item : Item) (columnMeta : View.ColumnMeta) : string :=
  Documents.UPDATE_COLUMN_VALUE_QUERY JSON_stringify (boardId item) (item_id item)
    (View.meta_id columnMeta)
    (JSON_stringify (JObj [("label", JStr (chosenLabel selectedOption))])).

(** The text typed into the name editor names the item anew. *)
Definition nameChanged (currentName : string) (es : EditState) : Prop :=
  Js.trim (editedItemName es) <> "" /\ Js.trim (editedItemName es) <> currentName.

(** The mutation that renames the item to the typed text, trimmed. *)
Definition nameMutation (JSON_stringify : Json -> string)
           (bid itemId : string) (es : EditState) : string :=
  Documents.UPDATE_ITEM_NAME_QUERY JSON_stringify bid itemId (Js.trim (editedItemName es)).

(** The table holds a row for the item of the board. *)
Definition listed (itemId bid : string) (st : AppState) : Prop :=
  exists item, In item (boardItems st) /\ item_id item = itemId /\ boardId item = bid.

Definition noEdit : EditState := {| editingItemId := None; editedItemName := "" |}.

End TableSpec.

(** ** Further sample inputs *)

Module RunsSamples.

(** An operation that hits the concurrency limit on its first two calls
    and succeeds from the third on; the world counts the calls. *)
Definition limitedTwice : nat -> Settled string * nat :=
  fun calls =>
    if (calls <? 2)%nat then (Rejected Samples.concurrencyError, S calls)
    else (Resolved "done", S calls).

Definition noBoards : option QueryData := Some {| boards := Some [] |}.

(** [monday.api] listing a rate-limit error on its first two calls and
    answering from the third on. *)
Definition apiLimitedTwice (query : string) (calls : nat)
  : Settled (ApiResponse (option QueryData)) * nat :=
  if (calls <? 2)%nat
  then Samples.apiListing ["Rate limit exceeded"] query calls
  else (Resolved {| api_errors := None; api_data := noBoards |}, S calls).

(** [monday.api] answering with data and an empty [errors] array. *)
Definition apiEmptyErrors (query : string) (calls : nat)
  : Settled (ApiResponse (option QueryData)) * nat :=
  (Resolved {| api_errors := Some []; api_data := noBoards |}, S calls).

End RunsSamples.

Module FetcherMoreSamples.

(** The component of [FetcherSamples.loaded] with no column selected, and
    with board [b1] alone selected. *)
Definition noColumns : AppState := setSelectedColumnIds [] FetcherSamples.loaded.
Definition onlyB1 : AppState := setSelectedBoardIds ["b1"] FetcherSamples.loaded.

(** The item of board [b1] as the fetcher tags it. *)
Definition taggedTask : Item :=
  {| item_id := "11"; item_name := "Write report";
     column_values := raw_column_values FetcherSamples.taskOfB1;
     boardId := "b1"; boardName := "Alpha" |}.

End FetcherMoreSamples.

Module SelectionSamples.

(** A host on which every toast function exists. *)
Definition allToasts : Selection.ToastKind -> bool := fun _ => true.

(** The sidebar before its first opening. *)
Definition unopened : Selection.SidebarBoards :=
  {| Selection.allAvailableBoardsForSidebar := [];
     Selection.isFetchingAllBoardsForSidebar := false;
     Selection.allBoardsForSidebarFetchError := None |}.

Definition listedBoards : list BoardData :=
  [ {| board_id := "b1"; board_name := "Alpha"; board_columns := None; items_page := None |};
    {| board_id := "b2"; board_name := "Beta"; board_columns := None; items_page := None |} ].

(** [monday.api] answering every query with the two boards. *)
Definition apiBoards (query : string) (calls : nat)
  : Settled (ApiResponse (option QueryData)) * nat :=
  (Resolved {| api_errors := None; api_data := Some {| boards := Some listedBoards |} |},
   S calls).

End SelectionSamples.

Module SettingsMoreSamples.

(** A host holding [value] whose [getItem] rejects. *)
Definition unreadable (value : string) : Settings.Host :=
  {| Settings.store := <["appSettings" := Settings.SVString value]> ∅;
     Settings.getItem_fault := Some (new_Error "storage timeout");
     Settings.setItem_fault := None;
     Settings.removeItem_available := true;
     Settings.removeItem_fault := None;
     Settings.toast_error_available := true;
     Settings.toasts := [] |}.

(** A document written by an earlier generation of the application: a
    popover flag next to a sidebar flag, no column list. *)
Definition legacyText : string :=
  MiniJSON.stringify
    (DocumentSpec.storedDocument (Some ["b1"]) None None (Some true) (Some false)).

End SettingsMoreSamples.

Module ViewMoreSamples.

Definition ownerMeta : View.ColumnMeta :=
  {| View.meta_id := "owner"; View.meta_title := "Owner"; View.meta_type := "people" |}.

(** The value of a people column holding one team and no person. *)
Definition teamOnlyValue : string :=
  MiniJSON.stringify
    (JObj [("personsAndTeams",
            JArr [JObj [("id", JNum 7); ("kind", JStr "team")]])]).

Definition teamTask : Item :=
  ViewSamples.row "6" "Plan"
    [ {| cv_id := "owner"; cv_text := Some "Design team"; cv_value := Some teamOnlyValue;
         cv_display_value := None |} ].

End ViewMoreSamples.

Module TableSamples.

(** The user query on a host that denies it. *)
Definition usersDenied (query : string) (calls : nat)
  : Settled (ApiResponse (option Table.UsersData)) * nat :=
  (Rejected (new_Error "Permission denied"), S calls).

(** A host that denies every query and mutation. *)
Definition denied (query : string) (calls : nat)
  : Settled (ApiResponse (option QueryData)) * nat :=
  (Rejected (new_Error "Permission denied"), S calls).

(** The entry "Stuck" of a status column. *)
Definition stuck : Table.StatusOption :=
  {| Table.opt_id := "2"; Table.opt_label := "Stuck" |}.

(** The name editor open on item 7, with a new name typed. *)
Definition renaming : Table.EditState :=
  {| Table.editingItemId := Some "7"; Table.editedItemName := " Later row " |}.

(** The host of [FetcherSamples.api], which also accepts the renaming of
    item 7 of board [b1]. *)
Definition accepting (query : string) (calls : nat)
  : Settled (ApiResponse (option QueryData)) * nat :=
  if String.eqb query
       (Documents.UPDATE_ITEM_NAME_QUERY MiniJSON.stringify "b1" "7" "Later row")
  then (Resolved {| api_errors := None; api_data := None |}, S calls)
  else FetcherSamples.api query calls.

End TableSamples.

(* ===================================================================== *)
(** * Part II.  Properties                                                *)
(* ===================================================================== *)

(** ** Strings *)

Module JsFacts.

Lemma prefix_nil_r p : String.prefix p "" = true -> p = "".
Proof. destruct p; [reflexivity | discriminate]. Qed.

(** A prefix that avoids the character [c] ends before the first [c]. *)
Lemma prefix_app_cut p x c y :
  String.prefix p (x ++ String c y) = true ->
  ~ In c (list_ascii_of_string p) ->
  String.prefix p x = true.
Proof.
  revert p. induction x as [|a x IH]; intros p Hp Hc.
  - destruct p as [|b p]; [reflexivity|].
    simpl in Hp. destruct (ascii_dec b c) as [->|]; [|discriminate].
    exfalso. apply Hc. simpl. now left.
  - destruct p as [|b p]; [reflexivity|].
    simpl in Hp |- *. destruct (ascii_dec b a); [|discriminate].
    apply IH; [exact Hp|]. intros Hin. apply Hc. simpl. now right.
Qed.

Lemma includes_unfold hay needle :
  Js.includes hay needle =
  String.prefix needle hay
  || match hay with
     | EmptyString => false
     | String _ rest => Js.includes rest needle
     end.
Proof. destruct hay; reflexivity. Qed.

(** An occurrence that avoids [c] lies on one side of a [c]. *)
Lemma includes_app_cut x c y p :
  Js.includes (x ++ String c y) p = true ->
  ~ In c (list_ascii_of_string p) ->
  Js.includes x p = true \/ Js.includes y p = true.
Proof.
  induction x as [|a x IH]; intros H Hc.
  - change ("" ++ String c y) with (String c y) in H.
    rewrite includes_unfold in H. apply orb_true_iff in H as [H|H]; [|now right].
    left. apply (prefix_app_cut p "" c y) in H; [|exact Hc].
    rewrite includes_unfold, H. reflexivity.
  - change (String a x ++ String c y) with (String a (x ++ String c y)) in H.
    rewrite includes_unfold in H. apply orb_true_iff in H as [H|H].
    + left. apply (prefix_app_cut p (String a x) c y) in H; [|exact Hc].
      rewrite includes_unfold, H. reflexivity.
    + destruct (IH H Hc) as [H'|H']; [left|now right].
      rewrite includes_unfold, H'. apply orb_true_r.
Qed.

(** Joining messages with ["; "] creates no new occurrence of the marker
    that [queryMonday]'s [catch] block looks for. *)
Lemma join_includes_marker (msgs : list string) :
  Js.includes (Js.join "; " msgs) "Rate limit passed" = true ->
  exists m, In m msgs /\ Js.includes m "Rate limit passed" = true.
Proof.
  induction msgs as [|m rest IH]; intros H.
  - discriminate H.
  - destruct rest as [|m' rest'].
    + exists m. split; [now left | exact H].
    + change (Js.join "; " (m :: m' :: rest'))
        with (m ++ String ";" (String " " (Js.join "; " (m' :: rest')))) in H.
      apply includes_app_cut in H.
      * destruct H as [H|H].
        -- exists m. split; [now left | exact H].
        -- rewrite includes_unfold in H. simpl String.prefix in H.
           simpl orb in H.
           destruct (IH H) as (m0 & Hin & Hm0).
           exists m0. split; [now right | exact Hm0].
      * simpl. intros Hin.
        repeat (destruct Hin as [Hin|Hin]; [discriminate Hin|]). exact Hin.
Qed.

End JsFacts.

(** ** The retrying executors *)

Module ExecutorFacts.
Import ExecutorSpec.

Section Generic.
Context {World Out : Type}.
Variable op : World -> Out * World.

Lemma outcomeAt_0 w : outcomeAt op 0 w = fst (op w).
Proof. reflexivity. Qed.

Lemma outcomeAt_S k w : outcomeAt op (S k) w = outcomeAt op k (snd (op w)).
Proof. reflexivity. Qed.

(** After a transient first attempt the rest of the run is a run with one
    attempt less, started in the world the first attempt left. *)
Lemma stopsAt_S transient rejection retries j e w :
  stopsAt op transient rejection (S retries) (S j) e w ->
  transient (fst (op w)) = true
  /\ stopsAt op transient rejection retries j e (snd (op w)).
Proof.
  intros (Hle & Hbefore & Hlast & Hrej). split.
  - apply (Hbefore 0%nat). lia.
  - repeat split.
    + lia.
    + intros i Hi. apply (Hbefore (S i)). lia.
    + destruct Hlast as [Heq|Hfatal]; [left; lia | right; exact Hfatal].
    + exact Hrej.
Qed.

Lemma stopsAt_0 transient rejection retries e w :
  stopsAt op transient rejection retries 0 e w ->
  (retries = 0%nat \/ transient (fst (op w)) = false)
  /\ rejection (fst (op w)) = Some e.
Proof.
  intros (_ & _ & Hlast & Hrej). split; [|exact Hrej].
  destruct Hlast as [<-|H]; [now left | now right].
Qed.

Lemma stopsAt_le transient rejection retries j e w :
  stopsAt op transient rejection retries j e w -> (j <= retries)%nat.
Proof. now intros (H & _). Qed.

End Generic.

Lemma calls_backoffTrace n delay factor : calls (backoffTrace n delay factor) = S n.
Proof.
  revert delay. induction n as [|n IH]; intros delay; [reflexivity|].
  unfold calls in *. simpl. now rewrite IH.
Qed.

Lemma sleeps_backoffTrace n delay factor :
  sleeps (backoffTrace n delay factor)
  = map (fun i => delay * factor ^ Z.of_nat i) (seq 0 n).
Proof.
  revert delay. induction n as [|n IH]; intros delay; [reflexivity|].
  cbn [backoffTrace]. unfold sleeps in *. cbn [flat_map app]. rewrite IH.
  cbn [seq map]. f_equal; [change (Z.of_nat 0) with 0; lia|].
  rewrite <- seq_shift, map_map. apply map_ext. intros i.
  rewrite Nat2Z.inj_succ, Z.pow_succ_r by lia. lia.
Qed.

Section Runs.
Context {World Data : Type}.
Variable monday_api : string -> World -> Settled (ApiResponse Data) * World.

(** [retry] stops exactly where [stopsAt] says. *)
Lemma retry_run {A} (fn : World -> Settled A * World) retries :
  forall j delay factor e w,
    stopsAt fn retryTransient retryRejection retries j e w ->
    Executor.retry fn retries delay factor w
    = (Rejected e, worldAfter fn (S j) w, backoffTrace j delay factor).
Proof.
  induction retries as [|r IH]; intros j delay factor e w H.
  - assert (j = 0)%nat as -> by (apply stopsAt_le in H; lia).
    apply stopsAt_0 in H as [_ Hrej]. cbn.
    destruct (fn w) as [[a|e'] w1]; cbn in Hrej; [discriminate|].
    now inversion Hrej.
  - destruct j as [|j].
    + apply stopsAt_0 in H as [Hlast Hrej]. cbn.
      destruct (fn w) as [[a|e'] w1]; cbn in Hrej, Hlast; [discriminate|].
      inversion Hrej; subst e'.
      destruct Hlast as [Hlast|Hlast]; [discriminate|]. now rewrite Hlast.
    + apply stopsAt_S in H as [Htr Hrest].
      specialize (IH j (delay * factor) factor e _ Hrest).
      cbn [Executor.retry backoffTrace worldAfter].
      destruct (fn w) as [[a|e'] w1]; cbn in Htr, IH |- *; [discriminate|].
      now rewrite Htr, IH.
Qed.

(** Two readings of [retry_run]: the operation that always fails
    transiently, and the operation whose first failure is fatal. *)
Lemma retry_always_transient {A} (fn : World -> Settled A * World)
      retries delay factor w :
  (forall i, (i <= retries)%nat ->
             exists e, outcomeAt fn i w = Rejected e /\ Executor.retry_classifier e = true) ->
  exists e,
    outcomeAt fn retries w = Rejected e
    /\ Executor.retry fn retries delay factor w
       = (Rejected e, worldAfter fn (S retries) w, backoffTrace retries delay factor).
Proof.
  intros Hall. destruct (Hall retries (Nat.le_refl _)) as (e & He & _).
  exists e. split; [exact He|]. apply retry_run.
  unfold stopsAt. split; [lia|]. split; [|split; [now left | now rewrite He]].
  intros i Hi. destruct (Hall i) as (ei & Hei & Hcl); [lia|]. now rewrite Hei.
Qed.

Lemma retry_fatal_once {A} (fn : World -> Settled A * World)
      retries delay factor w e :
  fst (fn w) = Rejected e ->
  Executor.retry_classifier e = false ->
  Executor.retry fn retries delay factor w = (Rejected e, snd (fn w), [Call]).
Proof.
  intros He Hfatal. apply (retry_run fn retries 0 delay factor e w).
  unfold stopsAt. split; [lia|]. split; [intros i Hi; lia|].
  rewrite outcomeAt_0, He. split; [now right | reflexivity].
Qed.

(** A structured error list without a rate-limit marker is rethrown by
    the [catch] block: the joined message carries no marker either. *)
Lemma errors_to_Error_not_retried errs :
  Executor.rateLimitError errs = false ->
  Js.includes (err_message (Executor.errors_to_Error errs)) "Rate limit passed" = false.
Proof.
  intros Hno. apply not_true_is_false. intros Hin.
  apply JsFacts.join_includes_marker in Hin as (m & Hm & Hmark).
  apply in_map_iff in Hm as (err & <- & Herr).
  assert (Executor.rateLimitError errs = true) as Hyes; [|congruence].
  apply existsb_exists. exists err. split; [exact Herr|].
  now rewrite Hmark.
Qed.

(** [queryMonday] stops exactly where [stopsAt] says. *)
Lemma queryMonday_run query retries :
  forall j delay e w,
    stopsAt (monday_api query) apiTransient apiRejection retries j e w ->
    Executor.queryMonday monday_api query retries delay w
    = (Rejected e, worldAfter (monday_api query) (S j) w, backoffTrace j delay 2).
Proof.
  induction retries as [|r IH]; intros j delay e w H.
  - assert (j = 0)%nat as -> by (apply stopsAt_le in H; lia).
    apply stopsAt_0 in H as [_ Hrej]. cbn.
    destruct (monday_api query w) as [[response|e'] w1]; cbn in Hrej |- *.
    + destruct (api_errors response) as [errs|]; cbn in Hrej; [|discriminate].
      now inversion Hrej.
    + now inversion Hrej.
  - destruct j as [|j].
    + apply stopsAt_0 in H as [Hlast Hrej]. cbn.
      destruct Hlast as [Hlast|Hlast]; [discriminate|].
      destruct (monday_api query w) as [[response|e'] w1]; cbn in Hrej, Hlast |- *.
      * destruct (api_errors response) as [errs|]; cbn in Hrej; [|discriminate].
        inversion Hrej; subst e. rewrite Hlast.
        pose proof (errors_to_Error_not_retried errs Hlast) as Hjoin.
        cbn in Hjoin. now rewrite Hjoin.
      * inversion Hrej; subst e'. now rewrite Hlast.
    + apply stopsAt_S in H as [Htr Hrest].
      specialize (IH j (delay * 2) e _ Hrest).
      cbn [Executor.queryMonday backoffTrace worldAfter].
      destruct (monday_api query w) as [[response|e'] w1]; cbn in Htr, IH |- *.
      * destruct (api_errors response) as [errs|]; [|discriminate].
        now rewrite Htr, IH.
      * now rewrite Htr, IH.
Qed.

End Runs.
End ExecutorFacts.

Module ExecutorClaims.
Import ExecutorSpec.

(** C1, as amended.  For both executors -- [retry] with its classifier and
    [queryMonday] with its rate-limit test -- if the attempts before attempt
    [j] fail with errors the executor classifies as transient, and attempt
    [j] fails with the budget spent ([j = retries]) or with an error that is
    not transient, then the operation is attempted exactly [j + 1] times,
    with sleeps of [delay], [delay * factor], ... between consecutive
    attempts ([factor] is 2 by default in [retry] and always in
    [queryMonday]), and the executor rejects with the error of that last
    attempt itself, with no tag added.  With [j = retries] this is the
    operation that always fails transiently: [retries + 1] attempts.  With
    [j = 0] it is the operation whose first attempt fails with a
    non-transient error: one attempt, no retry. *)
Theorem retry_budget {World Data A : Type}
    (monday_api : string -> World -> Settled (ApiResponse Data) * World)
    (fn : World -> Settled A * World) (query : string)
    (retries j : nat) (delay factor : Z) (e : JsError) (w : World)
    (retriesQ jQ : nat) (delayQ : Z) (eQ : JsError) (wQ : World) :
  stopsAt fn retryTransient retryRejection retries j e w ->
  stopsAt (monday_api query) apiTransient apiRejection retriesQ jQ eQ wQ ->
  Executor.retry fn retries delay factor w
  = (Rejected e, worldAfter fn (S j) w, backoffTrace j delay factor)
  /\ Executor.queryMonday monday_api query retriesQ delayQ wQ
     = (Rejected eQ, worldAfter (monday_api query) (S jQ) wQ, backoffTrace jQ delayQ 2)
  /\ calls (backoffTrace j delay factor) = S j
  /\ sleeps (backoffTrace j delay factor)
     = map (fun i => delay * factor ^ Z.of_nat i) (seq 0 j)
  /\ calls (backoffTrace jQ delayQ 2) = S jQ
  /\ sleeps (backoffTrace jQ delayQ 2) = map (fun i => delayQ * 2 ^ Z.of_nat i) (seq 0 jQ).
Proof.
  intros Hfn Hapi. repeat split.
  - now apply ExecutorFacts.retry_run.
  - now apply ExecutorFacts.queryMonday_run.
  - apply ExecutorFacts.calls_backoffTrace.
  - apply ExecutorFacts.sleeps_backoffTrace.
  - apply ExecutorFacts.calls_backoffTrace.
  - apply ExecutorFacts.sleeps_backoffTrace.
Qed.

(** An operation that always hits the concurrency limit, under [retry] with
    two retries, and an API that always lists a rate-limit error, under
    [queryMonday] with its default three. *)
Lemma retry_budget_witness :
  stopsAt Samples.alwaysConcurrencyLimited retryTransient retryRejection
          2 2 Samples.concurrencyError 0%nat
  /\ stopsAt (Samples.apiListing ["Rate limit exceeded"] "q") apiTransient apiRejection
             3 3 (new_Error "Rate limit exceeded") 0%nat
  /\ Executor.retry Samples.alwaysConcurrencyLimited 2 2000 2 0%nat
     = (Rejected Samples.concurrencyError, 3%nat,
        [Call; Sleep 2000; Call; Sleep 4000; Call])
  /\ Executor.queryMonday (Samples.apiListing ["Rate limit exceeded"]) "q" 3 500 0%nat
     = (Rejected (new_Error "Rate limit exceeded"), 4%nat,
        [Call; Sleep 500; Call; Sleep 1000; Call; Sleep 2000; Call]).
Proof.
  assert (H1 : stopsAt Samples.alwaysConcurrencyLimited retryTransient retryRejection
                       2 2 Samples.concurrencyError 0%nat).
  { unfold stopsAt. split; [lia|]. split; [|split; [now left | reflexivity]].
    intros [|[|i]] Hi; [reflexivity | reflexivity | lia]. }
  assert (H2 : stopsAt (Samples.apiListing ["Rate limit exceeded"] "q")
                       apiTransient apiRejection
                       3 3 (new_Error "Rate limit exceeded") 0%nat).
  { unfold stopsAt. split; [lia|]. split; [|split; [now left | reflexivity]].
    intros [|[|[|i]]] Hi; [reflexivity | reflexivity | reflexivity | lia]. }
  split; [exact H1|]. split; [exact H2|].
  destruct (retry_budget (Samples.apiListing ["Rate limit exceeded"])
                         Samples.alwaysConcurrencyLimited "q"
                         2 2 2000 2 Samples.concurrencyError 0%nat
                         3 3 500 (new_Error "Rate limit exceeded") 0%nat H1 H2)
    as (Hr & Hq & _).
  split; [exact Hr | exact Hq].
Defined.

(** C1 as stated fails: once the budget is spent the rejection is the
    operation's own error, not one tagged as ExhaustedRetries. *)
Lemma exhausted_rejection_untagged :
  exists e w tr,
    Executor.retry Samples.alwaysConcurrencyLimited 5 2000 2 0%nat = (Rejected e, w, tr)
    /\ calls tr = 6%nat
    /\ e = Samples.concurrencyError
    /\ ~ taggedExhaustedRetries e.
Proof.
  exists Samples.concurrencyError, 6%nat, (backoffTrace 5 2000 2).
  repeat split. intros H. discriminate H.
Qed.

(** The four tests of [retry]'s classifier. *)
Lemma retry_classifier_cases (e : JsError) :
  Executor.retry_classifier e = true <->
  Js.includes (err_message e) "Concurrency limit exceeded" = true
  \/ Js.includes (err_message e) "Graphql validation errors" = true
  \/ (exists r, err_response e = Some r /\ resp_status r = Some 429)
  \/ (exists r e0 rest x,
        err_response e = Some r /\ resp_errors r = Some (e0 :: rest)
        /\ gql_extensions e0 = Some x /\ ext_code x = Some "FIELD_LIMIT_EXCEEDED").
Proof.
  unfold Executor.retry_classifier. rewrite !orb_true_iff. split.
  - intros [[[H|H]|H]|H]; [now left | now (right; left) | |].
    + right; right; left. destruct (err_response e) as [r|]; [|discriminate].
      exists r. split; [reflexivity|].
      destruct (resp_status r) as [s|]; [|discriminate].
      apply Z.eqb_eq in H. now subst.
    + right; right; right. destruct (err_response e) as [r|]; [|discriminate].
      destruct (resp_errors r) as [[|e0 rest]|] eqn:Hr; try discriminate.
      destruct (gql_extensions e0) as [x|] eqn:Hx; [|discriminate].
      destruct (ext_code x) as [c|] eqn:Hc; [|discriminate].
      apply String.eqb_eq in H. subst c.
      exists r, e0, rest, x. now repeat split.
  - intros [H|[H|[(r & Hr & Hs)|(r & e0 & rest & x & Hr & He & Hx & Hc)]]].
    + now (left; left; left).
    + now (left; left; right).
    + left; right. now rewrite Hr, Hs.
    + right. now rewrite Hr, He, Hx, Hc.
Qed.

(** C4, the defect.  [monday.api] rejecting with the message ["Rate limit
    exceeded"] is attempted once by [queryMonday] and once by the composed
    executor: neither the [catch] block, which looks for ["Rate limit
    passed"] only, nor [retry]'s classifier treats it as transient.  The
    same message delivered in a structured error list with HTTP success is
    retried three times. *)
Theorem thrown_rate_limit_exceeded_not_retried :
  Executor.queryMonday (Samples.apiThrowing "Rate limit exceeded") "q" 3 500 0%nat
  = (Rejected (new_Error "Rate limit exceeded"), 1%nat, [Call])
  /\ Executor.execute (Samples.apiThrowing "Rate limit exceeded") "q" 0%nat
     = (Rejected (new_Error "Rate limit exceeded"), 1%nat)
  /\ Executor.queryMonday (Samples.apiListing ["Rate limit exceeded"]) "q" 3 500 0%nat
     = (Rejected (new_Error "Rate limit exceeded"), 4%nat,
        [Call; Sleep 500; Call; Sleep 1000; Call; Sleep 2000; Call]).
Proof. repeat split. Qed.

End ExecutorClaims.

(** ** The aggregation fetcher *)

Module FetcherFacts.
Section FetcherFacts.
Context {World : Type}.
Variable monday_api : string -> World -> Settled (ApiResponse (option QueryData)) * World.

Abbreviation fetchItems := (Fetcher.fetchItems monday_api).
Abbreviation run_query := (Fetcher.run_query monday_api).

(** The loop over [pre ++ post] is the loop over [pre] followed, unless it
    threw, by the loop over [post]. *)
Lemma fetchItems_app cols nab pre post :
  forall acc w,
    fetchItems cols nab (pre ++ post) acc w
    = match fetchItems cols nab pre acc w with
      | (inr acc', w') => fetchItems cols nab post acc' w'
      | (inl error, w') => (inl error, w')
      end.
Proof.
  induction pre as [|bid pre IH]; intros acc w; [reflexivity|].
  cbn [app Fetcher.fetchItems].
  destruct (length cols =? 0)%nat; [apply IH|].
  destruct (Fetcher.run_query _ _ w) as [[itemsData|error] w1]; [|reflexivity].
  destruct (Fetcher.itemsOf itemsData); apply IH.
Qed.

(** A rejected item fetch ends the loop with that error, whatever was
    accumulated. *)
Lemma fetchItems_rejects cols nab pre bid post acc w acc' w' error w'' :
  cols <> [] ->
  fetchItems cols nab pre acc w = (inr acc', w') ->
  run_query (Queries.GET_BOARD_ITEMS_WITH_COLUMNS_QUERY bid cols) w' = (Rejected error, w'') ->
  fetchItems cols nab (pre ++ bid :: post) acc w = (inl error, w'').
Proof.
  intros Hcols Hpre Hbid. rewrite fetchItems_app, Hpre.
  cbn [Fetcher.fetchItems].
  destruct cols as [|c cols]; [congruence|]. cbn [length Nat.eqb].
  now rewrite Hbid.
Qed.

(** Neither branch of the [catch] block touches the item list. *)
Lemma fetchBoardData_catch_boardItems error st :
  boardItems (Fetcher.fetchBoardData_catch error st) = boardItems st.
Proof. unfold Fetcher.fetchBoardData_catch. now destruct (Js.includes _ _). Qed.

Lemma fetchBoardData_catch_reports error st :
  (columnsError (Fetcher.fetchBoardData_catch error st)
   = Some ("Error loading columns: " ++ err_message error ++ ". Please check selected boards.")
   /\ Js.includes (err_message error) "columns" = true)
  \/ (itemsError (Fetcher.fetchBoardData_catch error st)
      = Some ("Error loading items: " ++ err_message error ++ ".")
      /\ Js.includes (err_message error) "columns" = false).
Proof.
  unfold Fetcher.fetchBoardData_catch.
  destruct (Js.includes _ _); [left | right]; now split.
Qed.

End FetcherFacts.
End FetcherFacts.

Module FetcherClaims.

(** C2.  A refresh over a non-empty selection in which the item fetch of
    some selected board is rejected by the executor (the column query and
    the boards before it having been served) fails as a whole: the run ends
    in the [catch] block, which reports the error in [columnsError] or
    [itemsError]; the items fetched from the earlier boards are dropped
    with the local accumulator, and [boardItems] is what it was before the
    refresh. *)
Theorem failed_item_fetch_keeps_boardItems {World : Type}
    (monday_api : string -> World -> Settled (ApiResponse (option QueryData)) * World)
    (st : AppState) (w : World)
    (pre : list string) (bid : string) (post : list string)
    (columnsData : option QueryData) (w1 : World)
    (earlier : list Item) (w2 : World) (error : JsError) (w3 : World) :
  selectedBoardIds st = (pre ++ bid :: post)%list ->
  selectedColumnIds st <> [] ->
  Fetcher.run_query monday_api Queries.GET_BOARD_COLUMNS_QUERY w = (Resolved columnsData, w1) ->
  Fetcher.fetchItems monday_api (selectedColumnIds st)
    (Fetcher.collectBoards (selectedBoardIds st) columnsData) pre [] w1
  = (inr earlier, w2) ->
  Fetcher.run_query monday_api
    (Queries.GET_BOARD_ITEMS_WITH_COLUMNS_QUERY bid (selectedColumnIds st)) w2
  = (Rejected error, w3) ->
  exists st',
    Fetcher.fetchBoardData monday_api st w = (st', w3)
    /\ boardItems st' = boardItems st
    /\ isPolling st' = false
    /\ (columnsError st'
        = Some ("Error loading columns: " ++ err_message error
                ++ ". Please check selected boards.")
        \/ itemsError st' = Some ("Error loading items: " ++ err_message error ++ ".")).
Proof.
  intros Hsel Hcols Hcolumns Hpre Hbid.
  unfold Fetcher.fetchBoardData.
  assert ((length (selectedBoardIds st) =? 0)%nat = false) as ->.
  { rewrite Hsel, length_app. cbn. apply Nat.eqb_neq. lia. }
  unfold Fetcher.fetchBoardData_await. rewrite Hcolumns.
  set (nab := Fetcher.collectBoards (selectedBoardIds st) columnsData) in *.
  rewrite Hsel.
  rewrite (FetcherFacts.fetchItems_rejects monday_api _ nab pre bid post [] w1 earlier w2 error w3
             Hcols Hpre Hbid).
  eexists. split; [reflexivity|].
  cbn [Fetcher.fetchBoardData_settle].
  split; [|split; [reflexivity|]].
  - cbn. now rewrite FetcherFacts.fetchBoardData_catch_boardItems.
  - destruct (FetcherFacts.fetchBoardData_catch_reports error
                (setAllBoardsData nab (Fetcher.fetchBoardData_begin st)))
      as [[H _]|[H _]]; [left | right]; exact H.
Qed.

(** Boards [b1] and [b2] selected: [b1] is served, the item fetch of [b2]
    exhausts the retries of [retry] on the concurrency limit. *)
Lemma failed_item_fetch_witness :
  exists st',
    Fetcher.fetchBoardData FetcherSamples.api FetcherSamples.loaded 0%nat = (st', 8%nat)
    /\ boardItems st' = [FetcherSamples.shownItem]
    /\ isPolling st' = false
    /\ itemsError st' = Some "Error loading items: Concurrency limit exceeded.".
Proof.
  edestruct (failed_item_fetch_keeps_boardItems
               FetcherSamples.api FetcherSamples.loaded 0%nat ["b1"] "b2" [])
    as (st' & Hrun & Hitems & Hpoll & Herr).
  - reflexivity.
  - discriminate.
  - lazy. reflexivity.
  - lazy. reflexivity.
  - lazy. reflexivity.
  - exists st'. split; [exact Hrun|]. split; [exact Hitems|]. split; [exact Hpoll|].
    destruct Herr as [Herr|Herr]; [|exact Herr].
    exfalso. apply (f_equal fst) in Hrun. cbn [fst] in Hrun. subst st'.
    lazy in Herr. discriminate Herr.
Defined.

End FetcherClaims.

(** ** The polling timer *)

Module PollingFacts.
Import PollingSpec.

(** The guard reads the three loading flags and the selection, nothing
    else. *)
Lemma pollingGuard_true st :
  Fetcher.pollingGuard st = true <->
  isAppLoading st = false /\ isLoadingColumns st = false /\ isLoadingItems st = false
  /\ selectedBoardIds st <> [] /\ selectedColumnIds st <> [].
Proof.
  unfold Fetcher.pollingGuard. rewrite !andb_true_iff, !negb_true_iff, !Nat.ltb_lt.
  destruct (selectedBoardIds st), (selectedColumnIds st); cbn; intuition (try lia; try congruence).
Qed.

Lemma loading_tick_skipped s : loading s -> Fetcher.sysStep Fetcher.EvTick s = s.
Proof.
  intros (Hc & _ & _). cbn. unfold Fetcher.pollingGuard.
  now rewrite Hc, !andb_false_r.
Qed.

Lemma settle_flags o st :
  isLoadingColumns (Fetcher.fetchBoardData_settle o st) = isLoadingColumns st
  /\ isLoadingItems (Fetcher.fetchBoardData_settle o st) = isLoadingItems st.
Proof.
  destruct o; cbn; unfold Fetcher.fetchBoardData_catch;
    try destruct (Js.includes _ _); now split.
Qed.

Lemma removeFirst_background l rest :
  Fetcher.removeFirst Fetcher.Background l = Some rest ->
  In Fetcher.Foreground l -> In Fetcher.Foreground rest.
Proof.
  revert rest. induction l as [|x l IH]; intros rest H Hin; [discriminate|].
  destruct x; cbn in H.
  - destruct (Fetcher.removeFirst Fetcher.Background l) as [rest'|]; [|discriminate].
    inversion H; subst rest. destruct Hin as [_|Hin]; [now left|].
    right. now apply IH.
  - inversion H; subst rest. destruct Hin as [Hin|Hin]; [discriminate | exact Hin].
Qed.

Lemma loading_preserved ev s :
  backgroundEvent ev -> loading s -> loading (Fetcher.sysStep ev s).
Proof.
  intros Hev Hl. destruct ev as [| |who o]; try contradiction.
  - now rewrite loading_tick_skipped.
  - destruct who; [contradiction|]. cbn.
    destruct (Fetcher.removeFirst Fetcher.Background (Fetcher.inflight s)) as [rest|] eqn:Hr;
      [|exact Hl].
    destruct Hl as (Hc & Hi & Hin). unfold loading.
    cbn [Fetcher.app Fetcher.inflight].
    destruct (settle_flags o (Fetcher.app s)) as [-> ->].
    repeat split; try assumption. now apply (removeFirst_background _ _ Hr).
Qed.

Lemma settle_selection o st :
  isAppLoading (Fetcher.fetchBoardData_settle o st) = isAppLoading st
  /\ selectedBoardIds (Fetcher.fetchBoardData_settle o st) = selectedBoardIds st.
Proof.
  destruct o; cbn; unfold Fetcher.fetchBoardData_catch;
    try destruct (Js.includes _ _); now split.
Qed.

(** The start of a content load raises the flags and leaves the load in
    flight. *)
Lemma loadContent_loading s :
  isAppLoading (Fetcher.app s) = false ->
  selectedBoardIds (Fetcher.app s) <> [] ->
  loading (Fetcher.sysStep Fetcher.EvLoadContent s).
Proof.
  intros Happ Hsel. cbn. rewrite Happ.
  destruct (selectedBoardIds (Fetcher.app s)) as [|b bs] eqn:Hb; [congruence|].
  unfold Fetcher.startFetch. cbn. rewrite Hb. cbn.
  repeat split. apply in_or_app. right. now left.
Qed.

(** Until a content load completes, the flags stay up: a tick is skipped,
    a background completion leaves the flags alone, and a further content
    load raises them again. *)
Lemma contentLoading_preserved ev s :
  notLoadCompletion ev -> contentLoading s -> contentLoading (Fetcher.sysStep ev s).
Proof.
  intros Hev (Hl & Happ & Hsel). destruct ev as [| |who o].
  - rewrite loading_tick_skipped by exact Hl. exact (conj Hl (conj Happ Hsel)).
  - split; [now apply loadContent_loading|].
    cbn. rewrite Happ.
    destruct (selectedBoardIds (Fetcher.app s)) as [|b bs] eqn:Hb; [congruence|].
    unfold Fetcher.startFetch. cbn. rewrite Hb. cbn.
    split; [exact Happ | now rewrite Hb].
  - destruct who; [contradiction|].
    split; [now apply loading_preserved|]. cbn.
    destruct (Fetcher.removeFirst Fetcher.Background (Fetcher.inflight s)); [|now split].
    cbn [Fetcher.app]. destruct (settle_selection o (Fetcher.app s)) as [-> ->].
    now split.
Qed.

Lemma contentLoading_run evs :
  forall s, Forall notLoadCompletion evs -> contentLoading s ->
            contentLoading (Fetcher.sysRun evs s).
Proof.
  induction evs as [|ev evs IH]; intros s Hevs Hl; [exact Hl|].
  inversion Hevs; subst. cbn. apply IH; [assumption|].
  now apply contentLoading_preserved.
Qed.

Lemma loadContent_contentLoading s :
  isAppLoading (Fetcher.app s) = false ->
  selectedBoardIds (Fetcher.app s) <> [] ->
  contentLoading (Fetcher.sysStep Fetcher.EvLoadContent s).
Proof.
  intros Happ Hsel. split; [now apply loadContent_loading|].
  cbn. rewrite Happ.
  destruct (selectedBoardIds (Fetcher.app s)) as [|b bs] eqn:Hb; [congruence|].
  unfold Fetcher.startFetch. cbn. rewrite Hb. cbn.
  split; [exact Happ | now rewrite Hb].
Qed.

End PollingFacts.

Module PollingClaims.
Import PollingSpec PollingFacts.

(** C5, as amended.  On a component whose settings are loaded and which
    has boards selected, every tick of the polling timer that comes after
    the start of a content load (the selection-triggered fetch) and before
    the next completion of a content load is skipped: the guard sees
    [isLoadingColumns] and [isLoadingItems] raised, whatever ticks occur,
    background refreshes complete and further content loads start
    meanwhile.  Only the completion of a content load lowers the flags,
    and the first one to complete lowers them for all. *)
Theorem tick_skipped_during_content_load
    (s0 : Fetcher.Sys) (evs : list Fetcher.SysEvent) :
  isAppLoading (Fetcher.app s0) = false ->
  selectedBoardIds (Fetcher.app s0) <> [] ->
  Forall notLoadCompletion evs ->
  let s := Fetcher.sysRun evs (Fetcher.sysStep Fetcher.EvLoadContent s0) in
  In Fetcher.Foreground (Fetcher.inflight s)
  /\ Fetcher.pollingGuard (Fetcher.app s) = false
  /\ Fetcher.sysStep Fetcher.EvTick s = s.
Proof.
  intros Happ Hsel Hevs s.
  assert (contentLoading s) as (Hl & _ & _).
  { apply contentLoading_run; [exact Hevs|]. now apply loadContent_contentLoading. }
  split; [apply Hl|]. split; [|now apply loading_tick_skipped].
  destruct Hl as (Hc & _ & _). unfold Fetcher.pollingGuard.
  now rewrite Hc, !andb_false_r.
Qed.

(** A content load starts while a background refresh is in flight; before
    any content load completes there are a tick, the completion of that
    refresh, the start of a second content load and another tick. *)
Lemma tick_skipped_witness :
  isAppLoading (Fetcher.app PollingSamples.polling) = false
  /\ selectedBoardIds (Fetcher.app PollingSamples.polling) <> []
  /\ Forall notLoadCompletion PollingSamples.beforeCompletion
  /\ In Fetcher.Foreground
        (Fetcher.inflight
           (Fetcher.sysRun PollingSamples.beforeCompletion
              (Fetcher.sysStep Fetcher.EvLoadContent PollingSamples.polling)))
  /\ Fetcher.pollingGuard
        (Fetcher.app
           (Fetcher.sysRun PollingSamples.beforeCompletion
              (Fetcher.sysStep Fetcher.EvLoadContent PollingSamples.polling))) = false
  /\ Fetcher.sysStep Fetcher.EvTick
        (Fetcher.sysRun PollingSamples.beforeCompletion
           (Fetcher.sysStep Fetcher.EvLoadContent PollingSamples.polling))
      = Fetcher.sysRun PollingSamples.beforeCompletion
          (Fetcher.sysStep Fetcher.EvLoadContent PollingSamples.polling).
Proof.
  assert (H1 : isAppLoading (Fetcher.app PollingSamples.polling) = false) by reflexivity.
  assert (H2 : selectedBoardIds (Fetcher.app PollingSamples.polling) <> []) by discriminate.
  assert (H3 : Forall notLoadCompletion PollingSamples.beforeCompletion).
  { repeat constructor. }
  split; [exact H1|]. split; [exact H2|]. split; [exact H3|].
  exact (tick_skipped_during_content_load PollingSamples.polling _ H1 H2 H3).
Defined.

(** C5 as stated fails.  A refresh can outlast the 20 s interval ([retry]
    alone sleeps up to 2 + 4 + 8 + 16 + 32 s), and a tick that finds only a
    background refresh in flight starts a second one: the two overlap.  And
    when two content loads overlap, the completion of the first lowers the
    flags, so a tick starts a background refresh while the second content
    load is still in flight. *)
Lemma overlapping_refreshes :
  Fetcher.inflight (Fetcher.sysStep Fetcher.EvTick PollingSamples.idle)
  = [Fetcher.Background]
  /\ isPolling (Fetcher.app (Fetcher.sysStep Fetcher.EvTick PollingSamples.idle)) = true
  /\ Fetcher.inflight
       (Fetcher.sysStep Fetcher.EvTick (Fetcher.sysStep Fetcher.EvTick PollingSamples.idle))
     = [Fetcher.Background; Fetcher.Background]
  /\ Fetcher.inflight (Fetcher.sysRun PollingSamples.twoLoads PollingSamples.idle)
     = [Fetcher.Foreground]
  /\ Fetcher.inflight
       (Fetcher.sysStep Fetcher.EvTick
          (Fetcher.sysRun PollingSamples.twoLoads PollingSamples.idle))
     = [Fetcher.Foreground; Fetcher.Background].
Proof. repeat split. Qed.

End PollingClaims.

(** ** The unified column list *)

Module ColumnsFacts.
Import ColumnsSpec.

Lemma has_get {V} (m : JsMap.t V) k : JsMap.has m k = false <-> get m k = None.
Proof.
  unfold JsMap.has, get. induction m as [|[k' v] m IH]; cbn; [tauto|].
  destruct (String.eqb k' k); cbn; [split; discriminate | exact IH].
Qed.

(** Setting a fresh key appends the entry. *)
Lemma set_fresh {V} (m : JsMap.t V) k v :
  JsMap.has m k = false -> JsMap.set m k v = (m ++ [(k, v)])%list.
Proof.
  unfold JsMap.has. induction m as [|[k' v'] m IH]; cbn; [reflexivity|].
  destruct (String.eqb k' k); cbn; [discriminate|]. intros H. now rewrite IH.
Qed.

Lemma get_app {V} (m1 m2 : JsMap.t V) k :
  get (m1 ++ m2)%list k = match get m1 k with Some v => Some v | None => get m2 k end.
Proof.
  unfold get. induction m1 as [|[k' v] m1 IH]; cbn; [reflexivity|].
  destruct (String.eqb k' k); cbn; [reflexivity | exact IH].
Qed.

Lemma addColumn_get columnsMap col k :
  get (addColumn columnsMap col) k
  = match get columnsMap k with
    | Some c => Some c
    | None => if String.eqb (col_id col) k then Some col else None
    end.
Proof.
  unfold addColumn. destruct (JsMap.has columnsMap (col_id col)) eqn:Hhas; cbn [negb].
  - destruct (get columnsMap k) as [c|] eqn:Hk; [reflexivity|].
    destruct (String.eqb (col_id col) k) eqn:Heq; [|reflexivity].
    apply String.eqb_eq in Heq. subst k.
    apply has_get in Hk. congruence.
  - rewrite set_fresh by exact Hhas. rewrite get_app.
    destruct (get columnsMap k); [reflexivity|].
    unfold get. cbn. now destruct (String.eqb (col_id col) k).
Qed.

(** The map after the columns [cols] have been offered to it, in order. *)
Lemma fold_addColumn_get cols :
  forall columnsMap k,
    get (fold_left addColumn cols columnsMap) k
    = match get columnsMap k with
      | Some c => Some c
      | None => Js.find (fun c => String.eqb (col_id c) k) cols
      end.
Proof.
  induction cols as [|col cols IH]; intros columnsMap k; cbn [fold_left].
  - now destruct (get columnsMap k).
  - rewrite IH, addColumn_get. destruct (get columnsMap k); [reflexivity|].
    cbn. now destruct (String.eqb (col_id col) k).
Qed.

Lemma has_false_notin {V} (m : JsMap.t V) k :
  JsMap.has m k = false -> ~ In k (map fst m).
Proof.
  unfold JsMap.has. induction m as [|[k' v] m IH]; cbn; [tauto|].
  destruct (String.eqb k' k) eqn:Heq; cbn; [discriminate|].
  intros H [Hk|Hk]; [|now apply IH].
  subst k'. now rewrite String.eqb_refl in Heq.
Qed.

Lemma addColumn_wellKeyed m col : wellKeyed m -> wellKeyed (addColumn m col).
Proof.
  intros [Hnd Hk]. unfold addColumn.
  destruct (JsMap.has m (col_id col)) eqn:Hhas; cbn [negb]; [now split|].
  rewrite set_fresh by exact Hhas. split.
  - rewrite map_app. cbn. apply NoDup_app. split; [exact Hnd|]. split.
    + intros x Hx Hin. apply list_elem_of_In in Hx, Hin.
      destruct Hin as [<-|[]]. now apply (has_false_notin m (col_id col)).
    + apply NoDup_singleton.
  - apply Forall_app. split; [exact Hk|]. now repeat constructor.
Qed.

Lemma fold_addColumn_wellKeyed cols :
  forall m, wellKeyed m -> wellKeyed (fold_left addColumn cols m).
Proof.
  induction cols as [|col cols IH]; intros m Hm; [exact Hm|].
  cbn. apply IH. now apply addColumn_wellKeyed.
Qed.

(** In a well-keyed map, the values are what [get] finds. *)
Lemma wellKeyed_values m c :
  wellKeyed m -> (In c (JsMap.values m) <-> get m (col_id c) = Some c).
Proof.
  unfold JsMap.values, get. induction m as [|[k v] m IH]; intros [Hnd Hk]; cbn.
  - split; [tauto | discriminate].
  - inversion Hnd as [|? ? Hnotin Hnd']; subst.
    inversion Hk as [|? ? Hkv Hk']; subst. cbn in Hkv. subst k.
    destruct (String.eqb (col_id v) (col_id c)) eqn:Heq; cbn.
    + apply String.eqb_eq in Heq. split.
      * intros [->|Hin]; [reflexivity|]. exfalso.
        apply Hnotin. apply list_elem_of_In. apply in_map_iff in Hin as ([k' v'] & Hv' & Hin).
        cbn in Hv'. subst v'. apply in_map_iff. exists (k', c). split; [|exact Hin].
        cbn. rewrite Heq.
        rewrite Forall_forall in Hk'. apply list_elem_of_In in Hin.
        now apply (Hk' (k', c)).
      * intros H. inversion H. now left.
    + rewrite <- (IH (conj Hnd' Hk')). split.
      * intros [->|Hin]; [|exact Hin]. now rewrite String.eqb_refl in Heq.
      * intros Hin. now right.
Qed.

(** The nested [forEach] is one pass over the columns in iteration order. *)
Lemma nested_fold sel (abd : gmap string BoardInfo) :
  forall m,
    fold_left
      (fun columnsMap bid =>
         match abd !! bid with
         | Some info =>
             fold_left
               (fun columnsMap col =>
                  if negb (JsMap.has columnsMap (col_id col))
                  then JsMap.set columnsMap (col_id col) col
                  else columnsMap)
               (info_columns info) columnsMap
         | None => columnsMap
         end) sel m
    = fold_left addColumn (Columns.columnsInOrder sel abd) m.
Proof.
  induction sel as [|bid sel IH]; intros m; [reflexivity|].
  unfold Columns.columnsInOrder. cbn [fold_left map concat].
  rewrite fold_left_app, IH. now destruct (abd !! bid).
Qed.

End ColumnsFacts.

Module ColumnsClaims.

(** C3, as amended.  When two selected boards contribute columns with the
    same id, the unified list keeps the first one seen in board iteration
    order: a column is in the list exactly when it is the first column with
    its id among the columns of the selected boards, taken in selection
    order; and no id occurs twice in the list. *)
Theorem first_seen_column_wins
    (selectedBoardIds : list string) (allBoardsData : gmap string BoardInfo) (c : Column) :
  (In c (Columns.allAvailableColumnsForSelectedBoards selectedBoardIds allBoardsData)
   <-> Js.find (fun c' => String.eqb (col_id c') (col_id c))
               (Columns.columnsInOrder selectedBoardIds allBoardsData) = Some c)
  /\ NoDup (map col_id
              (Columns.allAvailableColumnsForSelectedBoards selectedBoardIds allBoardsData)).
Proof.
  unfold Columns.allAvailableColumnsForSelectedBoards.
  rewrite ColumnsFacts.nested_fold.
  assert (ColumnsSpec.wellKeyed
            (fold_left ColumnsSpec.addColumn
               (Columns.columnsInOrder selectedBoardIds allBoardsData) JsMap.empty)) as Hwk.
  { apply ColumnsFacts.fold_addColumn_wellKeyed. split; constructor. }
  split.
  - rewrite (ColumnsFacts.wellKeyed_values _ c Hwk).
    now rewrite ColumnsFacts.fold_addColumn_get.
  - destruct Hwk as [Hnd Hk]. unfold JsMap.values.
    erewrite map_map, map_ext_in; [exact Hnd|].
    intros kv Hin. rewrite Forall_forall in Hk.
    symmetry. apply Hk. now apply list_elem_of_In.
Qed.

(** C3 as stated fails: boards [b1] and [b2] both have a column [status];
    the unified list holds the one of [b1], seen first, not the one of [b2],
    seen last. *)
Lemma last_seen_column_dropped :
  Columns.columnsInOrder ["b1"; "b2"] ColumnsSamples.twoBoards
  = [ColumnsSamples.stageOfB1; ColumnsSamples.stateOfB2; ColumnsSamples.ownerOfB2]
  /\ Columns.allAvailableColumnsForSelectedBoards ["b1"; "b2"] ColumnsSamples.twoBoards
     = [ColumnsSamples.stageOfB1; ColumnsSamples.ownerOfB2]
  /\ ~ In ColumnsSamples.stateOfB2
          (Columns.allAvailableColumnsForSelectedBoards ["b1"; "b2"] ColumnsSamples.twoBoards).
Proof.
  assert (Columns.allAvailableColumnsForSelectedBoards ["b1"; "b2"] ColumnsSamples.twoBoards
          = [ColumnsSamples.stageOfB1; ColumnsSamples.ownerOfB2]) as Hall
      by (vm_compute; reflexivity).
  split; [vm_compute; reflexivity|]. split; [exact Hall|].
  rewrite Hall. intros [H|[H|[]]]; discriminate H.
Qed.

End ColumnsClaims.

(** ** The settings store *)

Module SettingsFacts.
Import Settings SettingsSpec.

Ltac settled := do 2 eexists; split; [reflexivity | split; reflexivity].

Lemma asStringList_strings (ids : list string) :
  JsonOps.asStringList (JArr (map JStr ids)) = Some ids.
Proof.
  cbn. induction ids as [|id ids IH]; [reflexivity|]. cbn. now rewrite IH.
Qed.

Section WithJSON.
Variable JSON_parse : string -> option Json.
Variable JSON_stringify : Json -> string.

(** Reading back a document written by the auto-save. *)
Lemma applyParsedSettings_saved (s : string) (saved st0 : AppState) (h : Host) :
  JSON_parse s = Some (settingsToSave saved) ->
  applyParsedSettings JSON_parse s (st0, h)
  = Some (Resolved tt,
          (setIsSidebarOpen (isSidebarOpen saved)
             (setSelectedColumnIds (selectedColumnIds saved)
                (setSelectedBoardIds (selectedBoardIds saved) st0)), h)).
Proof.
  intros Hparse. unfold applyParsedSettings, bind, parse. rewrite Hparse.
  unfold ret at 1. cbn -[JsonOps.asStringList].
  unfold setIds. rewrite !asStringList_strings. reflexivity.
Qed.

(** A string that does not parse makes the inner [try] throw. *)
Lemma applyParsedSettings_malformed (s : string) (st0 : AppState) (h : Host) :
  JSON_parse s = None ->
  applyParsedSettings JSON_parse s (st0, h) = Some (Rejected SyntaxError, (st0, h)).
Proof.
  intros Hparse. unfold applyParsedSettings, bind, parse. now rewrite Hparse.
Qed.

Lemma string_eqb_empty (s : string) : s <> "" -> String.eqb s "" = false.
Proof. intros H. now apply String.eqb_neq. Qed.

(** [loadSettings] on a stored string that does not parse, for every
    behaviour of the host. *)
Lemma loadSettings_malformed (s : string) (st0 : AppState) (h : Host) :
  store h !! "appSettings" = Some (SVString s) ->
  JSON_parse s = None ->
  exists st' h',
    loadSettings JSON_parse (st0, h) = Some (Resolved tt, (st', h'))
    /\ selection st' = selection st0
    /\ isAppLoading st' = false.
Proof.
  intros Hstore Hparse.
  destruct h as [sto gf sf ra rf ta ts]. cbn [store] in Hstore.
  unfold loadSettings, getItem, clearFaultyData, removeItem,
    try_finally, try_catch, bind, getHost, setHost, setState, ret, throw.
  cbn [fst snd getItem_fault store removeItem_available removeItem_fault].
  destruct gf as [e|].
  - destruct ra; [destruct rf|]; settled.
  - rewrite Hstore. destruct (String.eqb s "") eqn:Hs; [settled|].
    rewrite applyParsedSettings_malformed by exact Hparse.
    cbn [fst snd removeItem_available removeItem_fault store].
    destruct ra; [|settled].
    destruct rf as [e|]; cbn [fst snd removeItem_available removeItem_fault store]; settled.
Qed.

(** The outer [catch] block swallows whatever it is given. *)
Lemma outer_catch_resolves (err : JsError) (s0 : St) :
  exists s1,
    (setState (setAppError (Some ("Error loading settings: " ++ err_message err))) ;;;
     let* h := getHost in
     if removeItem_available h
     then try_catch (removeItem "appSettings") (fun clearError => ret tt)
     else ret tt)%js s0
    = Some (Resolved tt, s1).
Proof.
  destruct s0 as [st [sto gf sf ra rf ta ts]].
  unfold removeItem, try_catch, bind, getHost, setHost, setState, ret, throw.
  cbn [fst snd removeItem_available removeItem_fault store].
  destruct ra; [destruct rf|]; eexists; reflexivity.
Qed.

(** [loadSettings] never rejects: whatever the host stores or does, the
    promise it returns resolves. *)
Lemma loadSettings_never_rejects (s0 : St) (e : JsError) (s1 : St) :
  loadSettings JSON_parse s0 <> Some (Rejected e, s1).
Proof.
  unfold loadSettings, try_finally.
  match goal with
  | |- context [try_catch ?body ?handler s0] =>
      assert (forall r s', try_catch body handler s0 = Some (r, s') -> r = Resolved tt) as Hcatch
  end.
  { intros r s'. unfold try_catch at 1.
    match goal with |- context [match ?m with _ => _ end] => destruct m as [[[[] |err] s2]|] end.
    - intros H. now inversion H.
    - destruct (outer_catch_resolves err s2) as (s3 & Hs3).
      intros H. rewrite Hs3 in H. now inversion H.
    - discriminate. }
  match goal with
  | |- context [try_catch ?body ?handler s0] =>
      destruct (try_catch body handler s0) as [[r s']|] eqn:Hrun
  end; [|discriminate].
  rewrite (Hcatch r s' eq_refl). unfold setState. discriminate.
Qed.

(** [loadSettings] on a document written by the auto-save. *)
Lemma loadSettings_saved (s : string) (saved st0 : AppState) (h : Host) :
  getItem_fault h = None ->
  store h !! "appSettings" = Some (SVString s) ->
  s <> "" ->
  JSON_parse s = Some (settingsToSave saved) ->
  loadSettings JSON_parse (st0, h)
  = Some (Resolved tt,
          (setIsAppLoading false
             (setIsSidebarOpen (isSidebarOpen saved)
                (setSelectedColumnIds (selectedColumnIds saved)
                   (setSelectedBoardIds (selectedBoardIds saved)
                      (setAppError None (setIsAppLoading true st0))))), h)).
Proof.
  intros Hget Hstore Hne Hparse.
  unfold loadSettings, getItem, try_finally, try_catch, bind, getHost, setState, ret, throw.
  cbn [fst snd]. rewrite Hget, Hstore, (string_eqb_empty s Hne).
  rewrite (applyParsedSettings_saved s saved) by exact Hparse.
  reflexivity.
Qed.

(** [loadSettings] on a non-empty stored string that does not parse, on a
    host whose [getItem] and [removeItem] work. *)
Lemma loadSettings_clears (s : string) (st0 : AppState) (h : Host) :
  getItem_fault h = None ->
  removeItem_available h = true ->
  removeItem_fault h = None ->
  store h !! "appSettings" = Some (SVString s) ->
  s <> "" ->
  JSON_parse s = None ->
  loadSettings JSON_parse (st0, h)
  = Some (Resolved tt,
          (setIsAppLoading false (setAppError None (setIsAppLoading true st0)),
           with_store (delete "appSettings" (store h)) h)).
Proof.
  intros Hget Hav Hrm Hstore Hne Hparse.
  unfold loadSettings, getItem, clearFaultyData, removeItem,
    try_finally, try_catch, bind, getHost, setHost, setState, ret, throw.
  cbn [fst snd]. rewrite Hget, Hstore, (string_eqb_empty s Hne).
  rewrite applyParsedSettings_malformed by exact Hparse.
  cbn [fst snd]. rewrite Hav. cbn [fst snd]. rewrite Hrm. reflexivity.
Qed.

(** The auto-save after the initial load, on a host whose [setItem] works. *)
Lemma saveSettingsAutomatically_stores (st : AppState) (h : Host) :
  isAppLoading st = false ->
  setItem_fault h = None ->
  saveSettingsAutomatically JSON_stringify (st, h)
  = Some (Resolved tt,
          (st, with_store (<["appSettings" := SVString (JSON_stringify (settingsToSave st))]>
                             (store h)) h)).
Proof.
  intros Hloaded Hset.
  unfold saveSettingsAutomatically, setItem, try_catch, bind, getState, getHost, setHost,
    ret, throw.
  cbn [fst snd]. rewrite Hloaded. cbn [fst snd]. now rewrite Hset.
Qed.

End WithJSON.
End SettingsFacts.

Module SettingsClaims.
Import Settings SettingsSpec SettingsFacts.

(** C8.  With a [JSON] whose [parse] reads back what [stringify] wrote for
    the settings object (and rejects the empty string), on a host whose
    [setItem] and [getItem] succeed: the auto-save of a loaded component
    [st] followed by [loadSettings] on any component [st0] resolves and
    leaves in the component the selected boards, selected columns and panel
    visibility of [st].  And when the stored value is a string [s] that is
    not JSON, [loadSettings] resolves, without throwing, and leaves the
    selection of [st0] -- the empty defaults on a fresh mount -- in place. *)
Theorem settings_round_trip
    (JSON_parse : string -> option Json) (JSON_stringify : Json -> string)
    (st st0 : AppState) (h : Host) (s : string) (hx : Host) :
  JSON_parse "" = None ->
  JSON_parse (JSON_stringify (settingsToSave st)) = Some (settingsToSave st) ->
  isAppLoading st = false ->
  setItem_fault h = None ->
  getItem_fault h = None ->
  store hx !! "appSettings" = Some (SVString s) ->
  JSON_parse s = None ->
  (exists h1 st2,
      saveSettingsAutomatically JSON_stringify (st, h) = Some (Resolved tt, (st, h1))
      /\ loadSettings JSON_parse (st0, h1) = Some (Resolved tt, (st2, h1))
      /\ selectedBoardIds st2 = selectedBoardIds st
      /\ selectedColumnIds st2 = selectedColumnIds st
      /\ isSidebarOpen st2 = isSidebarOpen st)
  /\ (exists st3 h3,
        loadSettings JSON_parse (st0, hx) = Some (Resolved tt, (st3, h3))
        /\ selectedBoardIds st3 = selectedBoardIds st0
        /\ selectedColumnIds st3 = selectedColumnIds st0
        /\ isSidebarOpen st3 = isSidebarOpen st0).
Proof.
  intros Hempty Hround Hloaded Hset Hget Hstored Hbad. split.
  - do 2 eexists. split; [apply saveSettingsAutomatically_stores; assumption|].
    split.
    + apply (loadSettings_saved JSON_parse (JSON_stringify (settingsToSave st))).
      * exact Hget.
      * cbn [store with_store]. apply lookup_insert_eq.
      * intros Heq. rewrite Heq in Hround. congruence.
      * exact Hround.
    + repeat split; reflexivity.
  - destruct (loadSettings_malformed JSON_parse s st0 hx Hstored Hbad)
      as (st3 & h3 & Hrun & Hsel & _).
    exists st3, h3. split; [exact Hrun|].
    unfold selection in Hsel. inversion Hsel. now repeat split.
Qed.

(** C9, as amended.  For every non-empty stored string that is not JSON, on
    a host whose [getItem] succeeds and whose [removeItem] exists and
    succeeds, [loadSettings] resolves, leaves the selection as it was (the
    settings are treated as absent), deletes the entry from storage and
    raises no [appError]. *)
Theorem corrupted_settings_cleared
    (JSON_parse : string -> option Json) (s : string) (st0 : AppState) (h : Host) :
  store h !! "appSettings" = Some (SVString s) ->
  s <> "" ->
  JSON_parse s = None ->
  getItem_fault h = None ->
  removeItem_available h = true ->
  removeItem_fault h = None ->
  exists st' h',
    loadSettings JSON_parse (st0, h) = Some (Resolved tt, (st', h'))
    /\ selectedBoardIds st' = selectedBoardIds st0
    /\ selectedColumnIds st' = selectedColumnIds st0
    /\ isSidebarOpen st' = isSidebarOpen st0
    /\ store h' !! "appSettings" = None
    /\ appError st' = None
    /\ isAppLoading st' = false.
Proof.
  intros Hstore Hne Hbad Hget Hav Hrm.
  do 2 eexists. split; [apply (loadSettings_clears JSON_parse s); assumption|].
  repeat split. cbn [store with_store]. apply lookup_delete_eq.
Qed.

(** Saving two boards, two columns and an open panel and loading them on a
    fresh mount; and a fresh mount on a host holding the text [not json]. *)
Lemma settings_round_trip_witness :
  MiniJSON.parse "" = None
  /\ MiniJSON.parse (MiniJSON.stringify (settingsToSave SettingsSamples.chosen))
     = Some (settingsToSave SettingsSamples.chosen)
  /\ store (SettingsSamples.holding "not json") !! "appSettings" = Some (SVString "not json")
  /\ MiniJSON.parse "not json" = None
  /\ (exists h1 st2,
        saveSettingsAutomatically MiniJSON.stringify
          (SettingsSamples.chosen, SettingsSamples.reliableHost ∅)
        = Some (Resolved tt, (SettingsSamples.chosen, h1))
        /\ loadSettings MiniJSON.parse (initialAppState, h1) = Some (Resolved tt, (st2, h1))
        /\ selectedBoardIds st2 = ["b1"; "b2"]
        /\ selectedColumnIds st2 = ["status"; "owner"]
        /\ isSidebarOpen st2 = true)
  /\ (exists st3 h3,
        loadSettings MiniJSON.parse (initialAppState, SettingsSamples.holding "not json")
        = Some (Resolved tt, (st3, h3))
        /\ selectedBoardIds st3 = []
        /\ selectedColumnIds st3 = []
        /\ isSidebarOpen st3 = false).
Proof.
  assert (H1 : MiniJSON.parse "" = None) by reflexivity.
  assert (H2 : MiniJSON.parse (MiniJSON.stringify (settingsToSave SettingsSamples.chosen))
               = Some (settingsToSave SettingsSamples.chosen)) by (vm_compute; reflexivity).
  assert (H3 : store (SettingsSamples.holding "not json") !! "appSettings"
               = Some (SVString "not json")) by (vm_compute; reflexivity).
  assert (H4 : MiniJSON.parse "not json" = None) by (vm_compute; reflexivity).
  split; [exact H1|]. split; [exact H2|]. split; [exact H3|]. split; [exact H4|].
  exact (settings_round_trip MiniJSON.parse MiniJSON.stringify
           SettingsSamples.chosen initialAppState (SettingsSamples.reliableHost ∅)
           "not json" (SettingsSamples.holding "not json")
           H1 H2 eq_refl eq_refl eq_refl H3 H4).
Defined.

(** A fresh mount on a host holding a truncated document. *)
Lemma corrupted_settings_witness :
  store (SettingsSamples.holding "{oops") !! "appSettings" = Some (SVString "{oops")
  /\ "{oops" <> ""
  /\ MiniJSON.parse "{oops" = None
  /\ exists st' h',
      loadSettings MiniJSON.parse (initialAppState, SettingsSamples.holding "{oops")
      = Some (Resolved tt, (st', h'))
      /\ selectedBoardIds st' = []
      /\ selectedColumnIds st' = []
      /\ isSidebarOpen st' = false
      /\ store h' !! "appSettings" = None
      /\ appError st' = None
      /\ isAppLoading st' = false.
Proof.
  assert (H1 : store (SettingsSamples.holding "{oops") !! "appSettings"
               = Some (SVString "{oops")) by (vm_compute; reflexivity).
  assert (H2 : "{oops" <> "") by discriminate.
  assert (H3 : MiniJSON.parse "{oops" = None) by (vm_compute; reflexivity).
  split; [exact H1|]. split; [exact H2|]. split; [exact H3|].
  exact (corrupted_settings_cleared MiniJSON.parse "{oops" initialAppState
           (SettingsSamples.holding "{oops") H1 H2 H3 eq_refl eq_refl eq_refl).
Defined.

(** C9 as stated fails.  The empty string is not JSON, yet [loadSettings]
    takes it for an absent value and leaves the entry in storage.  A
    truncated document stays in storage when the host has no [removeItem];
    and when [removeItem] rejects, it stays and the rejection raises
    [appError]. *)
Lemma corrupted_entry_kept :
  MiniJSON.parse "" = None
  /\ (exists st' h',
        loadSettings MiniJSON.parse (initialAppState, SettingsSamples.holding "")
        = Some (Resolved tt, (st', h'))
        /\ store h' !! "appSettings" = Some (SVString ""))
  /\ MiniJSON.parse "{oops" = None
  /\ (exists st' h',
        loadSettings MiniJSON.parse
          (initialAppState, SettingsSamples.holdingWithoutRemove "{oops")
        = Some (Resolved tt, (st', h'))
        /\ store h' !! "appSettings" = Some (SVString "{oops"))
  /\ (exists st' h',
        loadSettings MiniJSON.parse
          (initialAppState, SettingsSamples.holdingRemoveRejects "{oops")
        = Some (Resolved tt, (st', h'))
        /\ store h' !! "appSettings" = Some (SVString "{oops")
        /\ appError st' = Some "Error loading settings: storage unavailable").
Proof.
  split; [reflexivity|]. split; [|split; [vm_compute; reflexivity|split]].
  - exists (setIsAppLoading false (setAppError None (setIsAppLoading true initialAppState))),
           (SettingsSamples.holding "").
    split; vm_compute; reflexivity.
  - exists (setIsAppLoading false (setAppError None (setIsAppLoading true initialAppState))),
           (SettingsSamples.holdingWithoutRemove "{oops").
    split; vm_compute; reflexivity.
  - exists (setIsAppLoading false
              (setAppError (Some "Error loading settings: storage unavailable")
                 (setAppError None (setIsAppLoading true initialAppState)))),
           (SettingsSamples.holdingRemoveRejects "{oops").
    split; [|split]; vm_compute; reflexivity.
Qed.

End SettingsClaims.

(** ** The view reconciler *)

Module ViewFacts.

Lemma arr_includes_In (l : list string) (x : string) :
  Js.arr_includes l x = true <-> In x l.
Proof.
  unfold Js.arr_includes. rewrite existsb_exists. split.
  - intros (y & Hin & Heq). apply String.eqb_eq in Heq. now subst.
  - intros Hin. exists x. split; [exact Hin | apply String.eqb_refl].
Qed.

Lemma forallb_Permutation {A} (f : A -> bool) (l l' : list A) :
  Permutation l l' -> forallb f l = forallb f l'.
Proof.
  induction 1 as [|x l l' _ IH|x y l|l l' l'' _ IH1 _ IH2]; cbn.
  - reflexivity.
  - now rewrite IH.
  - now destruct (f x), (f y).
  - now rewrite IH1.
Qed.

(** The four texts the status filter reads as "No status". *)
Lemma normalizedStatusText_blank (cv : ColumnValue) (t : string) :
  In t [""; "-"; "undefined"; "null"] ->
  cv_text cv = Some t ->
  View.normalizedStatusText (Some cv) = "No status".
Proof.
  intros Hin Ht. unfold View.normalizedStatusText, View.stringOfText. rewrite Ht.
  destruct Hin as [<-|[<-|[<-|[<-|[]]]]]; reflexivity.
Qed.

(** The label of a text, blank or not, after trimming. *)
Lemma normalizedStatusText_trimmed_blank (cv : ColumnValue) (t : string) :
  cv_text cv = Some t ->
  In (Js.trim t) [""; "-"; "undefined"; "null"] ->
  View.normalizedStatusText (Some cv) = "No status".
Proof.
  intros Ht Hin. unfold View.normalizedStatusText, View.stringOfText. rewrite Ht.
  change (default "null" (Some t)) with t. destruct Hin as [<-|[<-|[<-|[<-|[]]]]]; reflexivity.
Qed.

Lemma normalizedStatusText_label (cv : ColumnValue) (t : string) :
  cv_text cv = Some t ->
  ~ In (Js.trim t) [""; "-"; "undefined"; "null"] ->
  View.normalizedStatusText (Some cv) = Js.trim t.
Proof.
  intros Ht Hnot. unfold View.normalizedStatusText, View.stringOfText. rewrite Ht.
  change (default "null" (Some t)) with t.
  destruct (String.eqb (Js.trim t) "-") eqn:H1;
    [apply String.eqb_eq in H1; exfalso; apply Hnot; rewrite H1; cbn; tauto|].
  destruct (String.eqb (Js.trim t) "undefined") eqn:H2;
    [apply String.eqb_eq in H2; exfalso; apply Hnot; rewrite H2; cbn; tauto|].
  destruct (String.eqb (Js.trim t) "null") eqn:H3;
    [apply String.eqb_eq in H3; exfalso; apply Hnot; rewrite H3; cbn; tauto|].
  destruct (String.eqb (Js.trim t) "") eqn:H4;
    [apply String.eqb_eq in H4; exfalso; apply Hnot; rewrite H4; cbn; tauto|].
  reflexivity.
Qed.

Lemma normalizedStatusText_null (cv : ColumnValue) :
  cv_text cv = None -> View.normalizedStatusText (Some cv) = "No status".
Proof.
  intros Ht. unfold View.normalizedStatusText, View.stringOfText. now rewrite Ht.
Qed.

(** In [columnsForTable] the two virtual ids are held by the virtual
    columns, whose types are [item_name] and [board_link]: a column of type
    [date] is never sorted through the name branches of the comparator. *)
Lemma columnsForTable_virtual_not_date columnIds allBoardColumns sortColumnId columnMeta :
  sortColumnId = "item_name_column" \/ sortColumnId = "board_name_column" ->
  Js.find (fun col => String.eqb (View.meta_id col) sortColumnId)
          (View.columnsForTable columnIds allBoardColumns) = Some columnMeta ->
  View.meta_type columnMeta <> "date".
Proof.
  intros Hvirtual. unfold View.columnsForTable, Js.find.
  induction columnIds as [|colId columnIds IH]; [discriminate|].
  cbn [omap list_omap].
  destruct (String.eqb "item_name_column" colId) eqn:Hitem.
  { cbn [List.find View.virtualColumns View.meta_id]. rewrite Hitem.
    cbn [List.find View.meta_id].
    destruct (String.eqb "item_name_column" sortColumnId); [|exact IH].
    intros H. inversion H. discriminate. }
  destruct (String.eqb "board_name_column" colId) eqn:Hboard.
  { cbn [List.find View.virtualColumns View.meta_id]. rewrite Hitem, Hboard.
    cbn [List.find View.meta_id].
    destruct (String.eqb "board_name_column" sortColumnId); [|exact IH].
    intros H. inversion H. discriminate. }
  cbn [List.find View.virtualColumns View.meta_id]. rewrite Hitem, Hboard.
  destruct (List.find (fun col => String.eqb (col_id col) colId) allBoardColumns)
    as [col|] eqn:Hcol; cbn [option_map]; [|exact IH].
  cbn [List.find View.meta_id].
  apply List.find_some in Hcol as [_ Hid]. apply String.eqb_eq in Hid.
  destruct (String.eqb (col_id col) sortColumnId) eqn:Hsort; [|exact IH].
  apply String.eqb_eq in Hsort. exfalso.
  rewrite Hid in Hsort. subst colId.
  rewrite Hsort in Hitem, Hboard.
  destruct Hvirtual as [-> | ->];
    [rewrite String.eqb_refl in Hitem | rewrite String.eqb_refl in Hboard]; discriminate.
Qed.

Section WithBuiltins.
Variable JSON_parse : string -> option Json.
Variable Date_getTime : string -> option Z.
Variable Array_sort : (Item -> Item -> Z) -> list Item -> list Item.
Variable compareOther : string -> View.ColumnMeta -> Item -> Item -> option Z.

(** An entry with no selected value lets every item through. *)
Lemma passesFilter_empty cft item columnId :
  View.passesFilter JSON_parse cft item (columnId, []) = true.
Proof. cbn. now destruct (String.eqb columnId "current_user_filter"). Qed.

(** Removing an entry with no selected value changes no verdict. *)
Lemma passesAllFilters_delete cft (filters : gmap string (list string)) columnId item :
  filters !! columnId = Some [] ->
  View.passesAllFilters JSON_parse cft (delete columnId filters) item
  = View.passesAllFilters JSON_parse cft filters item.
Proof.
  intros Hempty. unfold View.passesAllFilters.
  rewrite <- (forallb_Permutation _ _ _ (map_to_list_delete filters columnId [] Hempty)).
  cbn [forallb]. now rewrite passesFilter_empty.
Qed.

Lemma finalFilteredItems_delete boardItems (filters : gmap string (list string))
      cft allBoardColumns currentUserId columnId :
  filters !! columnId = Some [] ->
  View.finalFilteredItems JSON_parse boardItems (delete columnId filters)
                          cft allBoardColumns currentUserId
  = View.finalFilteredItems JSON_parse boardItems filters cft allBoardColumns currentUserId.
Proof.
  intros Hempty. unfold View.finalFilteredItems.
  assert (match delete columnId filters !! "current_user_filter" with
          | Some vs => Js.arr_includes vs "true"
          | None => false
          end
          = match filters !! "current_user_filter" with
            | Some vs => Js.arr_includes vs "true"
            | None => false
            end) as ->.
  { destruct (decide (columnId = "current_user_filter")) as [->|Hne].
    - now rewrite lookup_delete_eq, Hempty.
    - now rewrite lookup_delete_ne. }
  apply List.filter_ext. intros item. now apply passesAllFilters_delete.
Qed.

End WithBuiltins.

Lemma filter_unchecked (l : list string) (x : string) (vs : list string) :
  List.filter (fun v => negb (Js.arr_includes l v))
              (List.filter (fun v => negb (String.eqb v x)) vs)
  = List.filter (fun v => negb (Js.arr_includes (x :: l) v)) vs.
Proof.
  unfold Js.arr_includes. induction vs as [|v vs IH]; [reflexivity|].
  cbn [List.filter existsb]. destruct (String.eqb v x); cbn [negb orb List.filter].
  - exact IH.
  - destruct (existsb (String.eqb v) l); cbn [negb]; [exact IH | now rewrite IH].
Qed.

(** Unchecking the values [l] leaves, of the selected values, those outside
    [l]. *)
Lemma uncheckAll_lookup columnId (l : list string) :
  forall (filters : gmap string (list string)) (vs : list string),
    filters !! columnId = Some vs ->
    ViewSpec.uncheckAll columnId l filters !! columnId
    = Some (List.filter (fun v => negb (Js.arr_includes l v)) vs).
Proof.
  unfold ViewSpec.uncheckAll.
  induction l as [|x l IH]; intros filters vs Hvs; cbn [fold_left].
  - rewrite Hvs. f_equal. clear.
    induction vs as [|v vs IH]; [reflexivity|]. cbn. f_equal. exact IH.
  - rewrite (IH _ (List.filter (fun v => negb (String.eqb v x)) vs)).
    + now rewrite filter_unchecked.
    + unfold View.handleFilterChange. rewrite Hvs.
      change (default [] (Some vs)) with vs. apply lookup_insert_eq.
Qed.

Lemma uncheckAll_empties columnId (filters : gmap string (list string)) (vs : list string) :
  filters !! columnId = Some vs ->
  ViewSpec.uncheckAll columnId vs filters !! columnId = Some [].
Proof.
  intros Hvs. rewrite (uncheckAll_lookup columnId vs filters vs Hvs). f_equal.
  assert (forall l, (forall v, In v l -> In v vs) ->
                    List.filter (fun v => negb (Js.arr_includes vs v)) l = []) as H.
  { induction l as [|v l IH]; intros Hsub; [reflexivity|]. cbn.
    assert (Js.arr_includes vs v = true) as -> by (apply arr_includes_In, Hsub; now left).
    cbn. apply IH. intros w Hw. apply Hsub. now right. }
  now apply H.
Qed.

End ViewFacts.

Module ViewClaims.

(** C6.  For every item and every active filter on a status column (a
    filter entry with at least one selected label, on a column the table
    shows with type [status]), the item passes the filter exactly when its
    normalised status label is one of the selected labels.  The label is the
    trimmed text of the item's value in that column, except that a trimmed
    text that is empty, ["-"], ["undefined"] or ["null"] -- and likewise a
    [null] text and a missing value -- gives the label ["No status"]; every
    other text gives its trimmed self. *)
Theorem status_filter_iff
    (JSON_parse : string -> option Json)
    (columnsForTable : list View.ColumnMeta) (item : Item)
    (columnId : string) (selectedValues : list string) (columnMeta : View.ColumnMeta) :
  columnId <> "current_user_filter" ->
  selectedValues <> [] ->
  Js.find (fun col => String.eqb (View.meta_id col) columnId) columnsForTable
  = Some columnMeta ->
  View.meta_type columnMeta = "status" ->
  (View.passesFilter JSON_parse columnsForTable item (columnId, selectedValues) = true
   <-> In (View.normalizedStatusText
             (Js.find (fun cv => String.eqb (cv_id cv) columnId) (column_values item)))
          selectedValues)
  /\ (forall cv t, In t [""; "-"; "undefined"; "null"] -> cv_text cv = Some t ->
                   View.normalizedStatusText (Some cv) = "No status")
  /\ (forall cv t, cv_text cv = Some t ->
                   In (Js.trim t) [""; "-"; "undefined"; "null"] ->
                   View.normalizedStatusText (Some cv) = "No status")
  /\ (forall cv t, cv_text cv = Some t ->
                   ~ In (Js.trim t) [""; "-"; "undefined"; "null"] ->
                   View.normalizedStatusText (Some cv) = Js.trim t)
  /\ (forall cv, cv_text cv = None -> View.normalizedStatusText (Some cv) = "No status")
  /\ View.normalizedStatusText None = "No status".
Proof.
  intros Hcol Hsel Hmeta Htype. split; [|split; [|split; [|split; [|split]]]].
  - unfold View.passesFilter.
    apply String.eqb_neq in Hcol. rewrite Hcol.
    destruct selectedValues as [|v vs]; [congruence|]. cbn [length Nat.eqb].
    rewrite Hmeta, Htype. cbn [String.eqb Ascii.eqb Bool.eqb].
    apply ViewFacts.arr_includes_In.
  - apply ViewFacts.normalizedStatusText_blank.
  - apply ViewFacts.normalizedStatusText_trimmed_blank.
  - apply ViewFacts.normalizedStatusText_label.
  - apply ViewFacts.normalizedStatusText_null.
  - reflexivity.
Qed.

(** An item whose status text is the empty string passes a filter selecting
    "No status" and fails a filter selecting "Done"; an item whose status
    text is "Done" between spaces passes a filter selecting "Done" and fails
    a filter selecting "No status". *)
Lemma status_filter_witness :
  "c1" <> "current_user_filter"
  /\ ["No status"] <> []
  /\ Js.find (fun col => String.eqb (View.meta_id col) "c1") [ViewSamples.statusMeta]
     = Some ViewSamples.statusMeta
  /\ View.meta_type ViewSamples.statusMeta = "status"
  /\ View.passesFilter MiniJSON.parse [ViewSamples.statusMeta] ViewSamples.blankStatus
                       ("c1", ["No status"]) = true
  /\ View.passesFilter MiniJSON.parse [ViewSamples.statusMeta] ViewSamples.blankStatus
                       ("c1", ["Done"]) <> true
  /\ View.normalizedStatusText (Some (ViewSamples.cell "c1" (Some " Done "))) = "Done"
  /\ View.passesFilter MiniJSON.parse [ViewSamples.statusMeta] ViewSamples.doneStatus
                       ("c1", ["Done"]) = true
  /\ View.passesFilter MiniJSON.parse [ViewSamples.statusMeta] ViewSamples.doneStatus
                       ("c1", ["No status"]) <> true.
Proof.
  assert (H1 : "c1" <> "current_user_filter") by discriminate.
  assert (H2 : ["No status"] <> []) by discriminate.
  assert (H2' : ["Done"] <> []) by discriminate.
  assert (H3 : Js.find (fun col => String.eqb (View.meta_id col) "c1") [ViewSamples.statusMeta]
               = Some ViewSamples.statusMeta) by reflexivity.
  assert (H4 : View.meta_type ViewSamples.statusMeta = "status") by reflexivity.
  assert (Hlabel : View.normalizedStatusText (Some (ViewSamples.cell "c1" (Some " Done ")))
                   = "Done").
  { rewrite (proj1 (proj2 (proj2 (proj2 (status_filter_iff MiniJSON.parse
                 [ViewSamples.statusMeta] ViewSamples.doneStatus "c1" ["Done"]
                 ViewSamples.statusMeta H1 H2' H3 H4))))
               (ViewSamples.cell "c1" (Some " Done ")) " Done " eq_refl).
    - reflexivity.
    - cbn. intros [H|[H|[H|[H|[]]]]]; discriminate H. }
  split; [exact H1|]. split; [exact H2|]. split; [exact H3|]. split; [exact H4|].
  split; [|split; [|split; [exact Hlabel|split]]].
  - apply (proj1 (status_filter_iff MiniJSON.parse [ViewSamples.statusMeta]
                    ViewSamples.blankStatus "c1" ["No status"] ViewSamples.statusMeta
                    H1 H2 H3 H4)).
    left. reflexivity.
  - intros Hpass.
    apply (proj1 (status_filter_iff MiniJSON.parse [ViewSamples.statusMeta]
                    ViewSamples.blankStatus "c1" ["Done"] ViewSamples.statusMeta
                    H1 H2' H3 H4)) in Hpass.
    destruct Hpass as [Hpass|[]]. discriminate Hpass.
  - apply (proj1 (status_filter_iff MiniJSON.parse [ViewSamples.statusMeta]
                    ViewSamples.doneStatus "c1" ["Done"] ViewSamples.statusMeta
                    H1 H2' H3 H4)).
    left. exact Hlabel.
  - intros Hpass.
    apply (proj1 (status_filter_iff MiniJSON.parse [ViewSamples.statusMeta]
                    ViewSamples.doneStatus "c1" ["No status"] ViewSamples.statusMeta
                    H1 H2 H3 H4)) in Hpass.
    destruct Hpass as [Hpass|[]].
    change (View.normalizedStatusText
              (Js.find (fun cv => String.eqb (cv_id cv) "c1")
                       (column_values ViewSamples.doneStatus)))
      with (View.normalizedStatusText (Some (ViewSamples.cell "c1" (Some " Done "))))
      in Hpass.
    rewrite Hlabel in Hpass. discriminate Hpass.
Defined.

(** C7, as amended.  When sorting by a date-typed column, an item whose date
    text is absent (no column value, or a [null] or empty text) is given the
    time value 0, the Unix epoch.  Against an item whose text parses to the
    time value [t], the ascending comparator therefore returns [0 - t]: the
    dateless item compares below the dated one when the date is later than
    the epoch, and above it when the date is earlier. *)
Theorem absent_date_sorts_as_epoch
    (Date_getTime : string -> option Z)
    (compareOther : string -> View.ColumnMeta -> Item -> Item -> option Z)
    (sortColumnId : string) (columnMeta : View.ColumnMeta) (a b : Item)
    (cvb : ColumnValue) (tb : string) (t : Z) :
  View.meta_type columnMeta = "date" ->
  sortColumnId <> "item_name_column" ->
  sortColumnId <> "board_name_column" ->
  ViewSpec.dateAbsent sortColumnId a ->
  Js.find (fun cv => String.eqb (cv_id cv) sortColumnId) (column_values b) = Some cvb ->
  cv_text cvb = Some tb ->
  tb <> "" ->
  Date_getTime tb = Some t ->
  View.compareItems Date_getTime compareOther sortColumnId "asc" columnMeta a b
  = Some (0 - t)
  /\ View.compareItems Date_getTime compareOther sortColumnId "asc" columnMeta b a
     = Some (t - 0)
  /\ ((exists c, View.compareItems Date_getTime compareOther sortColumnId "asc"
                                   columnMeta a b = Some c /\ c < 0)
      <-> 0 < t).
Proof.
  intros Htype Hname Hboard Habsent Hb Htb Hne Ht.
  assert (View.dateSortValue Date_getTime
            (Js.find (fun cv => String.eqb (cv_id cv) sortColumnId) (column_values a))
          = Some 0) as Ha.
  { unfold ViewSpec.dateAbsent in Habsent.
    destruct (Js.find _ (column_values a)) as [cva|]; [|reflexivity].
    unfold View.dateSortValue. now destruct Habsent as [-> | ->]. }
  assert (View.dateSortValue Date_getTime
            (Js.find (fun cv => String.eqb (cv_id cv) sortColumnId) (column_values b))
          = Some t) as Hbv.
  { rewrite Hb. unfold View.dateSortValue. rewrite Htb.
    apply String.eqb_neq in Hne. now rewrite Hne. }
  unfold View.compareItems.
  apply String.eqb_neq in Hname, Hboard.
  rewrite Htype, Hname, Hboard, Ha, Hbv. cbn.
  split; [reflexivity|]. split; [reflexivity|]. split.
  - intros (c & Hc & Hneg). inversion Hc. lia.
  - intros Hpos. exists (0 - t). split; [reflexivity | lia].
Qed.

(** A dateless item against an item dated 2024-02-29. *)
Lemma absent_date_witness :
  View.meta_type ViewSamples.dueMeta = "date"
  /\ ViewSpec.dateAbsent "due" ViewSamples.undated
  /\ RefDate.getTime "2024-02-29" = Some 1709164800000
  /\ View.compareItems RefDate.getTime ViewSamples.noOther "due" "asc" ViewSamples.dueMeta
                       ViewSamples.undated ViewSamples.release
     = Some (0 - 1709164800000).
Proof.
  assert (H1 : View.meta_type ViewSamples.dueMeta = "date") by reflexivity.
  assert (H2 : ViewSpec.dateAbsent "due" ViewSamples.undated) by exact I.
  assert (H3 : RefDate.getTime "2024-02-29" = Some 1709164800000) by (vm_compute; reflexivity).
  split; [exact H1|]. split; [exact H2|]. split; [exact H3|].
  refine (proj1 (absent_date_sorts_as_epoch RefDate.getTime ViewSamples.noOther
                   "due" ViewSamples.dueMeta ViewSamples.undated ViewSamples.release
                   (ViewSamples.cell "due" (Some "2024-02-29")) "2024-02-29" 1709164800000
                   H1 _ _ H2 eq_refl eq_refl _ H3)); discriminate.
Defined.

(** C7 as stated fails.  Under ascending sort the dateless item compares
    above the item dated 1969-07-20, whose time value is negative; and the
    item whose text is not a date yields [NaN] against a dated one, which
    the sort reads as a tie, not as "below". *)
Lemma absent_date_not_lowest :
  RefDate.getTime "1969-07-20" = Some (-14256000000)
  /\ View.compareItems RefDate.getTime ViewSamples.noOther "due" "asc" ViewSamples.dueMeta
                       ViewSamples.undated ViewSamples.moonLanding
     = Some 14256000000
  /\ RefDate.getTime "soon" = None
  /\ View.compareItems RefDate.getTime ViewSamples.noOther "due" "asc" ViewSamples.dueMeta
                       ViewSamples.vague ViewSamples.release
     = None.
Proof. repeat split; vm_compute; reflexivity. Qed.

(** C10.  A column filter whose set of selected values is empty imposes no
    constraint: every item passes that entry, whatever its value in the
    column, and the derived view is the one obtained with the entry removed
    ([handleClearFilter]).  Unchecking one by one every value of a column
    filter leaves such an empty entry. *)
Theorem empty_filter_is_no_filter
    (JSON_parse : string -> option Json) (Date_getTime : string -> option Z)
    (Array_sort : (Item -> Item -> Z) -> list Item -> list Item)
    (compareOther : string -> View.ColumnMeta -> Item -> Item -> option Z)
    (boardItems : list Item) (sorting : option (string * string))
    (activeFilters : gmap string (list string))
    (columnsForTable : list View.ColumnMeta) (allBoardColumns : list Column)
    (currentUserId : option string) (columnId : string) :
  activeFilters !! columnId = Some [] ->
  (forall item, View.passesFilter JSON_parse columnsForTable item (columnId, []) = true)
  /\ View.filteredAndSortedBoardItems JSON_parse Date_getTime Array_sort compareOther
       boardItems sorting activeFilters columnsForTable allBoardColumns currentUserId
     = View.filteredAndSortedBoardItems JSON_parse Date_getTime Array_sort compareOther
         boardItems sorting (View.handleClearFilter columnId activeFilters)
         columnsForTable allBoardColumns currentUserId
  /\ (forall (filters : gmap string (list string)) (vs : list string),
        filters !! columnId = Some vs ->
        ViewSpec.uncheckAll columnId vs filters !! columnId = Some []).
Proof.
  intros Hempty. split; [|split].
  - intros item. apply ViewFacts.passesFilter_empty.
  - unfold View.filteredAndSortedBoardItems, View.handleClearFilter.
    now rewrite (ViewFacts.finalFilteredItems_delete JSON_parse boardItems activeFilters
                   columnsForTable allBoardColumns currentUserId columnId Hempty).
  - intros filters vs Hvs. now apply ViewFacts.uncheckAll_empties.
Qed.

(** The status filter after "Done" was checked and unchecked again: the
    entry is empty, and the view is the one without the entry. *)
Lemma empty_filter_witness :
  ViewSamples.checkedThenUnchecked !! "c1" = Some []
  /\ View.filteredAndSortedBoardItems MiniJSON.parse RefDate.getTime
       ViewSamples.insertionSort ViewSamples.noOther
       [ViewSamples.blankStatus; ViewSamples.release] (Some ("due", "asc"))
       ViewSamples.checkedThenUnchecked
       [ViewSamples.statusMeta; ViewSamples.dueMeta] [] None
     = View.filteredAndSortedBoardItems MiniJSON.parse RefDate.getTime
         ViewSamples.insertionSort ViewSamples.noOther
         [ViewSamples.blankStatus; ViewSamples.release] (Some ("due", "asc"))
         (View.handleClearFilter "c1" ViewSamples.checkedThenUnchecked)
         [ViewSamples.statusMeta; ViewSamples.dueMeta] [] None.
Proof.
  assert (H : ViewSamples.checkedThenUnchecked !! "c1" = Some []) by (vm_compute; reflexivity).
  split; [exact H|].
  exact (proj1 (proj2 (empty_filter_is_no_filter MiniJSON.parse RefDate.getTime
                         ViewSamples.insertionSort ViewSamples.noOther
                         [ViewSamples.blankStatus; ViewSamples.release] (Some ("due", "asc"))
                         ViewSamples.checkedThenUnchecked
                         [ViewSamples.statusMeta; ViewSamples.dueMeta] [] None "c1" H))).
Defined.

End ViewClaims.

(** ** Further properties of the retrying executors *)

Module RunsFacts.
Import ExecutorSpec RunsSpec.

Section Generic.
Context {World Out A : Type}.
Variable op : World -> Out * World.

Lemma resolvesAt_S transient (value : Out -> option A) retries j a w :
  resolvesAt op transient value (S retries) (S j) a w ->
  transient (fst (op w)) = true
  /\ resolvesAt op transient value retries j a (snd (op w)).
Proof.
  intros (Hle & Hbefore & Hval). split.
  - apply (Hbefore 0%nat). lia.
  - split; [lia|]. split; [|exact Hval].
    intros i Hi. apply (Hbefore (S i)). lia.
Qed.

End Generic.

Section Runs.
Context {World Data : Type}.
Variable monday_api : string -> World -> Settled (ApiResponse Data) * World.

Lemma retry_resolves {A} (fn : World -> Settled A * World) retries :
  forall j delay factor a w,
    resolvesAt fn retryTransient retryValue retries j a w ->
    Executor.retry fn retries delay factor w
    = (Resolved a, worldAfter fn (S j) w, backoffTrace j delay factor).
Proof.
  induction retries as [|r IH]; intros j delay factor a w H.
  - destruct H as (Hle & _ & Hval). assert (j = 0)%nat as -> by lia.
    rewrite ExecutorFacts.outcomeAt_0 in Hval. cbn. destruct (fn w) as [[a'|e] w1]; cbn in Hval; [|discriminate].
    now inversion Hval.
  - destruct j as [|j].
    + destruct H as (_ & _ & Hval). rewrite ExecutorFacts.outcomeAt_0 in Hval. cbn.
      destruct (fn w) as [[a'|e] w1]; cbn in Hval; [|discriminate].
      now inversion Hval.
    + apply resolvesAt_S in H as [Htr Hrest].
      specialize (IH j (delay * factor) factor a _ Hrest).
      cbn [Executor.retry backoffTrace worldAfter].
      destruct (fn w) as [[a'|e] w1]; cbn in Htr, IH |- *; [discriminate|].
      now rewrite Htr, IH.
Qed.

Lemma queryMonday_resolves query retries :
  forall j delay d w,
    resolvesAt (monday_api query) apiTransient apiValue retries j d w ->
    Executor.queryMonday monday_api query retries delay w
    = (Resolved d, worldAfter (monday_api query) (S j) w, backoffTrace j delay 2).
Proof.
  induction retries as [|r IH]; intros j delay d w H.
  - destruct H as (Hle & _ & Hval). assert (j = 0)%nat as -> by lia.
    rewrite ExecutorFacts.outcomeAt_0 in Hval. cbn.
    destruct (monday_api query w) as [[response|e] w1]; cbn in Hval |- *; [|discriminate].
    destruct (api_errors response); [discriminate|]. now inversion Hval.
  - destruct j as [|j].
    + destruct H as (_ & _ & Hval). rewrite ExecutorFacts.outcomeAt_0 in Hval. cbn.
      destruct (monday_api query w) as [[response|e] w1]; cbn in Hval |- *; [|discriminate].
      destruct (api_errors response); [discriminate|]. now inversion Hval.
    + apply resolvesAt_S in H as [Htr Hrest].
      specialize (IH j (delay * 2) d _ Hrest).
      cbn [Executor.queryMonday backoffTrace worldAfter].
      destruct (monday_api query w) as [[response|e] w1]; cbn in Htr, IH |- *.
      * destruct (api_errors response) as [errs|]; [|discriminate].
        now rewrite Htr, IH.
      * now rewrite Htr, IH.
Qed.

(** Every run of [retry] is a run of [j + 1] attempts for some [j] within
    the budget, and settles as its last attempt did. *)
Lemma retry_shape {A} (fn : World -> Settled A * World) retries :
  forall delay factor w,
    exists j,
      (j <= retries)%nat
      /\ (forall i, (i < j)%nat -> retryTransient (outcomeAt fn i w) = true)
      /\ (j = retries \/ retryTransient (outcomeAt fn j w) = false)
      /\ Executor.retry fn retries delay factor w
         = (outcomeAt fn j w, worldAfter fn (S j) w, backoffTrace j delay factor).
Proof.
  induction retries as [|r IH]; intros delay factor w.
  - exists 0%nat. split; [lia|]. split; [intros i Hi; lia|]. split; [now left|].
    cbn. unfold outcomeAt. cbn. now destruct (fn w) as [[a|e] w1].
  - destruct (retryTransient (fst (fn w))) eqn:Htr.
    + destruct (IH (delay * factor) factor (snd (fn w))) as (j & Hle & Hbefore & Hlast & Hrun).
      exists (S j). split; [lia|]. split; [|split].
      * intros [|i] Hi; [exact Htr|]. apply Hbefore. lia.
      * destruct Hlast as [->|Hlast]; [now left | now right].
      * cbn [Executor.retry backoffTrace worldAfter].
        rewrite ExecutorFacts.outcomeAt_S.
        destruct (fn w) as [[a|e] w1]; cbn in Htr, Hrun |- *; [discriminate|].
        now rewrite Htr, Hrun.
    + exists 0%nat. split; [lia|]. split; [intros i Hi; lia|]. split; [now right|].
      cbn. unfold outcomeAt. cbn.
      destruct (fn w) as [[a|e] w1]; cbn in Htr |- *; [reflexivity|]. now rewrite Htr.
Qed.

Lemma queryMonday_shape query retries :
  forall delay w,
    exists j,
      (j <= retries)%nat
      /\ (forall i, (i < j)%nat -> apiTransient (outcomeAt (monday_api query) i w) = true)
      /\ (j = retries \/ apiTransient (outcomeAt (monday_api query) j w) = false)
      /\ Executor.queryMonday monday_api query retries delay w
         = (apiSettle (outcomeAt (monday_api query) j w),
            worldAfter (monday_api query) (S j) w, backoffTrace j delay 2).
Proof.
  induction retries as [|r IH]; intros delay w.
  - exists 0%nat. split; [lia|]. split; [intros i Hi; lia|]. split; [now left|].
    cbn. unfold outcomeAt. cbn.
    destruct (monday_api query w) as [[response|e] w1]; cbn; [|reflexivity].
    now destruct (api_errors response).
  - destruct (apiTransient (fst (monday_api query w))) eqn:Htr.
    + destruct (IH (delay * 2) (snd (monday_api query w))) as (j & Hle & Hbefore & Hlast & Hrun).
      exists (S j). split; [lia|]. split; [|split].
      * intros [|i] Hi; [exact Htr|]. apply Hbefore. lia.
      * destruct Hlast as [->|Hlast]; [now left | now right].
      * cbn [Executor.queryMonday backoffTrace worldAfter].
        rewrite ExecutorFacts.outcomeAt_S.
        destruct (monday_api query w) as [[response|e] w1]; cbn in Htr, Hrun |- *.
        -- destruct (api_errors response) as [errs|]; [|discriminate].
           now rewrite Htr, Hrun.
        -- now rewrite Htr, Hrun.
    + exists 0%nat. split; [lia|]. split; [intros i Hi; lia|]. split; [now right|].
      cbn. unfold outcomeAt. cbn.
      destruct (monday_api query w) as [[response|e] w1]; cbn in Htr |- *.
      * destruct (api_errors response) as [errs|]; [|reflexivity].
        rewrite Htr.
        pose proof (ExecutorFacts.errors_to_Error_not_retried errs Htr) as Hjoin.
        cbn in Hjoin. now rewrite Hjoin.
      * now rewrite Htr.
Qed.

Ltac counter := repeat first [reflexivity | lia | f_equal].

Lemma calls_retried delay tr : calls (Call :: Sleep delay :: tr) = S (calls tr).
Proof. reflexivity. Qed.

(** Counting the requests does not change what [queryMonday] does, and
    the counter advances by the calls of the trace. *)
Lemma queryMonday_counted query retries :
  forall delay w n,
    Executor.queryMonday (counted monday_api) query retries delay (w, n)
    = (fst (fst (Executor.queryMonday monday_api query retries delay w)),
       (snd (fst (Executor.queryMonday monday_api query retries delay w)),
        (n + calls (snd (Executor.queryMonday monday_api query retries delay w)))%nat),
       snd (Executor.queryMonday monday_api query retries delay w)).
Proof.
  induction retries as [|r IH]; intros delay w n.
  - cbn. unfold counted. cbn [fst snd].
    destruct (monday_api query w) as [[response|e] w1]; cbn.
    + destruct (api_errors response); cbn; unfold calls; cbn; counter.
    + unfold calls; cbn; counter.
  - cbn [Executor.queryMonday]. unfold counted at 1. cbn [fst snd].
    destruct (monday_api query w) as [[response|e] w1].
    + destruct (api_errors response) as [errs|].
      * destruct (Executor.rateLimitError errs).
        -- rewrite IH.
           destruct (Executor.queryMonday monday_api query r (delay * 2) w1) as [[o w2] tr].
           cbn [fst snd]. rewrite calls_retried. counter.
        -- destruct (Js.includes _ _).
           ++ rewrite IH.
              destruct (Executor.queryMonday monday_api query r (delay * 2) w1) as [[o w2] tr].
              cbn [fst snd]. rewrite calls_retried. counter.
           ++ cbn. unfold calls; cbn; counter.
      * cbn. unfold calls; cbn; counter.
    + destruct (Js.includes _ _).
      * rewrite IH.
        destruct (Executor.queryMonday monday_api query r (delay * 2) w1) as [[o w2] tr].
        cbn [fst snd]. rewrite calls_retried. counter.
      * cbn. unfold calls; cbn; counter.
Qed.

(** [retry] over an operation instrumented with a counter that each
    attempt advances by between [lo] and [hi]. *)
Lemma retry_counted {A} (fn : World -> Settled A * World)
      (fnc : World * nat -> Settled A * (World * nat)) (lo hi : nat) :
  (forall w n, exists k, (lo <= k <= hi)%nat
                         /\ fnc (w, n) = (fst (fn w), (snd (fn w), (n + k)%nat))) ->
  forall retries delay factor w n,
    exists m,
      Executor.retry fnc retries delay factor (w, n)
      = (fst (fst (Executor.retry fn retries delay factor w)),
         (snd (fst (Executor.retry fn retries delay factor w)), (n + m)%nat),
         snd (Executor.retry fn retries delay factor w))
      /\ (lo * calls (snd (Executor.retry fn retries delay factor w)) <= m
          <= hi * calls (snd (Executor.retry fn retries delay factor w)))%nat.
Proof.
  intros Hfnc. induction retries as [|r IH]; intros delay factor w n.
  - destruct (Hfnc w n) as (k & Hk & Heq). exists k. cbn. rewrite Heq.
    destruct (fn w) as [[a|e] w1]; cbn; (split; [reflexivity|]); unfold calls; cbn; lia.
  - destruct (Hfnc w n) as (k & Hk & Heq). cbn [Executor.retry]. rewrite Heq.
    destruct (fn w) as [[a|e] w1]; cbn [fst snd].
    + exists k. split; [reflexivity|]. unfold calls; cbn; lia.
    + destruct (Executor.retry_classifier e).
      * destruct (IH (delay * factor) factor w1 (n + k)%nat) as (m & Hrun & Hm).
        rewrite Hrun.
        destruct (Executor.retry fn r (delay * factor) factor w1) as [[o w2] tr].
        cbn [fst snd] in Hm |- *. exists (k + m)%nat. rewrite calls_retried.
        split; [counter | lia].
      * exists k. split; [reflexivity|]. unfold calls; cbn; lia.
Qed.

End Runs.
End RunsFacts.

Module RunsProperties.
Import ExecutorSpec RunsSpec.

(** X1.  [retry] resolves with the value of the first attempt that
    succeeds, provided that attempt is within the budget and every attempt
    before it failed with an error the classifier takes for transient: the
    operation is attempted [j + 1] times, with sleeps of [delay],
    [delay * factor], ... between the attempts, and the world is the one
    those attempts leave. *)
Theorem retry_resolves_after_transients {World A : Type}
    (fn : World -> Settled A * World)
    (retries j : nat) (delay factor : Z) (a : A) (w : World) :
  resolvesAt fn retryTransient retryValue retries j a w ->
  Executor.retry fn retries delay factor w
  = (Resolved a, worldAfter fn (S j) w, backoffTrace j delay factor)
  /\ calls (backoffTrace j delay factor) = S j
  /\ sleeps (backoffTrace j delay factor)
     = map (fun i => delay * factor ^ Z.of_nat i) (seq 0 j).
Proof.
  intros H. split; [|split].
  - now apply RunsFacts.retry_resolves.
  - apply ExecutorFacts.calls_backoffTrace.
  - apply ExecutorFacts.sleeps_backoffTrace.
Qed.

(** An operation that hits the concurrency limit twice, under the default
    budget of five retries. *)
Lemma retry_resolves_witness :
  resolvesAt RunsSamples.limitedTwice retryTransient retryValue 5 2 "done" 0%nat
  /\ Executor.retry RunsSamples.limitedTwice 5 2000 2 0%nat
     = (Resolved "done", 3%nat, [Call; Sleep 2000; Call; Sleep 4000; Call]).
Proof.
  assert (H : resolvesAt RunsSamples.limitedTwice retryTransient retryValue
                         5 2 "done" 0%nat).
  { unfold resolvesAt. split; [lia|]. split; [|reflexivity].
    intros [|[|i]] Hi; [reflexivity | reflexivity | lia]. }
  split; [exact H|].
  exact (proj1 (retry_resolves_after_transients RunsSamples.limitedTwice
                  5 2 2000 2 "done" 0%nat H)).
Defined.

(** X2.  [queryMonday] resolves with the [data] of the first response that
    carries no [errors], provided that call is within the budget and every
    call before it was answered with a rate-limit error ([errors] holding
    one of the two markers, or a rejection whose message holds
    ['Rate limit passed']): [monday.api] is called [j + 1] times, with
    sleeps of [delay], [2 * delay], ... between the calls. *)
Theorem queryMonday_resolves_after_rate_limits {World Data : Type}
    (monday_api : string -> World -> Settled (ApiResponse Data) * World)
    (query : string) (retries j : nat) (delay : Z) (d : Data) (w : World) :
  resolvesAt (monday_api query) apiTransient apiValue retries j d w ->
  Executor.queryMonday monday_api query retries delay w
  = (Resolved d, worldAfter (monday_api query) (S j) w, backoffTrace j delay 2)
  /\ calls (backoffTrace j delay 2) = S j
  /\ sleeps (backoffTrace j delay 2) = map (fun i => delay * 2 ^ Z.of_nat i) (seq 0 j).
Proof.
  intros H. split; [|split].
  - now apply RunsFacts.queryMonday_resolves.
  - apply ExecutorFacts.calls_backoffTrace.
  - apply ExecutorFacts.sleeps_backoffTrace.
Qed.

(** An API that lists a rate-limit error twice, under the default budget of
    three retries. *)
Lemma queryMonday_resolves_witness :
  resolvesAt (RunsSamples.apiLimitedTwice "q") apiTransient apiValue
             3 2 RunsSamples.noBoards 0%nat
  /\ Executor.queryMonday RunsSamples.apiLimitedTwice "q" 3 500 0%nat
     = (Resolved RunsSamples.noBoards, 3%nat, [Call; Sleep 500; Call; Sleep 1000; Call]).
Proof.
  assert (H : resolvesAt (RunsSamples.apiLimitedTwice "q") apiTransient apiValue
                         3 2 RunsSamples.noBoards 0%nat).
  { unfold resolvesAt. split; [lia|]. split; [|reflexivity].
    intros [|[|i]] Hi; [reflexivity | reflexivity | lia]. }
  split; [exact H|].
  exact (proj1 (queryMonday_resolves_after_rate_limits RunsSamples.apiLimitedTwice
                  "q" 3 2 500 RunsSamples.noBoards 0%nat H)).
Defined.

(** X3.  Every run of [retry], whatever the operation does, consists of
    [j + 1] attempts for some [j] not above the budget, separated by the
    sleeps of the backoff schedule; it settles exactly as its last attempt
    did, value or error unchanged; every earlier attempt failed with an
    error the classifier takes for transient; and the run stopped because
    the budget was spent or the last attempt was not such a failure. *)
Theorem retry_run_is_bounded {World A : Type}
    (fn : World -> Settled A * World) (retries : nat) (delay factor : Z) (w : World) :
  exists j,
    (j <= retries)%nat
    /\ Executor.retry fn retries delay factor w
       = (outcomeAt fn j w, worldAfter fn (S j) w, backoffTrace j delay factor)
    /\ (forall i, (i < j)%nat -> retryTransient (outcomeAt fn i w) = true)
    /\ (j = retries \/ retryTransient (outcomeAt fn j w) = false)
    /\ calls (backoffTrace j delay factor) = S j
    /\ sleeps (backoffTrace j delay factor)
       = map (fun i => delay * factor ^ Z.of_nat i) (seq 0 j).
Proof.
  destruct (RunsFacts.retry_shape fn retries delay factor w)
    as (j & Hle & Hbefore & Hlast & Hrun).
  exists j. repeat split; try assumption.
  - apply ExecutorFacts.calls_backoffTrace.
  - apply ExecutorFacts.sleeps_backoffTrace.
Qed.

(** X4.  Every run of [queryMonday] consists of [j + 1] calls of
    [monday.api] for some [j] not above the budget, separated by sleeps of
    [delay], [2 * delay], ...; every call before the last was answered
    with a rate-limit error.  It settles as its last call dictates: with
    the [data] of a response without [errors], with an error made of the
    joined messages of a response with [errors], or with the rejection of
    the call itself. *)
Theorem queryMonday_run_is_bounded {World Data : Type}
    (monday_api : string -> World -> Settled (ApiResponse Data) * World)
    (query : string) (retries : nat) (delay : Z) (w : World) :
  exists j,
    (j <= retries)%nat
    /\ Executor.queryMonday monday_api query retries delay w
       = (apiSettle (outcomeAt (monday_api query) j w),
          worldAfter (monday_api query) (S j) w, backoffTrace j delay 2)
    /\ (forall i, (i < j)%nat -> apiTransient (outcomeAt (monday_api query) i w) = true)
    /\ (j = retries \/ apiTransient (outcomeAt (monday_api query) j w) = false)
    /\ calls (backoffTrace j delay 2) = S j
    /\ sleeps (backoffTrace j delay 2) = map (fun i => delay * 2 ^ Z.of_nat i) (seq 0 j).
Proof.
  destruct (RunsFacts.queryMonday_shape monday_api query retries delay w)
    as (j & Hle & Hbefore & Hlast & Hrun).
  exists j. repeat split; try assumption.
  - apply ExecutorFacts.calls_backoffTrace.
  - apply ExecutorFacts.sleeps_backoffTrace.
Qed.

(** X5.  A response that carries an [errors] array without a rate-limit
    marker makes [queryMonday] reject at once, whatever budget is left and
    whatever [data] came with the response: one call, no sleep, and an
    [Error] whose message joins the listed messages with ['; '].  An empty
    [errors] array is such a response; its error has the empty message. *)
Theorem response_with_errors_rejects {World Data : Type}
    (monday_api : string -> World -> Settled (ApiResponse Data) * World)
    (query : string) (retries : nat) (delay : Z) (w w1 : World)
    (response : ApiResponse Data) (errs : list GqlError) :
  monday_api query w = (Resolved response, w1) ->
  api_errors response = Some errs ->
  Executor.rateLimitError errs = false ->
  Executor.queryMonday monday_api query retries delay w
  = (Rejected (new_Error (Js.join "; " (map gql_message errs))), w1, [Call]).
Proof.
  intros Hcall Herrs Hmark.
  pose proof (ExecutorFacts.errors_to_Error_not_retried errs Hmark) as Hjoin.
  cbn in Hjoin.
  destruct retries as [|r]; cbn; rewrite Hcall, Herrs; [reflexivity|].
  now rewrite Hmark, Hjoin.
Qed.

(** A response with boards in [data] and an empty [errors] array. *)
Lemma response_with_errors_witness :
  Executor.queryMonday RunsSamples.apiEmptyErrors "q" 3 500 0%nat
  = (Rejected (new_Error ""), 1%nat, [Call]).
Proof.
  exact (response_with_errors_rejects RunsSamples.apiEmptyErrors "q" 3 500 0%nat 1%nat
           {| api_errors := Some []; api_data := RunsSamples.noBoards |} []
           eq_refl eq_refl eq_refl).
Defined.

(** X6.  One query sent by [App] through [retry(() => queryMonday(q))]
    costs between 1 and 24 calls of [monday.api]: at most six attempts of
    [queryMonday], each of at most four calls.  The count is read off a
    counter threaded through the world; counting changes neither the
    result nor the world. *)
Theorem execute_request_budget {World Data : Type}
    (monday_api : string -> World -> Settled (ApiResponse Data) * World)
    (query : string) (w : World) (n : nat) :
  exists m,
    Executor.execute (counted monday_api) query (w, n)
    = (fst (Executor.execute monday_api query w),
       (snd (Executor.execute monday_api query w), (n + m)%nat))
    /\ (1 <= m <= 24)%nat.
Proof.
  unfold Executor.execute.
  set (fn := fun w0 : World =>
               let '(o, w1, _) := Executor.queryMonday monday_api query 3 500 w0 in (o, w1)).
  set (fnc := fun w0 : World * nat =>
                let '(o, w1, _) := Executor.queryMonday (counted monday_api) query 3 500 w0 in
                (o, w1)).
  assert (forall w0 n0, exists k, (1 <= k <= 4)%nat
                                  /\ fnc (w0, n0) = (fst (fn w0), (snd (fn w0), (n0 + k)%nat)))
    as Hfnc.
  { intros w0 n0. unfold fnc, fn. rewrite RunsFacts.queryMonday_counted.
    destruct (RunsFacts.queryMonday_shape monday_api query 3 500 w0)
      as (j & Hle & _ & _ & Hrun).
    rewrite Hrun. cbn [fst snd]. exists (S j).
    rewrite ExecutorFacts.calls_backoffTrace. split; [lia | reflexivity]. }
  destruct (RunsFacts.retry_counted fn fnc 1 4 Hfnc 5 2000 2 w n) as (m & Hrun & Hm).
  destruct (RunsFacts.retry_shape fn 5 2000 2 w) as (j & Hle & _ & _ & Hshape).
  rewrite Hshape in Hm, Hrun |- *. cbn [fst snd] in Hm, Hrun |- *.
  rewrite ExecutorFacts.calls_backoffTrace in Hm.
  exists m. rewrite Hrun. split; [reflexivity | lia].
Qed.

End RunsProperties.

(** ** Further properties of the aggregation fetcher *)

Module FetcherMoreFacts.
Import FetcherSpec.

Lemma find_app {A} (p : A -> bool) (l1 l2 : list A) :
  Js.find p (l1 ++ l2)%list
  = match Js.find p l1 with
    | Some x => Some x
    | None => Js.find p l2
    end.
Proof.
  unfold Js.find. induction l1 as [|x l1 IH]; [reflexivity|].
  cbn. now destruct (p x).
Qed.

Lemma length_eqb_0 {A} (l : list A) : l <> [] -> (length l =? 0)%nat = false.
Proof. destruct l; [congruence | reflexivity]. Qed.

(** [collectBoards] started from any accumulator. *)
Lemma collectBoards_fold sel bid bs :
  forall m : gmap string BoardInfo,
    fold_left
      (fun (newAllBoardsData : gmap string BoardInfo) board =>
         if Js.arr_includes sel (board_id board)
         then <[ board_id board :=
                   {| info_id := board_id board;
                      info_name := board_name board;
                      info_columns := default [] (board_columns board) |} ]>
                newAllBoardsData
         else newAllBoardsData)
      bs m !! bid
    = match (if Js.arr_includes sel bid
             then Js.find (fun b => String.eqb (board_id b) bid) (rev bs)
             else None) with
      | Some b => Some (infoOf b)
      | None => m !! bid
      end.
Proof.
  induction bs as [|board bs IH]; intros m.
  - cbn. now destruct (Js.arr_includes sel bid).
  - cbn [fold_left rev]. rewrite IH, find_app.
    destruct (Js.arr_includes sel bid) eqn:Hsel.
    + destruct (Js.find _ (rev bs)) as [b|]; [reflexivity|].
      cbn. destruct (String.eqb (board_id board) bid) eqn:Heq.
      * apply String.eqb_eq in Heq. subst bid. rewrite Hsel.
        now rewrite lookup_insert_eq.
      * apply String.eqb_neq in Heq.
        destruct (Js.arr_includes sel (board_id board)); [|reflexivity].
        now rewrite lookup_insert_ne.
    + destruct (Js.arr_includes sel (board_id board)) eqn:Hb; [|reflexivity].
      apply lookup_insert_ne. intros Heq. congruence.
Qed.

Lemma inheritedName_nonempty key name : Js.inheritedName key = Some name -> name <> "".
Proof.
  unfold Js.inheritedName. destruct (String.eqb key "constructor").
  - intros H. inversion H. discriminate.
  - destruct (existsb _ _) eqn:Hin; [|discriminate].
    intros H. inversion H; subst name. intros ->. discriminate Hin.
Qed.

Lemma tagItem_boardName nab bid raw : boardName (Fetcher.tagItem nab bid raw) <> "".
Proof.
  cbn. destruct (nab !! bid) as [info|].
  - destruct (String.eqb (info_name info) "") eqn:Heq; [discriminate|].
    now apply String.eqb_neq.
  - destruct (Js.inheritedName bid) as [name|] eqn:Hname; [|discriminate].
    now apply (inheritedName_nonempty bid).
Qed.

Lemma tagItem_shownAs nab bid raw : Fetcher.tagItem nab bid raw = shownAs nab bid raw.
Proof.
  unfold Fetcher.tagItem, shownAs, boardLabel.
  destruct (nab !! bid) as [info|]; [reflexivity|].
  now destruct (Js.inheritedName bid).
Qed.

(** The groups of shown items carry the ids of their boards and non-empty
    board names. *)
Lemma groups_tagged nab sel :
  forall ds,
    Forall (fun item => In (boardId item) sel /\ boardName item <> "")
           (concat (zip_with (fun bid d => map (shownAs nab bid) (default [] (Fetcher.itemsOf d)))
                             sel ds)).
Proof.
  induction sel as [|bid sel IH]; intros ds; [constructor|].
  destruct ds as [|d ds]; [constructor|].
  cbn [zip_with concat]. apply Forall_app. split.
  - apply Forall_forall. intros item Hin. apply list_elem_of_In in Hin.
    apply in_map_iff in Hin as (raw & <- & _).
    split; [now left|]. rewrite <- tagItem_shownAs. apply tagItem_boardName.
  - eapply Forall_impl; [apply IH|]. intros item [Hin Hname]. split; [now right | exact Hname].
Qed.

Section WithApi.
Context {World : Type}.
Variable monday_api : string -> World -> Settled (ApiResponse (option QueryData)) * World.

(** With no column selected the loop skips every board. *)
Lemma fetchItems_no_columns nab todo :
  forall acc w, Fetcher.fetchItems monday_api [] nab todo acc w = (inr acc, w).
Proof. induction todo as [|bid todo IH]; intros acc w; [reflexivity | apply IH]. Qed.

(** A loop whose queries are all served appends, board after board, the
    items each response lists. *)
Lemma fetchItems_served cols nab todo :
  cols <> [] ->
  forall acc w ds w',
    servedInOrder monday_api cols todo w ds w' ->
    Fetcher.fetchItems monday_api cols nab todo acc w
    = (inr (acc ++ concat (zip_with
                             (fun bid d => map (shownAs nab bid)
                                               (default [] (Fetcher.itemsOf d)))
                             todo ds))%list,
       w').
Proof.
  intros Hcols. induction todo as [|bid todo IH]; intros acc w ds w' Hserved.
  - destruct ds; [|contradiction]. cbn in Hserved |- *. subst w'. now rewrite app_nil_r.
  - destruct ds as [|d ds]; [contradiction|].
    destruct Hserved as (w1 & Hquery & Hrest).
    cbn [Fetcher.fetchItems]. rewrite (length_eqb_0 _ Hcols), Hquery.
    cbn [zip_with concat].
    destruct (Fetcher.itemsOf d) as [its|].
    + rewrite (IH _ _ _ _ Hrest).
      change (default [] (Some its)) with its.
      rewrite <- app_assoc.
      now rewrite (map_ext _ _ (tagItem_shownAs nab bid)).
    + rewrite (IH _ _ _ _ Hrest). reflexivity.
Qed.

Lemma catch_untouched error st :
  untouched (Fetcher.fetchBoardData_catch error st) = untouched st.
Proof. unfold Fetcher.fetchBoardData_catch. now destruct (Js.includes _ _). Qed.

Lemma settle_untouched o st :
  untouched (Fetcher.fetchBoardData_settle o st) = untouched st.
Proof.
  destruct o; unfold Fetcher.fetchBoardData_settle.
  - change (untouched (Fetcher.fetchBoardData_catch error st) = untouched st).
    apply catch_untouched.
  - change (untouched (Fetcher.fetchBoardData_catch error (setAllBoardsData newAllBoardsData st))
            = untouched st).
    now rewrite catch_untouched.
  - reflexivity.
Qed.

(** A refresh that started with both error fields cleared ends with at
    most one of them set. *)
Lemma settle_one_error o st :
  columnsError st = None -> itemsError st = None ->
  columnsError (Fetcher.fetchBoardData_settle o st) = None
  \/ itemsError (Fetcher.fetchBoardData_settle o st) = None.
Proof.
  intros Hc Hi. destruct o; cbn; unfold Fetcher.fetchBoardData_catch;
    try destruct (Js.includes _ _); cbn; auto.
Qed.

Lemma fetchBoardData_untouched st w :
  untouched (fst (Fetcher.fetchBoardData monday_api st w)) = untouched st.
Proof.
  unfold Fetcher.fetchBoardData.
  destruct (length (selectedBoardIds st) =? 0)%nat; [reflexivity|].
  destruct (Fetcher.fetchBoardData_await monday_api _ _ w) as [o w'].
  cbn [fst]. now rewrite settle_untouched.
Qed.

End WithApi.
End FetcherMoreFacts.

Module FetcherProperties.
Import FetcherSpec.

(** X7.  A refresh with boards selected but no column selected sends the
    column query only: the loop skips every board, so once the column
    query is served the refresh ends without error, files the boards it
    found and empties [boardItems]. *)
Theorem no_columns_selected_empties_items {World : Type}
    (monday_api : string -> World -> Settled (ApiResponse (option QueryData)) * World)
    (st : AppState) (w : World) (columnsData : option QueryData) (w1 : World) :
  selectedBoardIds st <> [] ->
  selectedColumnIds st = [] ->
  Fetcher.run_query monday_api Queries.GET_BOARD_COLUMNS_QUERY w = (Resolved columnsData, w1) ->
  exists st',
    Fetcher.fetchBoardData monday_api st w = (st', w1)
    /\ boardItems st' = []
    /\ allBoardsData st' = Fetcher.collectBoards (selectedBoardIds st) columnsData
    /\ columnsError st' = None
    /\ itemsError st' = None
    /\ isPolling st' = false.
Proof.
  intros Hsel Hcols Hcolumns. unfold Fetcher.fetchBoardData.
  rewrite (FetcherMoreFacts.length_eqb_0 _ Hsel).
  unfold Fetcher.fetchBoardData_await. rewrite Hcolumns, Hcols.
  rewrite FetcherMoreFacts.fetchItems_no_columns.
  eexists. split; [reflexivity|]. now repeat split.
Qed.

(** The sample component after its last column was deselected. *)
Lemma no_columns_selected_witness :
  exists st',
    Fetcher.fetchBoardData FetcherSamples.api FetcherMoreSamples.noColumns 0%nat = (st', 1%nat)
    /\ boardItems FetcherMoreSamples.noColumns = [FetcherSamples.shownItem]
    /\ boardItems st' = [].
Proof.
  edestruct (no_columns_selected_empties_items
               FetcherSamples.api FetcherMoreSamples.noColumns 0%nat)
    as (st' & Hrun & Hitems & _).
  - discriminate.
  - reflexivity.
  - lazy. reflexivity.
  - exists st'. split; [exact Hrun|]. split; [reflexivity | exact Hitems].
Defined.

(** X8.  When the column query and then the item queries of the selected
    boards, sent one after the other in selection order, are all served,
    the refresh ends in the world the last query leaves, without error,
    and [boardItems] is the concatenation, in selection order, of one
    group per selected board: the items that the response for that board
    lists (none when it lists no items), each with its own id, name and
    column values, the id of the board, and the board's label -- the name
    filed from the column query when there is one and it is not empty;
    for an id that is not filed and spells a built-in property of objects
    ([constructor], [toString], ...), the name of that property; otherwise
    "Board <id>".  Hence every item carries the id of a selected board and
    a non-empty board name. *)
Theorem fetched_items_grouped_by_board {World : Type}
    (monday_api : string -> World -> Settled (ApiResponse (option QueryData)) * World)
    (st : AppState) (w : World)
    (columnsData : option QueryData) (w1 : World)
    (ds : list (option QueryData)) (w' : World) :
  selectedBoardIds st <> [] ->
  selectedColumnIds st <> [] ->
  Fetcher.run_query monday_api Queries.GET_BOARD_COLUMNS_QUERY w = (Resolved columnsData, w1) ->
  servedInOrder monday_api (selectedColumnIds st) (selectedBoardIds st) w1 ds w' ->
  exists st',
    Fetcher.fetchBoardData monday_api st w = (st', w')
    /\ allBoardsData st' = Fetcher.collectBoards (selectedBoardIds st) columnsData
    /\ boardItems st'
       = concat (zip_with
                   (fun bid d => map (shownAs (allBoardsData st') bid)
                                     (default [] (Fetcher.itemsOf d)))
                   (selectedBoardIds st) ds)
    /\ columnsError st' = None
    /\ itemsError st' = None
    /\ isPolling st' = false
    /\ Forall (fun item => In (boardId item) (selectedBoardIds st) /\ boardName item <> "")
              (boardItems st').
Proof.
  intros Hsel Hcols Hcolumns Hserved. unfold Fetcher.fetchBoardData.
  rewrite (FetcherMoreFacts.length_eqb_0 _ Hsel).
  unfold Fetcher.fetchBoardData_await. rewrite Hcolumns.
  rewrite (FetcherMoreFacts.fetchItems_served monday_api _ _ _ Hcols [] w1 ds w' Hserved).
  eexists. split; [reflexivity|].
  cbn [Fetcher.fetchBoardData_settle boardItems allBoardsData columnsError itemsError isPolling
       setIsPolling setBoardItems setAllBoardsData app].
  split; [reflexivity|]. split; [reflexivity|]. split; [reflexivity|].
  split; [reflexivity|]. split; [reflexivity|].
  apply FetcherMoreFacts.groups_tagged.
Qed.

(** Board [b1] of the sample host: one item, shown under [b1] / [Alpha]. *)
Lemma fetched_items_witness :
  servedInOrder FetcherSamples.api ["c1"] ["b1"] 1%nat
    [Some {| boards := Some [ {| board_id := "b1"; board_name := "Alpha";
                                 board_columns := None;
                                 items_page :=
                                   Some {| items := Some [FetcherSamples.taskOfB1] |} |} ] |}]
    2%nat
  /\ exists st',
      Fetcher.fetchBoardData FetcherSamples.api FetcherMoreSamples.onlyB1 0%nat = (st', 2%nat)
      /\ boardItems st' = [FetcherMoreSamples.taggedTask].
Proof.
  assert (Hserved :
            servedInOrder FetcherSamples.api ["c1"] ["b1"] 1%nat
              [Some {| boards := Some [ {| board_id := "b1"; board_name := "Alpha";
                                           board_columns := None;
                                           items_page :=
                                             Some {| items := Some [FetcherSamples.taskOfB1] |}
                                        |} ] |}]
              2%nat).
  { exists 2%nat. split; [lazy; reflexivity | reflexivity]. }
  split; [exact Hserved|].
  edestruct (fetched_items_grouped_by_board FetcherSamples.api FetcherMoreSamples.onlyB1 0%nat)
    as (st' & Hrun & Hfiled & Hitems & _).
  - discriminate.
  - discriminate.
  - lazy. reflexivity.
  - exact Hserved.
  - exists st'. split; [exact Hrun|]. rewrite Hitems, Hfiled. vm_compute. reflexivity.
Defined.

(** X9.  What the column query files under a board id: nothing when the
    id is not selected; otherwise the entry of the last board of the
    response with that id -- its id, its name and its columns, an absent
    column list read as empty -- and nothing when the response has no such
    board. *)
Theorem collectBoards_lookup (selected : list string) (bs : list BoardData) (bid : string) :
  Fetcher.collectBoards selected (Some {| boards := Some bs |}) !! bid
  = if Js.arr_includes selected bid
    then option_map infoOf (Js.find (fun b => String.eqb (board_id b) bid) (rev bs))
    else None.
Proof.
  unfold Fetcher.collectBoards. cbn [boards].
  rewrite FetcherMoreFacts.collectBoards_fold.
  destruct (Js.arr_includes selected bid); [|apply lookup_empty].
  destruct (Js.find _ (rev bs)); [reflexivity | apply lookup_empty].
Qed.

(** X10.  A refresh never touches the selection, the sidebar flag, the
    three loading flags or [appError]; it ends with at most one of
    [columnsError] and [itemsError] set.  With a board selected it ends
    with [isPolling] lowered.  With no board selected it makes no request,
    empties [allBoardsData] and [boardItems], clears both errors and leaves
    [isPolling] as it found it. *)
Theorem refresh_frame {World : Type}
    (monday_api : string -> World -> Settled (ApiResponse (option QueryData)) * World)
    (st : AppState) (w : World) :
  untouched (fst (Fetcher.fetchBoardData monday_api st w)) = untouched st
  /\ (columnsError (fst (Fetcher.fetchBoardData monday_api st w)) = None
      \/ itemsError (fst (Fetcher.fetchBoardData monday_api st w)) = None)
  /\ (selectedBoardIds st <> [] ->
      isPolling (fst (Fetcher.fetchBoardData monday_api st w)) = false)
  /\ (selectedBoardIds st = [] ->
      Fetcher.fetchBoardData monday_api st w
      = (setItemsError None (setColumnsError None (setBoardItems [] (setAllBoardsData ∅ st))),
         w)).
Proof.
  unfold Fetcher.fetchBoardData.
  destruct (selectedBoardIds st) as [|b bs] eqn:Hsel.
  - cbn. repeat split; auto. intros H. congruence.
  - cbn [length Nat.eqb].
    destruct (Fetcher.fetchBoardData_await monday_api (b :: bs) (selectedColumnIds st) w)
      as [o w'].
    cbn [fst]. split; [|split; [|split]].
    + now rewrite FetcherMoreFacts.settle_untouched.
    + now apply FetcherMoreFacts.settle_one_error.
    + intros _. now destruct o.
    + discriminate.
Qed.

(** X11.  When the executor rejects the column query, the refresh sends
    nothing else and keeps [boardItems] and [allBoardsData] as they were.
    Where the failure is reported depends on the text of the error alone:
    under [columnsError] when the message contains ["columns"], under
    [itemsError] -- "Error loading items: ..." -- otherwise. *)
Theorem rejected_column_query_keeps_data {World : Type}
    (monday_api : string -> World -> Settled (ApiResponse (option QueryData)) * World)
    (st : AppState) (w : World) (error : JsError) (w1 : World) :
  selectedBoardIds st <> [] ->
  Fetcher.run_query monday_api Queries.GET_BOARD_COLUMNS_QUERY w = (Rejected error, w1) ->
  exists st',
    Fetcher.fetchBoardData monday_api st w = (st', w1)
    /\ boardItems st' = boardItems st
    /\ allBoardsData st' = allBoardsData st
    /\ isPolling st' = false
    /\ (if Js.includes (err_message error) "columns"
        then columnsError st'
             = Some ("Error loading columns: " ++ err_message error
                     ++ ". Please check selected boards.")
             /\ itemsError st' = None
        else itemsError st' = Some ("Error loading items: " ++ err_message error ++ ".")
             /\ columnsError st' = None).
Proof.
  intros Hsel Hcolumns. unfold Fetcher.fetchBoardData.
  rewrite (FetcherMoreFacts.length_eqb_0 _ Hsel).
  unfold Fetcher.fetchBoardData_await. rewrite Hcolumns.
  eexists. split; [reflexivity|].
  unfold Fetcher.fetchBoardData_settle, Fetcher.fetchBoardData_catch.
  destruct (Js.includes (err_message error) "columns");
    (split; [|split; [|split; [|split]]]); reflexivity.
Qed.

(** A host that denies every request: the failure of the column query is
    reported as an item error. *)
Lemma rejected_column_query_witness :
  exists st',
    Fetcher.fetchBoardData (Samples.apiThrowing "Permission denied") FetcherSamples.loaded 0%nat
    = (st', 1%nat)
    /\ boardItems st' = [FetcherSamples.shownItem]
    /\ itemsError st' = Some "Error loading items: Permission denied."
    /\ columnsError st' = None.
Proof.
  edestruct (rejected_column_query_keeps_data
               (Samples.apiThrowing "Permission denied") FetcherSamples.loaded 0%nat
               (new_Error "Permission denied") 1%nat)
    as (st' & Hrun & Hitems & _ & _ & Herr).
  - discriminate.
  - lazy. reflexivity.
  - exists st'. split; [exact Hrun|]. split; [exact Hitems|]. exact Herr.
Defined.

End FetcherProperties.

(** ** Further properties of the polling timer *)

Module PollingProperties.
Import PollingSpec FetcherSpec.

Lemma background_step_untouched ev s :
  backgroundEvent ev ->
  untouched (Fetcher.app (Fetcher.sysStep ev s)) = untouched (Fetcher.app s).
Proof.
  intros Hev. destruct ev as [| |who o]; try contradiction.
  - cbn. destruct (Fetcher.pollingGuard (Fetcher.app s)); [|reflexivity].
    unfold Fetcher.startFetch.
    now destruct (length (selectedBoardIds (Fetcher.app s)) =? 0)%nat.
  - destruct who; [contradiction|]. cbn.
    destruct (Fetcher.removeFirst Fetcher.Background (Fetcher.inflight s)); [|reflexivity].
    cbn [Fetcher.app]. apply FetcherMoreFacts.settle_untouched.
Qed.

(** X12.  Timer ticks and completions of background refreshes, in any
    number and order, never change the loading flags [isAppLoading],
    [isLoadingColumns] and [isLoadingItems], the selection, the sidebar
    flag or [appError]: the background path shows no loading indicator. *)
Theorem background_events_keep_loading_flags
    (evs : list Fetcher.SysEvent) (s : Fetcher.Sys) :
  Forall backgroundEvent evs ->
  untouched (Fetcher.app (Fetcher.sysRun evs s)) = untouched (Fetcher.app s).
Proof.
  intros Hevs. revert s. induction Hevs as [|ev evs Hev _ IH]; intros s; [reflexivity|].
  cbn. change (fold_left (fun s0 ev0 => Fetcher.sysStep ev0 s0) evs (Fetcher.sysStep ev s))
    with (Fetcher.sysRun evs (Fetcher.sysStep ev s)).
  rewrite IH. now apply background_step_untouched.
Qed.

(** Two ticks and a background completion on the idle sample component. *)
Lemma background_events_witness :
  Forall backgroundEvent PollingSamples.duringLoad
  /\ untouched (Fetcher.app (Fetcher.sysRun PollingSamples.duringLoad PollingSamples.idle))
     = (false, ["b1"], ["c1"], false, false, false, None).
Proof.
  assert (H : Forall backgroundEvent PollingSamples.duringLoad) by (repeat constructor).
  split; [exact H|].
  exact (background_events_keep_loading_flags PollingSamples.duringLoad PollingSamples.idle H).
Defined.

End PollingProperties.

(** ** Selection handlers and the table's columns *)

Module SelectionFacts.
Import SelectionSpec.

Lemma arr_includes_cons l x k :
  Js.arr_includes (x :: l) k = String.eqb k x || Js.arr_includes l k.
Proof. reflexivity. Qed.

Lemma arr_includes_app l1 l2 k :
  Js.arr_includes (l1 ++ l2)%list k = Js.arr_includes l1 k || Js.arr_includes l2 k.
Proof. unfold Js.arr_includes. apply existsb_app. Qed.

Lemma has_app {V} (m1 m2 : JsMap.t V) k :
  JsMap.has (m1 ++ m2)%list k = JsMap.has m1 k || JsMap.has m2 k.
Proof. unfold JsMap.has. apply existsb_app. Qed.

(** The values of the map after the columns [cols] were offered to it. *)
Lemma fold_addColumn_values cols :
  forall (m : JsMap.t Column) (seen : list string),
    (forall k, Js.arr_includes seen k = JsMap.has m k) ->
    JsMap.values (fold_left ColumnsSpec.addColumn cols m)
    = (JsMap.values m ++ firstById seen cols)%list.
Proof.
  induction cols as [|c cols IH]; intros m seen Hseen.
  - cbn. now rewrite app_nil_r.
  - cbn [fold_left firstById]. rewrite Hseen. unfold ColumnsSpec.addColumn at 2.
    destruct (JsMap.has m (col_id c)) eqn:Hhas; cbn [negb].
    + now apply IH.
    + rewrite (ColumnsFacts.set_fresh m (col_id c) c Hhas).
      rewrite (IH _ (col_id c :: seen)).
      * unfold JsMap.values. rewrite map_app. cbn. now rewrite <- app_assoc.
      * intros k. rewrite arr_includes_cons, has_app, Hseen.
        unfold JsMap.has at 2. cbn. rewrite orb_false_r, String.eqb_sym. apply orb_comm.
Qed.

Lemma filter_excludes id (l : list string) :
  Js.arr_includes (List.filter (fun x => negb (String.eqb x id)) l) id = false.
Proof.
  induction l as [|x l IH]; [reflexivity|]. cbn [List.filter].
  destruct (String.eqb x id) eqn:Heq; cbn [negb]; [exact IH|].
  rewrite arr_includes_cons, IH, String.eqb_sym, Heq. reflexivity.
Qed.

Lemma filter_absent id (l : list string) :
  Js.arr_includes l id = false ->
  List.filter (fun x => negb (String.eqb x id)) l = l.
Proof.
  induction l as [|x l IH]; [reflexivity|]. rewrite arr_includes_cons.
  intros H. apply orb_false_iff in H as [Hx Hl]. cbn [List.filter].
  rewrite String.eqb_sym, Hx. cbn [negb]. now rewrite IH.
Qed.

Lemma toggled_twice id prev :
  Selection.toggled id (Selection.toggled id prev)
  = if Js.arr_includes prev id
    then (List.filter (fun x => negb (String.eqb x id)) prev ++ [id])%list
    else prev.
Proof.
  unfold Selection.toggled at 2. destruct (Js.arr_includes prev id) eqn:Hin.
  - unfold Selection.toggled. now rewrite filter_excludes.
  - unfold Selection.toggled. rewrite arr_includes_app, Hin.
    cbn [orb]. unfold Js.arr_includes at 1. cbn [existsb]. rewrite String.eqb_refl. cbn [orb].
    rewrite List.filter_app, (filter_absent id prev Hin). cbn [List.filter].
    rewrite String.eqb_refl. cbn [negb]. apply app_nil_r.
Qed.

Lemma toggled_In id prev x :
  In x (Selection.toggled id prev)
  <-> (x = id /\ ~ In id prev) \/ (x <> id /\ In x prev).
Proof.
  unfold Selection.toggled. destruct (Js.arr_includes prev id) eqn:Hin.
  - apply ViewFacts.arr_includes_In in Hin. rewrite List.filter_In, negb_true_iff. split.
    + intros [Hx Hne]. right. split; [|exact Hx]. now apply String.eqb_neq.
    + intros [[-> Hno]|[Hne Hx]]; [contradiction|].
      split; [exact Hx | now apply String.eqb_neq].
  - assert (~ In id prev) as Hno.
    { intros H. apply ViewFacts.arr_includes_In in H. congruence. }
    rewrite in_app_iff. cbn. split.
    + intros [Hx|[<-|[]]]; [right | left; now split].
      split; [|exact Hx]. intros ->. contradiction.
    + intros [[-> _]|[_ Hx]]; [right; now left | now left].
Qed.

(** Every id that some column of [cols] carries is shown under that id. *)
Lemma columnsForTable_ids (ids : list string) (cols : list Column) :
  (forall id, In id ids -> exists c, In c cols /\ col_id c = id) ->
  map View.meta_id (View.columnsForTable ids cols) = ids.
Proof.
  unfold View.columnsForTable. induction ids as [|id ids IH]; intros Hall; [reflexivity|].
  cbn [omap list_omap].
  destruct (Js.find (fun vc => String.eqb (View.meta_id vc) id) View.virtualColumns)
    as [v|] eqn:Hv.
  - apply List.find_some in Hv as [_ Hid]. apply String.eqb_eq in Hid.
    cbn [map]. rewrite Hid. f_equal. apply IH. intros id' Hin. apply Hall. now right.
  - destruct (Js.find (fun col => String.eqb (col_id col) id) cols) as [col|] eqn:Hcol.
    + apply List.find_some in Hcol as [_ Hid]. apply String.eqb_eq in Hid.
      cbn [option_map map View.meta_id]. rewrite Hid. f_equal.
      apply IH. intros id' Hin. apply Hall. now right.
    + exfalso. destruct (Hall id (or_introl eq_refl)) as (c & Hc & Heq).
      pose proof (List.find_none _ _ Hcol c Hc) as Hno. cbn in Hno.
      rewrite Heq, String.eqb_refl in Hno. discriminate.
Qed.

Lemma filter_selected_all (cols : list Column) :
  List.filter (fun col => Js.arr_includes (map col_id cols) (col_id col)) cols = cols.
Proof.
  assert (forall l, (forall c, In c l -> In c cols) ->
                    List.filter (fun col => Js.arr_includes (map col_id cols) (col_id col)) l
                    = l) as H.
  { induction l as [|c l IH]; intros Hsub; [reflexivity|]. cbn [List.filter].
    assert (Js.arr_includes (map col_id cols) (col_id c) = true) as ->.
    { apply ViewFacts.arr_includes_In, in_map, Hsub. now left. }
    f_equal. apply IH. intros c' Hc'. apply Hsub. now right. }
  now apply H.
Qed.

Lemma filter_selected_none (cols : list Column) :
  List.filter (fun col => Js.arr_includes [] (col_id col)) cols = [].
Proof. induction cols as [|c cols IH]; [reflexivity | exact IH]. Qed.

(** The ids of the table's columns. *)
Lemma tableColumns_ids (st : AppState) :
  map View.meta_id (Selection.tableColumns st)
  = "board_name_column" :: "item_name_column"
    :: map col_id
         (List.filter (fun col => Js.arr_includes (selectedColumnIds st) (col_id col))
            (Columns.allAvailableColumnsForSelectedBoards
               (selectedBoardIds st) (allBoardsData st))).
Proof.
  unfold Selection.tableColumns, Selection.columnsToDisplayInTable.
  apply (columnsForTable_ids ("board_name_column" :: "item_name_column" :: map col_id _)).
  intros id [<-|[<-|Hin]].
  - exists Selection.boardNameColumn. split; [now left | reflexivity].
  - exists Selection.itemNameColumn. split; [right; now left | reflexivity].
  - apply in_map_iff in Hin as (c & <- & Hc).
    exists c. split; [right; now right | reflexivity].
Qed.

End SelectionFacts.

Module SelectionProperties.
Import SelectionSpec.

(** X13.  The unified column list is the list of the columns of the
    selected boards, in selection order and board order, from which every
    column whose id was already seen is dropped: the first column of each
    id, in order of first appearance. *)
Theorem unified_columns_in_first_seen_order
    (selectedBoardIds : list string) (allBoardsData : gmap string BoardInfo) :
  Columns.allAvailableColumnsForSelectedBoards selectedBoardIds allBoardsData
  = firstById [] (Columns.columnsInOrder selectedBoardIds allBoardsData).
Proof.
  unfold Columns.allAvailableColumnsForSelectedBoards.
  rewrite ColumnsFacts.nested_fold.
  now rewrite (SelectionFacts.fold_addColumn_values _ JsMap.empty []).
Qed.

(** X14.  Toggling a board (a column) flips its membership in the
    selection and no other: afterwards an id is selected exactly when it is
    the toggled id and was not selected, or is another id and was
    selected; toggling off removes every occurrence of the id.  Toggling
    the same id twice restores the selection when the id was not selected;
    when it was, the id ends up once, at the end of the selection. *)
Theorem toggle_flips_membership (id x : string) (st : AppState) :
  (In x (selectedBoardIds (Selection.handleBoardToggle id st))
   <-> (x = id /\ ~ In id (selectedBoardIds st)) \/ (x <> id /\ In x (selectedBoardIds st)))
  /\ (In x (selectedColumnIds (Selection.handleColumnToggle id st))
      <-> (x = id /\ ~ In id (selectedColumnIds st))
          \/ (x <> id /\ In x (selectedColumnIds st)))
  /\ selectedColumnIds (Selection.handleBoardToggle id st) = selectedColumnIds st
  /\ selectedBoardIds (Selection.handleColumnToggle id st) = selectedBoardIds st
  /\ selectedBoardIds (Selection.handleBoardToggle id (Selection.handleBoardToggle id st))
     = (if Js.arr_includes (selectedBoardIds st) id
        then (List.filter (fun y => negb (String.eqb y id)) (selectedBoardIds st) ++ [id])%list
        else selectedBoardIds st)
  /\ selectedColumnIds (Selection.handleColumnToggle id (Selection.handleColumnToggle id st))
     = (if Js.arr_includes (selectedColumnIds st) id
        then (List.filter (fun y => negb (String.eqb y id)) (selectedColumnIds st) ++ [id])%list
        else selectedColumnIds st).
Proof.
  split; [apply SelectionFacts.toggled_In|].
  split; [apply SelectionFacts.toggled_In|].
  split; [reflexivity|]. split; [reflexivity|].
  split; apply SelectionFacts.toggled_twice.
Qed.

(** X15.  The table built from [App]'s column list shows the board column
    first, with the type [board_link] of [TaskTable]'s virtual column, not
    the [board_name] that [App] gave it; then the task-name column; then,
    under their own ids, the available columns that are selected, in the
    order of the unified list, whatever the order of the selection.  After
    "select all fields" these are all the columns of the unified list;
    after "deselect all fields" the two static columns are left. *)
Theorem table_shows_static_then_selected
    (toast_available : Selection.ToastKind -> bool) (st : AppState) :
  (exists metas,
      Selection.tableColumns st
      = {| View.meta_id := "board_name_column"; View.meta_title := "Board";
           View.meta_type := "board_link" |}
        :: {| View.meta_id := "item_name_column"; View.meta_title := "Task Name";
              View.meta_type := "item_name" |}
        :: metas
      /\ map View.meta_id metas
         = map col_id
             (List.filter (fun col => Js.arr_includes (selectedColumnIds st) (col_id col))
                (Columns.allAvailableColumnsForSelectedBoards
                   (selectedBoardIds st) (allBoardsData st))))
  /\ map View.meta_id
         (Selection.tableColumns (fst (Selection.handleSelectAllColumns toast_available st)))
     = "board_name_column" :: "item_name_column"
       :: map col_id (Columns.allAvailableColumnsForSelectedBoards
                        (selectedBoardIds st) (allBoardsData st))
  /\ map View.meta_id
         (Selection.tableColumns (fst (Selection.handleDeselectAllColumns toast_available st)))
     = ["board_name_column"; "item_name_column"].
Proof.
  split; [|split].
  - unfold Selection.tableColumns, Selection.columnsToDisplayInTable.
    set (filtered := List.filter _ _).
    pose proof (SelectionFacts.columnsForTable_ids
                  (map col_id (Selection.boardNameColumn :: Selection.itemNameColumn :: filtered))
                  (Selection.boardNameColumn :: Selection.itemNameColumn :: filtered)) as Hids.
    unfold View.columnsForTable in *. cbn [map omap list_omap] in Hids |- *.
    cbn in Hids |- *. eexists. split; [reflexivity|].
    assert (forall a b (l l' : list string), a :: b :: l = a :: b :: l' -> l = l') as Hinv
        by (intros a b l l' H; now inversion H).
    apply (Hinv "board_name_column" "item_name_column"). apply Hids.
    intros id [<-|[<-|Hin]].
    + exists Selection.boardNameColumn. split; [now left | reflexivity].
    + exists Selection.itemNameColumn. split; [right; now left | reflexivity].
    + apply in_map_iff in Hin as (c & <- & Hc).
      exists c. split; [right; now right | reflexivity].
  - rewrite SelectionFacts.tableColumns_ids.
    cbn [fst Selection.handleSelectAllColumns selectedBoardIds selectedColumnIds allBoardsData
         setSelectedColumnIds].
    now rewrite SelectionFacts.filter_selected_all.
  - rewrite SelectionFacts.tableColumns_ids.
    cbn [fst Selection.handleDeselectAllColumns selectedBoardIds selectedColumnIds allBoardsData
         setSelectedColumnIds].
    now rewrite SelectionFacts.filter_selected_none.
Qed.

(** X16.  Opening the sidebar for the first time fetches the board list
    with one query; when it is served with a non-empty list, "select all
    boards" then selects exactly the listed boards, in order, without
    another request.  Closing the sidebar makes no request. *)
Theorem opened_sidebar_serves_select_all {World : Type}
    (monday_api : string -> World -> Settled (ApiResponse (option QueryData)) * World)
    (toast_available : Selection.ToastKind -> bool)
    (st : AppState) (sb : Selection.SidebarBoards) (w w1 : World)
    (b : BoardData) (bs : list BoardData) :
  isSidebarOpen st = false ->
  Selection.allAvailableBoardsForSidebar sb = [] ->
  Selection.isFetchingAllBoardsForSidebar sb = false ->
  Fetcher.run_query monday_api Documents.GET_BOARDS_QUERY w
  = (Resolved (Some {| boards := Some (b :: bs) |}), w1) ->
  exists st1 sb1 toasts1 st2 toasts2,
    Selection.toggleSidebar monday_api toast_available st sb w = (st1, sb1, w1, toasts1)
    /\ isSidebarOpen st1 = true
    /\ Selection.allAvailableBoardsForSidebar sb1 = b :: bs
    /\ Selection.handleSelectAllBoards monday_api toast_available st1 sb1 w1
       = (st2, sb1, w1, toasts2)
    /\ selectedBoardIds st2 = map board_id (b :: bs)
    /\ Selection.toggleSidebar monday_api toast_available st1 sb1 w1
       = (setIsSidebarOpen false st1, sb1, w1, []).
Proof.
  intros Hclosed Hnone Hidle Hquery.
  unfold Selection.toggleSidebar at 1, Selection.fetchBoardsForSidebarSelection.
  rewrite Hclosed, Hnone, Hidle. cbn [negb length Nat.eqb andb]. rewrite Hquery.
  cbn [boards]. do 5 eexists.
  split; [reflexivity|]. split; [reflexivity|]. split; [reflexivity|].
  split; [reflexivity|]. split; reflexivity.
Qed.

(** The sample sidebar on a host that lists two boards. *)
Lemma opened_sidebar_witness :
  exists st1 sb1 toasts1 st2 toasts2,
    Selection.toggleSidebar SelectionSamples.apiBoards SelectionSamples.allToasts
      initialAppState SelectionSamples.unopened 0%nat
    = (st1, sb1, 1%nat, toasts1)
    /\ isSidebarOpen st1 = true
    /\ Selection.allAvailableBoardsForSidebar sb1 = SelectionSamples.listedBoards
    /\ Selection.handleSelectAllBoards SelectionSamples.apiBoards SelectionSamples.allToasts
         st1 sb1 1%nat
       = (st2, sb1, 1%nat, toasts2)
    /\ selectedBoardIds st2 = ["b1"; "b2"]
    /\ Selection.toggleSidebar SelectionSamples.apiBoards SelectionSamples.allToasts
         st1 sb1 1%nat
       = (setIsSidebarOpen false st1, sb1, 1%nat, []).
Proof.
  refine (opened_sidebar_serves_select_all SelectionSamples.apiBoards SelectionSamples.allToasts
            initialAppState SelectionSamples.unopened 0%nat 1%nat _ _
            eq_refl eq_refl eq_refl _).
  lazy. reflexivity.
Defined.

End SelectionProperties.

(** ** Further properties of the settings store *)

Module SettingsMoreFacts.
Import Settings SettingsSpec SettingsFacts DocumentSpec.

Section WithJSON.
Variable JSON_parse : string -> option Json.
Variable JSON_stringify : Json -> string.

(** Reading a document of any generation. *)
Lemma applyParsedSettings_document (s : string) (st0 : AppState) (h : Host)
      (bs cs : option (list string)) (d p o : option bool) :
  JSON_parse s = Some (storedDocument bs cs d p o) ->
  applyParsedSettings JSON_parse s (st0, h)
  = Some (Resolved tt,
          (match firstDefined d p o with
           | Some b => setIsSidebarOpen b
           | None => fun st => st
           end
             (match cs with Some l => setSelectedColumnIds l | None => fun st => st end
                (match bs with Some l => setSelectedBoardIds l | None => fun st => st end st0)),
           h)).
Proof.
  intros Hparse. unfold applyParsedSettings, bind, parse. rewrite Hparse.
  unfold ret at 1.
  destruct bs as [bs|], cs as [cs|], d as [d|], p as [p|], o as [o|];
    cbn -[JsonOps.asStringList]; unfold setIds;
    rewrite ?asStringList_strings; reflexivity.
Qed.

(** The inner [try] block changes the component only, never the host. *)
Lemma applyParsedSettings_host (s : string) (s0 : St) r (s1 : St) :
  applyParsedSettings JSON_parse s s0 = Some (r, s1) -> snd s1 = snd s0.
Proof.
  destruct s0 as [st0 h]. unfold applyParsedSettings, bind, parse, prop, setIds, setOpen.
  destruct (JSON_parse s) as [v|]; [|intros H; now inversion H].
  unfold ret at 1.
  repeat match goal with
         | |- context [match JsonOps.get ?v ?k with _ => _ end] =>
             destruct (JsonOps.get v k) as [[?|]|]
         | |- context [if JsonOps.truthy ?v then _ else _] => destruct (JsonOps.truthy v)
         | |- context [match JsonOps.asStringList ?v with _ => _ end] =>
             destruct (JsonOps.asStringList v)
         | |- context [match JsonOps.asBool ?v with _ => _ end] =>
             destruct (JsonOps.asBool v)
         | |- _ => progress cbn [ret throw untyped setState fst snd]
         end;
    intros H; inversion H; reflexivity.
Qed.

Lemma typedIds_installs v k j :
  typedIds (fieldOf v k) -> JsonOps.get v k = Some (Some j) -> JsonOps.truthy j = true ->
  JsonOps.asStringList j <> None.
Proof.
  unfold fieldOf. intros H Hget Ht. rewrite Hget in H. cbn in H.
  destruct H as [H|(ids & ->)]; congruence.
Qed.

(** On a document with typed fields the inner [try] block settles. *)
Lemma applyParsedSettings_typed (s : string) (s0 : St) :
  (forall v, JSON_parse s = Some v -> typedDocument v) ->
  exists r s1, applyParsedSettings JSON_parse s s0 = Some (r, s1).
Proof.
  intros Htyped. destruct s0 as [st0 h].
  unfold applyParsedSettings, bind, parse, prop, setIds, setOpen, ret, throw, setState, untyped.
  destruct (JSON_parse s) as [v|]; [|eexists _, _; reflexivity].
  destruct (Htyped v eq_refl) as (Hb & Hc & Hf).
  pose proof (fun j => typedIds_installs v "selectedBoardIds" j Hb) as Hb'.
  pose proof (fun j => typedIds_installs v "selectedColumnIds" j Hc) as Hc'.
  unfold fieldOf, typedFlag, firstDefined in Hf. clear Hb Hc Htyped.
  repeat first
    [ match goal with
      | |- context [match JsonOps.get v ?k with _ => _ end] =>
          destruct (JsonOps.get v k) as [[?j|]|] eqn:?Hg
      end
    | match goal with
      | |- context [if JsonOps.truthy ?j then _ else _] =>
          destruct (JsonOps.truthy j) eqn:?Ht
      end
    | match goal with
      | |- context [match JsonOps.asStringList ?j with _ => _ end] =>
          destruct (JsonOps.asStringList j) eqn:?Hs
      end
    | match goal with
      | |- context [match JsonOps.asBool ?j with _ => _ end] =>
          destruct (JsonOps.asBool j) eqn:?Ha
      end
    | progress cbv beta iota ];
    try (eexists _, _; reflexivity);
    exfalso;
    first [ now eapply Hb' | now eapply Hc'
          | repeat match goal with
                   | H : JsonOps.get v _ = _ |- _ => try rewrite H in Hf; revert H
                   end;
            intros; cbn in Hf; destruct Hf as (bv & Hbv); congruence ].
Qed.

(** What a run of [loadSettings] that settles leaves behind. *)
Lemma loadSettings_result (st0 : AppState) (h : Host)
      (r : Settled unit) (st' : AppState) (h' : Host) :
  loadSettings JSON_parse (st0, h) = Some (r, (st', h')) ->
  r = Resolved tt
  /\ isAppLoading st' = false
  /\ (store h' = store h \/ store h' = delete "appSettings" (store h))
  /\ toasts h' = toasts h.
Proof.
  intros Hrun. destruct h as [sto gf sf ra rf ta ts].
  unfold loadSettings, getItem, clearFaultyData, removeItem,
    try_finally, try_catch, bind, getHost, setHost, setState, ret, throw in Hrun.
  cbn [fst snd getItem_fault store removeItem_available removeItem_fault] in Hrun.
  destruct gf as [e|].
  - destruct ra; [destruct rf|]; inversion Hrun; subst; cbn; auto.
  - destruct (sto !! "appSettings") as [[s|[|]]|].
    + destruct (String.eqb s "").
      { inversion Hrun; subst; cbn; auto. }
      match type of Hrun with
      | context [applyParsedSettings JSON_parse s ?s0] =>
          destruct (applyParsedSettings JSON_parse s s0) as [[[[]|err] [st1 h1]]|] eqn:Happly
      end.
      * apply applyParsedSettings_host in Happly. cbn in Happly. subst h1.
        inversion Hrun; subst; cbn; auto.
      * apply applyParsedSettings_host in Happly. cbn in Happly. subst h1.
        cbn [fst snd getItem_fault store removeItem_available removeItem_fault] in Hrun.
        destruct ra; [destruct rf|];
          cbn [fst snd getItem_fault store removeItem_available removeItem_fault] in Hrun;
          inversion Hrun; subst; cbn; auto.
      * discriminate.
    + cbn [fst snd getItem_fault store removeItem_available removeItem_fault] in Hrun.
      destruct ra; [destruct rf|];
        cbn [fst snd getItem_fault store removeItem_available removeItem_fault] in Hrun;
        inversion Hrun; subst; cbn; auto.
    + inversion Hrun; subst; cbn; auto.
    + inversion Hrun; subst; cbn; auto.
Qed.

(** On a host whose stored document has typed fields, [loadSettings]
    settles. *)
Lemma loadSettings_defined (st0 : AppState) (h : Host) :
  typedStore JSON_parse h ->
  exists r s1, loadSettings JSON_parse (st0, h) = Some (r, s1).
Proof.
  intros Htyped. destruct h as [sto gf sf ra rf ta ts].
  unfold typedStore in Htyped. cbn [store] in Htyped.
  unfold loadSettings, getItem, clearFaultyData, removeItem,
    try_finally, try_catch, bind, getHost, setHost, setState, ret, throw.
  cbn [fst snd getItem_fault store removeItem_available removeItem_fault].
  destruct gf as [e|].
  - destruct ra; [destruct rf|]; eexists _, _; reflexivity.
  - destruct (sto !! "appSettings") as [[s|[|]]|] eqn:Hstore.
    + destruct (String.eqb s ""); [eexists _, _; reflexivity|].
      match goal with
      | |- context [applyParsedSettings JSON_parse s ?s0] =>
          destruct (applyParsedSettings_typed s s0 (fun v => Htyped s v eq_refl))
            as (r1 & [st1 h1] & Happly);
          pose proof (applyParsedSettings_host s s0 r1 (st1, h1) Happly) as Hhost;
          rewrite Happly
      end.
      cbn in Hhost. subst h1.
      destruct r1 as [[]|err];
        cbn [fst snd getItem_fault store removeItem_available removeItem_fault];
        [eexists _, _; reflexivity|].
      destruct ra; [destruct rf|];
        cbn [fst snd getItem_fault store removeItem_available removeItem_fault];
        eexists _, _; reflexivity.
    + cbn [fst snd getItem_fault store removeItem_available removeItem_fault].
      destruct ra; [destruct rf|];
        cbn [fst snd getItem_fault store removeItem_available removeItem_fault];
        eexists _, _; reflexivity.
    + eexists _, _; reflexivity.
    + eexists _, _; reflexivity.
Qed.

End WithJSON.
End SettingsMoreFacts.

Module SettingsProperties.
Import Settings SettingsSpec SettingsFacts DocumentSpec.

(** X17.  When [getItem] rejects, [loadSettings] still resolves: it
    reports "Error loading settings: ..." in [appError], leaves the
    selection alone and ends the initial loading.  And it deletes the
    stored settings, which it could not read, whenever the host has a
    [removeItem] that succeeds. *)
Theorem read_failure_discards_saved_settings
    (JSON_parse : string -> option Json) (st0 : AppState) (h : Host) (e : JsError) :
  getItem_fault h = Some e ->
  exists st' h',
    loadSettings JSON_parse (st0, h) = Some (Resolved tt, (st', h'))
    /\ appError st' = Some ("Error loading settings: " ++ err_message e)
    /\ selection st' = selection st0
    /\ isAppLoading st' = false
    /\ store h' = (if removeItem_available h
                   then match removeItem_fault h with
                        | None => delete "appSettings" (store h)
                        | Some _ => store h
                        end
                   else store h).
Proof.
  intros Hget. destruct h as [sto gf sf ra rf ta ts]. cbn in Hget. subst gf.
  unfold loadSettings, getItem, removeItem,
    try_finally, try_catch, bind, getHost, setHost, setState, ret, throw.
  cbn [fst snd getItem_fault store removeItem_available removeItem_fault].
  destruct ra; [destruct rf|]; do 2 eexists; (split; [reflexivity|]); now repeat split.
Qed.

(** Saved settings behind a [getItem] that times out. *)
Lemma read_failure_witness :
  store (SettingsMoreSamples.unreadable "{}") !! "appSettings" = Some (SVString "{}")
  /\ exists st' h',
      loadSettings MiniJSON.parse (initialAppState, SettingsMoreSamples.unreadable "{}")
      = Some (Resolved tt, (st', h'))
      /\ appError st' = Some "Error loading settings: storage timeout"
      /\ store h' !! "appSettings" = None.
Proof.
  split; [vm_compute; reflexivity|].
  destruct (read_failure_discards_saved_settings MiniJSON.parse initialAppState
              (SettingsMoreSamples.unreadable "{}") (new_Error "storage timeout") eq_refl)
    as (st' & h' & Hrun & Herr & _ & _ & Hstore).
  exists st', h'. split; [exact Hrun|]. split; [exact Herr|].
  rewrite Hstore. vm_compute. reflexivity.
Defined.





(** X20.  The auto-save never rejects and never changes the component.
    It leaves every storage entry other than [appSettings] alone; it does
    nothing at all while the settings are still loading; and when
    [setItem] rejects it leaves the storage as it was and raises one error
    toast -- none on a host without [toast.error]. *)
Theorem auto_save_frame
    (JSON_stringify : Json -> string) (st : AppState) (h : Host) :
  exists h',
    saveSettingsAutomatically JSON_stringify (st, h) = Some (Resolved tt, (st, h'))
    /\ (forall k, k <> "appSettings" -> store h' !! k = store h !! k)
    /\ (isAppLoading st = true -> h' = h)
    /\ (forall e, isAppLoading st = false -> setItem_fault h = Some e ->
                  store h' = store h
                  /\ toasts h'
                     = (toasts h ++ if toast_error_available h
                                    then [("Auto-save error: " ++ err_message e)%string]
                                    else [])%list).
Proof.
  destruct h as [sto gf sf ra rf ta ts].
  unfold saveSettingsAutomatically, setItem, toast_error, try_catch, bind, getState,
    getHost, setHost, ret, throw.
  cbn [fst snd setItem_fault toast_error_available].
  destruct (isAppLoading st) eqn:Hload.
  - eexists. split; [reflexivity|]. split; [reflexivity|]. split; [reflexivity|].
    intros e H. discriminate H.
  - cbn [fst snd setItem_fault toast_error_available]. destruct sf as [e|].
    + cbn [fst snd setItem_fault toast_error_available]. destruct ta.
      * eexists. split; [reflexivity|]. split; [reflexivity|]. split; [discriminate|].
        intros e' _ He. inversion He; subst. now split.
      * eexists. split; [reflexivity|]. split; [reflexivity|]. split; [discriminate|].
        intros e' _ He. inversion He; subst. split; [reflexivity|].
        cbn. now rewrite app_nil_r.
    + eexists. split; [reflexivity|]. split; [|split; [discriminate|]].
      * intros k Hk. cbn. now rewrite lookup_insert_ne.
      * intros e _ He. discriminate He.
Qed.

(** X21.  On every host whose stored entry, when it is a string that
    parses, parses to a document with fields of the types of the component
    state (id lists that are arrays of strings, a boolean visibility
    flag) -- whatever else the host stores and whichever of its calls
    reject -- a run of [loadSettings] resolves, ends the initial loading,
    raises no toast, and never writes to the storage: afterwards the
    storage is what it was, or what it was without the [appSettings]
    entry. *)
Theorem loadSettings_only_deletes
    (JSON_parse : string -> option Json) (st0 : AppState) (h : Host) :
  typedStore JSON_parse h ->
  exists st' h',
    loadSettings JSON_parse (st0, h) = Some (Resolved tt, (st', h'))
    /\ isAppLoading st' = false
    /\ (store h' = store h \/ store h' = delete "appSettings" (store h))
    /\ toasts h' = toasts h.
Proof.
  intros Htyped.
  destruct (SettingsMoreFacts.loadSettings_defined JSON_parse st0 h Htyped)
    as (r & [st' h'] & Hrun).
  destruct (SettingsMoreFacts.loadSettings_result JSON_parse st0 h r st' h' Hrun)
    as (-> & Hloaded & Hstore & Htoasts).
  exists st', h'. now repeat split.
Qed.

(** The host holding the document of an earlier generation. *)
Lemma loadSettings_only_deletes_witness :
  typedStore MiniJSON.parse (SettingsSamples.holding SettingsMoreSamples.legacyText)
  /\ exists st' h',
      loadSettings MiniJSON.parse
        (initialAppState, SettingsSamples.holding SettingsMoreSamples.legacyText)
      = Some (Resolved tt, (st', h'))
      /\ isAppLoading st' = false
      /\ (store h' = store (SettingsSamples.holding SettingsMoreSamples.legacyText)
          \/ store h'
             = delete "appSettings"
                      (store (SettingsSamples.holding SettingsMoreSamples.legacyText)))
      /\ toasts h' = [].
Proof.
  assert (H : typedStore MiniJSON.parse
                (SettingsSamples.holding SettingsMoreSamples.legacyText)).
  { intros s v Hs Hv. vm_compute in Hs. inversion Hs; subst s. clear Hs.
    vm_compute in Hv. inversion Hv; subst v. clear Hv.
    split; [|split].
    - right. exists ["b1"]. reflexivity.
    - exact I.
    - exists true. reflexivity. }
  split; [exact H|].
  exact (loadSettings_only_deletes MiniJSON.parse initialAppState
           (SettingsSamples.holding SettingsMoreSamples.legacyText) H).
Defined.

End SettingsProperties.

(** ** Further properties of the view reconciler *)

Module ViewMoreFacts.

Lemma numSub_opp (x y : option Z) : option_map Z.opp (View.numSub x y) = View.numSub y x.
Proof. destruct x as [x|], y as [y|]; cbn; try reflexivity. f_equal. lia. Qed.

(** An array none of whose entries is a person has no person. *)
Lemma filterPersons_no_person (arr : list Json) :
  Forall PeopleSpec.notAPerson arr -> View.filterPersons arr = Some [].
Proof.
  induction 1 as [|p arr (kind & Hkind & Hnot) _ IH]; [reflexivity|].
  cbn [View.filterPersons]. rewrite Hkind, IH.
  destruct kind as [[| | |k| |]|]; try reflexivity.
  destruct (String.eqb k "person") eqn:Heq; [|reflexivity].
  apply String.eqb_eq in Heq. subst k. now destruct Hnot.
Qed.

Section WithBuiltins.
Variable JSON_parse : string -> option Json.

(** An item passes the filters exactly when it passes every entry. *)
Lemma passesAllFilters_forall cft (filters : gmap string (list string)) item :
  View.passesAllFilters JSON_parse cft filters item = true
  <-> (forall columnId vs, filters !! columnId = Some vs ->
                           View.passesFilter JSON_parse cft item (columnId, vs) = true).
Proof.
  unfold View.passesAllFilters. rewrite forallb_forall. split.
  - intros H columnId vs Hvs. apply H. apply list_elem_of_In.
    now apply elem_of_map_to_list.
  - intros H [columnId vs] Hin. apply H. apply elem_of_map_to_list.
    now apply list_elem_of_In.
Qed.

(** Removing an entry that every item passes changes no verdict. *)
Lemma passesAllFilters_inert cft (filters : gmap string (list string)) columnId item :
  (forall vs, filters !! columnId = Some vs ->
              View.passesFilter JSON_parse cft item (columnId, vs) = true) ->
  View.passesAllFilters JSON_parse cft (delete columnId filters) item
  = View.passesAllFilters JSON_parse cft filters item.
Proof.
  intros Hinert. apply Bool.eq_iff_eq_true. rewrite !passesAllFilters_forall. split.
  - intros H c vs Hvs. destruct (decide (c = columnId)) as [->|Hne].
    + now apply Hinert.
    + apply H. now rewrite lookup_delete_ne.
  - intros H c vs Hvs. destruct (decide (c = columnId)) as [->|Hne].
    + now rewrite lookup_delete_eq in Hvs.
    + apply H. now rewrite lookup_delete_ne in Hvs.
Qed.

Lemma passesFilter_hidden cft item columnId vs :
  Js.find (fun col => String.eqb (View.meta_id col) columnId) cft = None ->
  View.passesFilter JSON_parse cft item (columnId, vs) = true.
Proof.
  intros Hnone. unfold View.passesFilter.
  destruct (String.eqb columnId "current_user_filter"); [reflexivity|].
  destruct (length vs =? 0)%nat; [reflexivity|]. now rewrite Hnone.
Qed.

End WithBuiltins.
End ViewMoreFacts.

Module ViewProperties.

(** X22.  A filter entry left on a column that the table does not show
    hides no row: the derived view, filtered and sorted, is the one
    obtained with the entry removed. *)
Theorem filter_on_hidden_column_is_inert
    (JSON_parse : string -> option Json) (Date_getTime : string -> option Z)
    (Array_sort : (Item -> Item -> Z) -> list Item -> list Item)
    (compareOther : string -> View.ColumnMeta -> Item -> Item -> option Z)
    (boardItems : list Item) (sorting : option (string * string))
    (activeFilters : gmap string (list string))
    (columnsForTable : list View.ColumnMeta) (allBoardColumns : list Column)
    (currentUserId : option string) (columnId : string) :
  columnId <> "current_user_filter" ->
  Js.find (fun col => String.eqb (View.meta_id col) columnId) columnsForTable = None ->
  View.filteredAndSortedBoardItems JSON_parse Date_getTime Array_sort compareOther
    boardItems sorting activeFilters columnsForTable allBoardColumns currentUserId
  = View.filteredAndSortedBoardItems JSON_parse Date_getTime Array_sort compareOther
      boardItems sorting (View.handleClearFilter columnId activeFilters)
      columnsForTable allBoardColumns currentUserId.
Proof.
  intros Hne Hhidden.
  unfold View.filteredAndSortedBoardItems, View.handleClearFilter, View.finalFilteredItems.
  rewrite (lookup_delete_ne activeFilters) by congruence.
  assert (forall l,
             List.filter (View.passesAllFilters JSON_parse columnsForTable
                            (delete columnId activeFilters)) l
             = List.filter (View.passesAllFilters JSON_parse columnsForTable activeFilters) l)
    as ->; [|reflexivity].
  intros l. apply List.filter_ext. intros item.
  apply ViewMoreFacts.passesAllFilters_inert.
  intros vs _. now apply ViewMoreFacts.passesFilter_hidden.
Qed.

(** A status filter on a table that shows the date column only. *)
Lemma filter_on_hidden_column_witness :
  View.filteredAndSortedBoardItems MiniJSON.parse RefDate.getTime
    ViewSamples.insertionSort ViewSamples.noOther
    [ViewSamples.blankStatus; ViewSamples.release] None
    (View.handleFilterChange "c1" "Done" true ∅) [ViewSamples.dueMeta] [] None
  = View.filteredAndSortedBoardItems MiniJSON.parse RefDate.getTime
      ViewSamples.insertionSort ViewSamples.noOther
      [ViewSamples.blankStatus; ViewSamples.release] None
      (View.handleClearFilter "c1" (View.handleFilterChange "c1" "Done" true ∅))
      [ViewSamples.dueMeta] [] None.
Proof.
  refine (filter_on_hidden_column_is_inert MiniJSON.parse RefDate.getTime
            ViewSamples.insertionSort ViewSamples.noOther
            [ViewSamples.blankStatus; ViewSamples.release] None
            (View.handleFilterChange "c1" "Done" true ∅) [ViewSamples.dueMeta] [] None "c1"
            _ _).
  - discriminate.
  - reflexivity.
Defined.

(** X23.  While the id of the current user is unknown -- [monday.get]
    has not answered, or answered without a user id -- the "current user
    only" filter has no effect: the derived view is the one obtained with
    the [current_user_filter] entry removed. *)
Theorem my_tasks_filter_needs_user_id
    (JSON_parse : string -> option Json) (Date_getTime : string -> option Z)
    (Array_sort : (Item -> Item -> Z) -> list Item -> list Item)
    (compareOther : string -> View.ColumnMeta -> Item -> Item -> option Z)
    (boardItems : list Item) (sorting : option (string * string))
    (activeFilters : gmap string (list string))
    (columnsForTable : list View.ColumnMeta) (allBoardColumns : list Column)
    (currentUserId : option string) :
  currentUserId = None \/ currentUserId = Some "" ->
  View.filteredAndSortedBoardItems JSON_parse Date_getTime Array_sort compareOther
    boardItems sorting activeFilters columnsForTable allBoardColumns currentUserId
  = View.filteredAndSortedBoardItems JSON_parse Date_getTime Array_sort compareOther
      boardItems sorting (View.handleClearFilter "current_user_filter" activeFilters)
      columnsForTable allBoardColumns currentUserId.
Proof.
  intros Huser.
  unfold View.filteredAndSortedBoardItems, View.handleClearFilter, View.finalFilteredItems.
  assert (forall l,
             List.filter (View.passesAllFilters JSON_parse columnsForTable
                            (delete "current_user_filter" activeFilters)) l
             = List.filter (View.passesAllFilters JSON_parse columnsForTable activeFilters) l)
    as Hsame.
  { intros l. apply List.filter_ext. intros item.
    apply ViewMoreFacts.passesAllFilters_inert. intros vs _. reflexivity. }
  destruct Huser as [-> | ->].
  - now rewrite Hsame.
  - cbn [String.eqb negb]. rewrite !andb_false_r. now rewrite Hsame.
Qed.

(** The filter checked before the context has answered. *)
Lemma my_tasks_filter_witness :
  View.filteredAndSortedBoardItems MiniJSON.parse RefDate.getTime
    ViewSamples.insertionSort ViewSamples.noOther
    [ViewSamples.blankStatus; ViewSamples.release] None
    (View.handleFilterChange "current_user_filter" "true" true ∅)
    [ViewSamples.statusMeta] [] None
  = [ViewSamples.blankStatus; ViewSamples.release].
Proof.
  rewrite (my_tasks_filter_needs_user_id MiniJSON.parse RefDate.getTime
             ViewSamples.insertionSort ViewSamples.noOther
             [ViewSamples.blankStatus; ViewSamples.release] None
             (View.handleFilterChange "current_user_filter" "true" true ∅)
             [ViewSamples.statusMeta] [] None (or_introl eq_refl)).
  vm_compute. reflexivity.
Defined.

(** X24.  The filtered list holds exactly the board items that pass every
    entry of the active filters -- the entries combine by conjunction --
    and that, when the "current user only" filter holds ["true"] and the
    id of the current user is known, mention that user in a people
    column. *)
Theorem shown_items_characterised
    (JSON_parse : string -> option Json)
    (boardItems : list Item) (activeFilters : gmap string (list string))
    (columnsForTable : list View.ColumnMeta) (allBoardColumns : list Column)
    (currentUserId : option string) (item : Item) :
  In item (View.finalFilteredItems JSON_parse boardItems activeFilters columnsForTable
             allBoardColumns currentUserId)
  <-> In item boardItems
      /\ (forall columnId vs,
            activeFilters !! columnId = Some vs ->
            View.passesFilter JSON_parse columnsForTable item (columnId, vs) = true)
      /\ (forall uid vs,
            currentUserId = Some uid -> uid <> "" ->
            activeFilters !! "current_user_filter" = Some vs -> In "true" vs ->
            View.isUserMentioned JSON_parse allBoardColumns uid item = true).
Proof.
  unfold View.finalFilteredItems. rewrite List.filter_In.
  rewrite ViewMoreFacts.passesAllFilters_forall.
  destruct currentUserId as [uid|].
  - destruct (activeFilters !! "current_user_filter") as [vs|] eqn:Hcu.
    + destruct (Js.arr_includes vs "true") eqn:Htrue.
      * destruct (String.eqb uid "") eqn:Huid; cbn [andb negb].
        -- apply String.eqb_eq in Huid. subst uid. split.
           ++ intros [Hin Hpass]. split; [exact Hin|]. split; [exact Hpass|].
              intros uid' vs' Heq Hne. inversion Heq; subst. congruence.
           ++ intros (Hin & Hpass & _). now split.
        -- rewrite List.filter_In. split.
           ++ intros [[Hin Hme] Hpass]. split; [exact Hin|]. split; [exact Hpass|].
              intros uid' vs' Heq _ _ _. now inversion Heq; subst.
           ++ intros (Hin & Hpass & Hme). split; [|exact Hpass]. split; [exact Hin|].
              apply (Hme uid vs eq_refl); [now apply String.eqb_neq | reflexivity|].
              now apply ViewFacts.arr_includes_In.
      * cbn [andb]. split.
        -- intros [Hin Hpass]. split; [exact Hin|]. split; [exact Hpass|].
           intros uid' vs' _ _ Heq Hin'. inversion Heq; subst.
           apply ViewFacts.arr_includes_In in Hin'. congruence.
        -- intros (Hin & Hpass & _). now split.
    + cbn [andb]. split.
      * intros [Hin Hpass]. split; [exact Hin|]. split; [exact Hpass|].
        intros uid' vs' _ _ Heq. discriminate Heq.
      * intros (Hin & Hpass & _). now split.
  - split.
    + intros [Hin Hpass]. split; [exact Hin|]. split; [exact Hpass|].
      intros uid vs Heq. discriminate Heq.
    + intros (Hin & Hpass & _). now split.
Qed.

(** X25.  An item whose people column holds teams only -- a value that
    parses to an object whose [personsAndTeams] array has no entry of kind
    ['person'] -- passes no active filter on that column, whatever values
    are selected, ["No user"] included. *)
Theorem team_only_assignment_passes_no_people_filter
    (JSON_parse : string -> option Json)
    (columnsForTable : list View.ColumnMeta) (item : Item)
    (columnId : string) (selectedValues : list string) (columnMeta : View.ColumnMeta)
    (cv : ColumnValue) (v : string) (parsedValue : Json) (teams : list Json) :
  columnId <> "current_user_filter" ->
  selectedValues <> [] ->
  Js.find (fun col => String.eqb (View.meta_id col) columnId) columnsForTable
  = Some columnMeta ->
  View.isPersonType (View.meta_type columnMeta) = true ->
  Js.find (fun cv => String.eqb (cv_id cv) columnId) (column_values item) = Some cv ->
  View.hasValue cv = Some v ->
  JSON_parse v = Some parsedValue ->
  JsonOps.truthy parsedValue = true ->
  JsonOps.get parsedValue "personsAndTeams" = Some (Some (JArr teams)) ->
  Forall PeopleSpec.notAPerson teams ->
  View.passesFilter JSON_parse columnsForTable item (columnId, selectedValues) = false.
Proof.
  intros Hcol Hsel Hmeta Htype Hcv Hvalue Hparse Htruthy Hget Hteams.
  unfold View.passesFilter.
  apply String.eqb_neq in Hcol. rewrite Hcol.
  destruct selectedValues as [|x xs]; [congruence|]. cbn [length Nat.eqb].
  rewrite Hmeta.
  assert (String.eqb (View.meta_type columnMeta) "status" = false) as ->.
  { unfold View.isPersonType in Htype. apply orb_true_iff in Htype as [H|H];
      apply String.eqb_eq in H; rewrite H; reflexivity. }
  rewrite Htype, Hcv, Hvalue, Hparse.
  unfold View.personsOf. rewrite Htruthy, Hget. cbn [JsonOps.truthy JsonOps.isArray andb].
  now rewrite (ViewMoreFacts.filterPersons_no_person teams Hteams).
Qed.

(** A task assigned to the design team, under a filter selecting
    "No user". *)
Lemma team_only_assignment_witness :
  View.passesFilter MiniJSON.parse [ViewMoreSamples.ownerMeta] ViewMoreSamples.teamTask
                    ("owner", ["No user"]) = false.
Proof.
  refine (team_only_assignment_passes_no_people_filter MiniJSON.parse
            [ViewMoreSamples.ownerMeta] ViewMoreSamples.teamTask "owner" ["No user"]
            ViewMoreSamples.ownerMeta _ ViewMoreSamples.teamOnlyValue
            (JObj [("personsAndTeams", JArr [JObj [("id", JNum 7); ("kind", JStr "team")]])])
            [JObj [("id", JNum 7); ("kind", JStr "team")]]
            _ _ eq_refl eq_refl eq_refl _ _ eq_refl eq_refl _).
  - discriminate.
  - discriminate.
  - vm_compute. reflexivity.
  - vm_compute. reflexivity.
  - constructor; [|constructor]. exists (Some (JStr "team")). split; [reflexivity|].
    intros H. discriminate H.
Defined.

(** X26.  On a date column every sort order other than ["asc"] is the
    ascending comparison with its arguments exchanged, and the ascending
    comparison is antisymmetric; the [NaN] of a text that is not a date is
    [NaN] in both directions. *)
Theorem descending_date_order_is_reversed
    (Date_getTime : string -> option Z)
    (compareOther : string -> View.ColumnMeta -> Item -> Item -> option Z)
    (sortColumnId sortOrder : string) (columnMeta : View.ColumnMeta) (a b : Item) :
  View.meta_type columnMeta = "date" ->
  sortColumnId <> "item_name_column" ->
  sortColumnId <> "board_name_column" ->
  sortOrder <> "asc" ->
  View.compareItems Date_getTime compareOther sortColumnId sortOrder columnMeta a b
  = View.compareItems Date_getTime compareOther sortColumnId "asc" columnMeta b a
  /\ View.compareItems Date_getTime compareOther sortColumnId "asc" columnMeta b a
     = option_map Z.opp
         (View.compareItems Date_getTime compareOther sortColumnId "asc" columnMeta a b).
Proof.
  intros Htype Hname Hboard Horder. unfold View.compareItems.
  apply String.eqb_neq in Hname, Hboard, Horder.
  rewrite Htype, Hname, Hboard, Horder. cbn [String.eqb Ascii.eqb Bool.eqb andb negb].
  now rewrite ViewMoreFacts.numSub_opp.
Qed.

(** The items dated 1969-07-20 and 2024-02-29, in descending order. *)
Lemma descending_date_order_witness :
  View.compareItems RefDate.getTime ViewSamples.noOther "due" "desc" ViewSamples.dueMeta
                    ViewSamples.moonLanding ViewSamples.release
  = Some (1709164800000 - -14256000000).
Proof.
  rewrite (proj1 (descending_date_order_is_reversed RefDate.getTime ViewSamples.noOther
                    "due" "desc" ViewSamples.dueMeta ViewSamples.moonLanding
                    ViewSamples.release eq_refl ltac:(discriminate) ltac:(discriminate)
                    ltac:(discriminate))).
  vm_compute. reflexivity.
Defined.



End ViewProperties.

(** ** The user cache and the editing handlers of the table *)

Module TableFacts.
Import TableSpec.

Lemma normalizedStatusText_nonempty (cv : option ColumnValue) :
  View.normalizedStatusText cv <> "".
Proof.
  unfold View.normalizedStatusText.
  match goal with |- context [Js.trim ?x] => generalize (Js.trim x) end.
  intros t.
  destruct (String.eqb t "-"); [discriminate|].
  destruct (String.eqb t "undefined"); [discriminate|].
  destruct (String.eqb t "null"); [discriminate|].
  destruct (String.eqb t "") eqn:H; [discriminate|].
  cbn. now apply String.eqb_neq in H.
Qed.

Lemma sameStatus_needsUpdate (selectedOption : option Table.StatusOption)
      (item : Item) (columnMeta : View.ColumnMeta) :
  let selectedStatusText :=
    match selectedOption with Some o => Table.opt_label o | None => "" end in
  let isClear :=
    match selectedOption with
    | Some o => String.eqb (Table.opt_id o) "clear"
    | None => false
    end in
  (if isClear then negb (String.eqb (statusShown item columnMeta) "No status")
   else negb (String.eqb (Js.trim selectedStatusText) (statusShown item columnMeta))) = false
  <-> sameStatus selectedOption item columnMeta.
Proof.
  unfold sameStatus. destruct selectedOption as [o|]; cbn zeta.
  - destruct (String.eqb (Table.opt_id o) "clear");
      rewrite negb_false_iff; apply String.eqb_eq.
  - rewrite negb_false_iff. apply String.eqb_eq.
Qed.

Lemma valueToSend_chosenLabel (JSON_stringify : Json -> string)
      (selectedOption : option Table.StatusOption) :
  (if match selectedOption with
      | Some o => String.eqb (Table.opt_id o) "clear"
      | None => false
      end
   then JSON_stringify (JObj [("label", JStr "")])
   else JSON_stringify
          (JObj [("label", JStr match selectedOption with
                                | Some o => Table.opt_label o
                                | None => ""
                                end)]))
  = JSON_stringify (JObj [("label", JStr (chosenLabel selectedOption))]).
Proof.
  unfold chosenLabel. destruct selectedOption as [o|]; [|reflexivity].
  now destruct (String.eqb (Table.opt_id o) "clear").
Qed.

Lemma find_listed (itemId bid : string) (st : AppState) :
  (exists item,
      Js.find (fun item => String.eqb (item_id item) itemId && String.eqb (boardId item) bid)
              (boardItems st) = Some item)
  <-> listed itemId bid st.
Proof.
  unfold listed, Js.find. split.
  - intros (item & Hfind). apply List.find_some in Hfind as [Hin Hp].
    apply andb_true_iff in Hp as [H1 H2].
    apply String.eqb_eq in H1, H2. now exists item.
  - intros (item & Hin & H1 & H2).
    destruct (List.find _ (boardItems st)) as [found|] eqn:Hfind; [now exists found|].
    pose proof (List.find_none _ _ Hfind item Hin) as Hno. cbn in Hno.
    apply (proj2 (String.eqb_eq _ _)) in H1, H2. rewrite H1, H2 in Hno. discriminate.
Qed.

Lemma nameChanged_test (currentName : string) (es : Table.EditState) :
  negb (String.eqb (Js.trim (Table.editedItemName es)) "")
  && negb (String.eqb (Js.trim (Table.editedItemName es)) currentName) = true
  <-> nameChanged currentName es.
Proof.
  unfold nameChanged. rewrite andb_true_iff, !negb_true_iff.
  now rewrite <- !String.eqb_neq.
Qed.

End TableFacts.

Module TableProperties.
Import FetcherSpec TableSpec.



(** X29.  [handleStatusChange] always closes the cell dialog and never
    changes the selection, the loading flags or [appError].  When the
    chosen entry asks for the status the item already shows (the label
    trimmed against the shown text; the entry with id ["clear"] against
    "No status"), nothing is sent and nothing changes.  Otherwise exactly
    the mutation setting the column of the item to the chosen label (the
    empty label for ["clear"] and for no entry) goes through [queryMonday]
    with its retries: when it is rejected, the one alert is raised and the
    component stays as it was; when it resolves, the board data is fetched
    again from where the mutation left the host, and no alert is raised
    whatever that refresh meets.  With no entry chosen the mutation is
    always sent, the shown status never being empty. *)
Theorem status_change_frame {World : Type}
    (monday_api : string -> World -> Settled (ApiResponse (option QueryData)) * World)
    (JSON_stringify : Json -> string)
    (selectedOption : option Table.StatusOption) (item : Item)
    (columnMeta : View.ColumnMeta) (st : AppState) (w : World) :
  exists st' w' alerts,
    Table.handleStatusChange monday_api JSON_stringify selectedOption item columnMeta st w
    = (Table.closedDialog, st', w', alerts)
    /\ untouched st' = untouched st
    /\ (sameStatus selectedOption item columnMeta -> st' = st /\ w' = w /\ alerts = [])
    /\ (~ sameStatus selectedOption item columnMeta ->
        exists o w1 tr,
          Executor.queryMonday monday_api
            (statusMutation JSON_stringify selectedOption item columnMeta) 3 500 w
          = (o, w1, tr)
          /\ match o with
             | Resolved _ =>
                 (st', w') = Fetcher.fetchBoardData monday_api st w1 /\ alerts = []
             | Rejected _ =>
                 st' = st /\ w' = w1 /\ alerts = [Table.statusUpdateAlert]
             end)
    /\ ~ sameStatus None item columnMeta.
Proof.
  assert (Hnone : ~ sameStatus None item columnMeta).
  { unfold sameStatus. change (Js.trim "") with "". intros H. symmetry in H.
    exact (TableFacts.normalizedStatusText_nonempty _ H). }
  pose proof (TableFacts.sameStatus_needsUpdate selectedOption item columnMeta) as Hsame.
  cbn zeta in Hsame.
  unfold Table.handleStatusChange.
  rewrite TableFacts.valueToSend_chosenLabel.
  fold (statusShown item columnMeta).
  fold (statusMutation JSON_stringify selectedOption item columnMeta).
  match goal with
  | |- context [if ?b then match Executor.queryMonday _ _ _ _ _ with _ => _ end else _] =>
      destruct b eqn:Hneeds
  end.
  - assert (Hnot : ~ sameStatus selectedOption item columnMeta).
    { intros H. apply Hsame in H. congruence. }
    destruct (Executor.queryMonday _ _ _ _ _) as [[[data|err] w1] tr].
    + unfold Table.handleItemUpdated.
      pose proof (FetcherMoreFacts.fetchBoardData_untouched monday_api st w1) as Hfr.
      destruct (Fetcher.fetchBoardData monday_api st w1) as [st2 w2] eqn:Hfetch.
      exists st2, w2, []. split; [reflexivity|]. split; [exact Hfr|].
      split; [intros H; destruct (Hnot H)|]. split; [|exact Hnone].
      intros _. exists (Resolved data), w1, tr. now repeat split.
    + exists st, w1, [Table.statusUpdateAlert]. split; [reflexivity|]. split; [reflexivity|].
      split; [intros H; destruct (Hnot H)|]. split; [|exact Hnone].
      intros _. exists (Rejected err), w1, tr. now repeat split.
  - exists st, w, []. split; [reflexivity|]. split; [reflexivity|].
    split; [now repeat split|]. split; [|exact Hnone].
    intros Hnot. destruct (Hnot (proj1 Hsame eq_refl)).
Qed.

(** An item showing "Done": asking for "Stuck" on a host that denies the
    mutation alerts; asking for " Done" sends nothing. *)
Lemma status_change_witness :
  Table.handleStatusChange TableSamples.denied MiniJSON.stringify (Some TableSamples.stuck)
    FetcherMoreSamples.taggedTask ViewSamples.statusMeta FetcherSamples.loaded 0%nat
  = (Table.closedDialog, FetcherSamples.loaded, 1%nat, [Table.statusUpdateAlert])
  /\ Table.handleStatusChange TableSamples.denied MiniJSON.stringify
       (Some {| Table.opt_id := "1"; Table.opt_label := " Done" |})
       FetcherMoreSamples.taggedTask ViewSamples.statusMeta FetcherSamples.loaded 0%nat
     = (Table.closedDialog, FetcherSamples.loaded, 0%nat, []).
Proof.
  split.
  - destruct (status_change_frame TableSamples.denied MiniJSON.stringify
                (Some TableSamples.stuck) FetcherMoreSamples.taggedTask
                ViewSamples.statusMeta FetcherSamples.loaded 0%nat)
      as (st' & w' & alerts & Hrun & _ & _ & Hsend & _).
    destruct Hsend as (o & w1 & tr & Hq & Ho).
    { vm_compute. discriminate. }
    vm_compute in Hq. inversion Hq; subst o w1 tr. clear Hq.
    destruct Ho as (-> & -> & ->). exact Hrun.
  - destruct (status_change_frame TableSamples.denied MiniJSON.stringify
                (Some {| Table.opt_id := "1"; Table.opt_label := " Done" |})
                FetcherMoreSamples.taggedTask
                ViewSamples.statusMeta FetcherSamples.loaded 0%nat)
      as (st' & w' & alerts & Hrun & _ & Hsame & _).
    destruct Hsame as (-> & -> & ->); [vm_compute; reflexivity|]. exact Hrun.
Defined.

(** X30.  [handleSaveEdit] does nothing unless the item is the one being
    edited; when it is, the edit is always closed and the typed text
    dropped.  It never changes the selection, the loading flags or
    [appError].  A name that is blank after trimming, or equal to the
    current name, sends nothing.  Any other name sends exactly the mutation
    renaming the item to the trimmed text through [queryMonday] with its
    retries: when it is rejected, the one alert is raised and the component
    stays as it was; when it resolves, no alert is raised and the board
    data is fetched again from where the mutation left the host, provided
    the table holds a row for the item of that board.  [handleKeyDown]
    saves on Enter, cancels the edit without a request on Escape and
    ignores every other key. *)
Theorem save_edit_frame {World : Type}
    (monday_api : string -> World -> Settled (ApiResponse (option QueryData)) * World)
    (JSON_stringify : Json -> string)
    (itemId bid currentName : string) (es : Table.EditState) (st : AppState) (w : World) :
  (exists es' st' w' alerts,
      Table.handleSaveEdit monday_api JSON_stringify itemId bid currentName es st w
      = (es', st', w', alerts)
      /\ untouched st' = untouched st
      /\ (Table.editingItemId es <> Some itemId ->
          es' = es /\ st' = st /\ w' = w /\ alerts = [])
      /\ (Table.editingItemId es = Some itemId ->
          es' = noEdit
          /\ (~ nameChanged currentName es -> st' = st /\ w' = w /\ alerts = [])
          /\ (nameChanged currentName es ->
              exists o w1 tr,
                Executor.queryMonday monday_api
                  (nameMutation JSON_stringify bid itemId es) 3 500 w
                = (o, w1, tr)
                /\ match o with
                   | Resolved _ =>
                       alerts = []
                       /\ (listed itemId bid st ->
                           (st', w') = Fetcher.fetchBoardData monday_api st w1)
                       /\ (~ listed itemId bid st -> st' = st /\ w' = w1)
                   | Rejected _ =>
                       st' = st /\ w' = w1 /\ alerts = [Table.nameUpdateAlert]
                   end)))
  /\ (forall key,
        Table.handleKeyDown monday_api JSON_stringify key itemId bid currentName es st w
        = if String.eqb key "Enter"
          then Table.handleSaveEdit monday_api JSON_stringify itemId bid currentName es st w
          else if String.eqb key "Escape"
               then (noEdit, st, w, [])
               else (es, st, w, [])).
Proof.
  split; [|reflexivity].
  pose proof (TableFacts.nameChanged_test currentName es) as Htest.
  pose proof (TableFacts.find_listed itemId bid st) as Hlisted.
  unfold Table.handleSaveEdit.
  fold (nameMutation JSON_stringify bid itemId es).
  destruct (Table.editingItemId es) as [editing|] eqn:Hediting.
  - destruct (String.eqb editing itemId) eqn:Heq.
    + apply String.eqb_eq in Heq. subst editing.
      match goal with
      | |- context [if ?b then match Executor.queryMonday _ _ _ _ _ with _ => _ end else _] =>
          destruct b eqn:Hneeds
      end.
      * pose proof (proj1 Htest eq_refl) as Hchanged.
        destruct (Executor.queryMonday _ _ _ _ _) as [[[data|err] w1] tr].
        -- destruct (Js.find _ (boardItems st)) as [updatedItem|] eqn:Hfind.
           ++ unfold Table.handleItemUpdated.
              pose proof (FetcherMoreFacts.fetchBoardData_untouched monday_api st w1) as Hfr.
              destruct (Fetcher.fetchBoardData monday_api st w1) as [st2 w2] eqn:Hfetch.
              exists noEdit, st2, w2, []. split; [reflexivity|]. split; [exact Hfr|].
              split; [congruence|]. intros _. split; [reflexivity|].
              split; [intros H; destruct (H Hchanged)|].
              intros _. exists (Resolved data), w1, tr. split; [reflexivity|].
              split; [reflexivity|]. split; [intros _; now rewrite Hfetch|].
              intros Hno. destruct Hno. apply Hlisted. now exists updatedItem.
           ++ exists noEdit, st, w1, []. split; [reflexivity|]. split; [reflexivity|].
              split; [congruence|]. intros _. split; [reflexivity|].
              split; [intros H; destruct (H Hchanged)|].
              intros _. exists (Resolved data), w1, tr. split; [reflexivity|].
              split; [reflexivity|]. split; [|now split].
              intros Hyes. apply Hlisted in Hyes as (item & Hitem). discriminate Hitem.
        -- exists noEdit, st, w1, [Table.nameUpdateAlert].
           split; [reflexivity|]. split; [reflexivity|].
           split; [congruence|]. intros _. split; [reflexivity|].
           split; [intros H; destruct (H Hchanged)|].
           intros _. exists (Rejected err), w1, tr. now repeat split.
      * exists noEdit, st, w, []. split; [reflexivity|]. split; [reflexivity|].
        split; [congruence|]. intros _. split; [reflexivity|].
        split; [now repeat split|].
        intros Hchanged. apply Htest in Hchanged. congruence.
    + apply String.eqb_neq in Heq.
      exists es, st, w, []. split; [reflexivity|]. split; [reflexivity|].
      split; [now repeat split|]. intros H. congruence.
  - exists es, st, w, []. split; [reflexivity|]. split; [reflexivity|].
    split; [now repeat split|]. intros H. discriminate H.
Qed.

(** Renaming the shown row 7: accepted, the data is fetched again;
    denied, the alert is raised and the rows stay. *)
Lemma save_edit_witness :
  exists st' w',
    Table.handleSaveEdit TableSamples.accepting MiniJSON.stringify "7" "b1" "Earlier row"
      TableSamples.renaming FetcherSamples.loaded 0%nat
    = (noEdit, st', w', [])
    /\ (st', w') = Fetcher.fetchBoardData TableSamples.accepting FetcherSamples.loaded 1%nat
    /\ Table.handleSaveEdit TableSamples.denied MiniJSON.stringify "7" "b1" "Earlier row"
         TableSamples.renaming FetcherSamples.loaded 0%nat
       = (noEdit, FetcherSamples.loaded, 1%nat, [Table.nameUpdateAlert]).
Proof.
  destruct (save_edit_frame TableSamples.accepting MiniJSON.stringify "7" "b1" "Earlier row"
              TableSamples.renaming FetcherSamples.loaded 0%nat)
    as [(es' & st' & w' & alerts & Hrun & _ & _ & Hedit) _].
  destruct (Hedit eq_refl) as (-> & _ & Hsend).
  destruct Hsend as (o & w1 & tr & Hq & Ho).
  { split; vm_compute; discriminate. }
  vm_compute in Hq. inversion Hq; subst o w1 tr. clear Hq.
  destruct Ho as (-> & Hlisted & _).
  exists st', w'. split; [exact Hrun|]. split.
  - apply Hlisted. exists FetcherSamples.shownItem. cbn. tauto.
  - destruct (save_edit_frame TableSamples.denied MiniJSON.stringify "7" "b1" "Earlier row"
                TableSamples.renaming FetcherSamples.loaded 0%nat)
      as [(es2 & st2 & w2 & alerts2 & Hrun2 & _ & _ & Hedit2) _].
    destruct (Hedit2 eq_refl) as (-> & _ & Hsend2).
    destruct Hsend2 as (o & w1 & tr & Hq & Ho).
    { split; vm_compute; discriminate. }
    vm_compute in Hq. inversion Hq; subst o w1 tr. clear Hq.
    destruct Ho as (-> & -> & ->). exact Hrun2.
Defined.

End TableProperties.
